(** * Healem: appointment scheduling core

    A shallow embedding of the appointment model
    (backend/models/Appointment.js), the request validators
    (middleware/validation), the access middleware (middleware/auth.js) and
    the appointment routes (routes/appointments), followed by the properties
    of the scheduling subsystem.

    Conventions of the embedding.
    - A request is handled at one instant [now] (milliseconds since the
      epoch): every [new Date()] evaluated while serving it reads [now].
    - The appointments collection is the list of its documents in natural
      (insertion) order; object ids are integers handed out by a counter.
    - A handler is a function from the store to a response and a store;
      an exception thrown inside its [try] block is a value of [Err].
    - [populate] only decorates responses with display fields of users and
      is left out.
    - The server clock is on UTC, so that [setDate(getDate() + 1)] moves a
      date by 24 hours. *)

From Stdlib Require Import ZArith List String Ascii Bool Lia DecimalString Sorted
  Permutation.
From Stdlib Require OrderedTypeEx.
Import ListNotations.

Open Scope string_scope.
Open Scope Z_scope.

(* ================================================================== *)
(** * JavaScript values the routes compute with *)

Module Js.

(** A [Date] object: a time value, or the Invalid Date (NaN). *)
Inductive Date :=
| Instant (ms : Z)
| InvalidDate.

(** [a <= b] on dates: false as soon as one side is NaN. *)
Definition date_leb (a b : Date) : bool :=
  match a, b with
  | Instant x, Instant y => x <=? y
  | _, _ => false
  end.

Definition day_ms : Z := 86400000.

(** The largest time value a [Date] holds: 8.64e15 ms either side of the
    epoch ([+275760-09-13T00:00:00.000Z] at the upper end). *)
Definition max_time : Z := 8640000000000000.

(** [TimeClip]: a time value outside that range makes the Invalid Date. *)
Definition time_clip (t : Z) : Date :=
  if Z.abs t <=? max_time then Instant t else InvalidDate.

(** [d.setDate(d.getDate() + 1)] with the server clock on UTC: the same
    time of day one day later, and the Invalid Date once that leaves the
    range of [Date]. *)
Definition next_day (d : Date) : Date :=
  match d with
  | Instant x => time_clip (x + day_ms)
  | InvalidDate => InvalidDate
  end.

Definition code (c : ascii) : nat := nat_of_ascii c.

(** The class [\s] on Latin-1 code units. *)
Definition is_space (c : ascii) : bool :=
  let n := code c in
  (Nat.eqb n 9 || Nat.eqb n 10 || Nat.eqb n 11 || Nat.eqb n 12
   || Nat.eqb n 13 || Nat.eqb n 32 || Nat.eqb n 160)%bool.

Fixpoint ltrim (s : string) : string :=
  match s with
  | EmptyString => EmptyString
  | String c r => if is_space c then ltrim r else s
  end.

Fixpoint rtrim (s : string) : string :=
  match s with
  | EmptyString => EmptyString
  | String c r =>
      let r' := rtrim r in
      if (is_space c && String.eqb r' "")%bool then EmptyString
      else String c r'
  end.

(** [trim()] of the validator chain and of the schema setter. *)
Definition trim (s : string) : string := rtrim (ltrim s).

Definition len (s : string) : Z := Z.of_nat (String.length s).

(** Truthiness of a string value. *)
Definition truthy (s : string) : bool := negb (String.eqb s "").

Definition in_range (lo hi : nat) (c : ascii) : bool :=
  (Nat.leb lo (code c) && Nat.leb (code c) hi)%bool.

Definition is_digit (c : ascii) : bool := in_range 48 57 c.

Definition is_colon (c : ascii) : bool := Nat.eqb (code c) 58.

(** [/^([0-1]?[0-9]|2[0-3]):[0-5][0-9]$/.test(s)] *)
Definition matches_time (s : string) : bool :=
  match list_ascii_of_string s with
  | [h; c; m1; m2] =>
      (is_digit h && is_colon c && in_range 48 53 m1 && is_digit m2)%bool
  | [h1; h2; c; m1; m2] =>
      (((in_range 48 49 h1 && is_digit h2)
        || (Nat.eqb (code h1) 50 && in_range 48 51 h2))
       && is_colon c && in_range 48 53 m1 && is_digit m2)%bool
  | _ => false
  end.

(** [s.split(':')] *)
Fixpoint split_colon (s : string) : list string :=
  match s with
  | EmptyString => [EmptyString]
  | String c r =>
      if is_colon c then EmptyString :: split_colon r
      else match split_colon r with
           | [] => [String c EmptyString]
           | w :: ws => String c w :: ws
           end
  end.

Fixpoint digits_value (acc : Z) (s : string) : option Z :=
  match s with
  | EmptyString => Some acc
  | String c r =>
      if is_digit c
      then digits_value (10 * acc + Z.of_nat (code c - 48)) r
      else None
  end.

(** [Number(s)] on strings of decimal digits ([None] is NaN).  The
    pre-save hook is the only caller, and it runs after schema validation
    has matched both times against the HH:MM pattern. *)
Definition Number (s : string) : option Z := digits_value 0 s.

(** [t = s.split(':').map(Number); t[0] * 60 + t[1]] *)
Definition minutes (s : string) : option Z :=
  match map Number (split_colon s) with
  | Some h :: Some m :: _ => Some (h * 60 + m)
  | _ => None
  end.

(** String order of the store's [$lt] and [$gt]: code unit by code unit. *)
Definition str_ltb (a b : string) : bool := String.ltb a b.

End Js.

(* ================================================================== *)
(** * models/User.js (the fields the scheduling core reads) *)

Definition ObjectId := Z.

Inductive Role := Patient | Doctor | Nurse | Admin.

Definition role_eqb (a b : Role) : bool :=
  match a, b with
  | Patient, Patient | Doctor, Doctor | Nurse, Nurse | Admin, Admin => true
  | _, _ => false
  end.

Module User.
Record t := mk {
  _id : ObjectId;
  role : Role;
  isActive : bool
}.
End User.

(* ================================================================== *)
(** * models/Appointment.js *)

Inductive Status := Pending | Confirmed | Cancelled | Completed | NoShow.

Definition status_eqb (a b : Status) : bool :=
  match a, b with
  | Pending, Pending | Confirmed, Confirmed | Cancelled, Cancelled
  | Completed, Completed | NoShow, NoShow => true
  | _, _ => false
  end.

Record TimeSlot := mkSlot {
  start : string;
  end_ : string
}.

Definition slot_eqb (x y : TimeSlot) : bool :=
  (String.eqb (start x) (start y) && String.eqb (end_ x) (end_ y))%bool.

Record Notes := mkNotes {
  notes_patient : option string;
  notes_doctor : option string;
  notes_admin : option string
}.

Record Medication := mkMedication {
  medication : string;
  dosage : string;
  frequency : string;
  duration : string;
  instructions : string
}.

(** What a [try] block of a route can catch. *)
Inductive Err :=
| ValidationError (paths : list string)
| HookError (message : string)
| MongoServerError (errcode : Z).

Module Appointment.

Record t := mk {
  _id : ObjectId;
  patient : ObjectId;
  doctor : ObjectId;
  appointmentDate : Z;
  timeSlot : TimeSlot;
  status : Status;
  type : string;
  reason : string;
  notes : Notes;
  prescription : list Medication;
  followUpDate : option Z;
  priority : string;
  estimatedDuration : Z;
  cancelledBy : option ObjectId;
  cancellationReason : option string;
  reminderSent : bool
}.

Definition set_status (a : t) (s : Status) : t :=
  mk (_id a) (patient a) (doctor a) (appointmentDate a) (timeSlot a) s
     (type a) (reason a) (notes a) (prescription a) (followUpDate a)
     (priority a) (estimatedDuration a) (cancelledBy a)
     (cancellationReason a) (reminderSent a).

Definition set_cancellation (a : t) (by_ : ObjectId) (why : option string) : t :=
  mk (_id a) (patient a) (doctor a) (appointmentDate a) (timeSlot a)
     (status a) (type a) (reason a) (notes a) (prescription a)
     (followUpDate a) (priority a) (estimatedDuration a) (Some by_) why
     (reminderSent a).

Definition set_notes (a : t) (n : Notes) : t :=
  mk (_id a) (patient a) (doctor a) (appointmentDate a) (timeSlot a)
     (status a) (type a) (reason a) n (prescription a) (followUpDate a)
     (priority a) (estimatedDuration a) (cancelledBy a)
     (cancellationReason a) (reminderSent a).

Definition set_schedule (a : t) (d : Z) (ts : TimeSlot) : t :=
  mk (_id a) (patient a) (doctor a) d ts (status a) (type a) (reason a)
     (notes a) (prescription a) (followUpDate a) (priority a)
     (estimatedDuration a) (cancelledBy a) (cancellationReason a)
     (reminderSent a).

(** The schema setter trims the reason. *)
Definition set_reason (a : t) (r : string) : t :=
  mk (_id a) (patient a) (doctor a) (appointmentDate a) (timeSlot a)
     (status a) (type a) (Js.trim r) (notes a) (prescription a)
     (followUpDate a) (priority a) (estimatedDuration a) (cancelledBy a)
     (cancellationReason a) (reminderSent a).

Definition set_type (a : t) (ty : string) : t :=
  mk (_id a) (patient a) (doctor a) (appointmentDate a) (timeSlot a)
     (status a) ty (reason a) (notes a) (prescription a) (followUpDate a)
     (priority a) (estimatedDuration a) (cancelledBy a)
     (cancellationReason a) (reminderSent a).

Definition set_priority (a : t) (p : string) : t :=
  mk (_id a) (patient a) (doctor a) (appointmentDate a) (timeSlot a)
     (status a) (type a) (reason a) (notes a) (prescription a)
     (followUpDate a) p (estimatedDuration a) (cancelledBy a)
     (cancellationReason a) (reminderSent a).

Definition types : list string :=
  ["consultation"; "follow-up"; "check-up"; "emergency"; "surgery"].

Definition priorities : list string := ["low"; "medium"; "high"; "urgent"].

Definition isIn (s : string) (l : list string) : bool :=
  existsb (String.eqb s) l.

Definition within (limit : Z) (o : option string) : bool :=
  match o with
  | Some s => Js.len s <=? limit
  | None => true
  end.

Definition check (ok : bool) (path : string) : list string :=
  if ok then [] else [path].

(** Schema validation, the first pre-save step: the paths that fail. *)
Definition validate (now : Z) (a : t) : list string :=
  check (now <? appointmentDate a) "appointmentDate"
  ++ check (Js.truthy (start (timeSlot a)) && Js.matches_time (start (timeSlot a))) "timeSlot.start"
  ++ check (Js.truthy (end_ (timeSlot a)) && Js.matches_time (end_ (timeSlot a))) "timeSlot.end"
  ++ check (isIn (type a) types) "type"
  ++ check (Js.truthy (reason a) && (Js.len (reason a) <=? 500)) "reason"
  ++ check (within 1000 (notes_patient (notes a))) "notes.patient"
  ++ check (within 1000 (notes_doctor (notes a))) "notes.doctor"
  ++ check (within 500 (notes_admin (notes a))) "notes.admin"
  ++ check (isIn (priority a) priorities) "priority"
  ++ check ((15 <=? estimatedDuration a) && (estimatedDuration a <=? 240)) "estimatedDuration".

(** The test of [appointmentSchema.pre('save', ...)]: both times are
    set and [startMinutes >= endMinutes] (false when either is NaN). *)
Definition hook_rejects (ts : TimeSlot) : bool :=
  (Js.truthy (start ts) && Js.truthy (end_ ts)
   && match Js.minutes (start ts), Js.minutes (end_ ts) with
      | Some startMinutes, Some endMinutes => startMinutes >=? endMinutes
      | _, _ => false
      end)%bool.

Definition pre_save (a : t) : option Err :=
  if hook_rejects (timeSlot a)
  then Some (HookError "End time must be after start time")
  else None.

(** [partialFilterExpression: status in pending, confirmed] *)
Definition is_active (a : t) : bool :=
  match status a with
  | Pending | Confirmed => true
  | _ => false
  end.

(** Equal keys of the unique index
    [doctor, appointmentDate, timeSlot.start, timeSlot.end]. *)
Definition same_key (a b : t) : bool :=
  ((doctor a =? doctor b) && (appointmentDate a =? appointmentDate b)
   && slot_eqb (timeSlot a) (timeSlot b))%bool.

(** Writing [a] would put two entries with one key in the unique
    partial index. *)
Definition duplicate_key (a : t) (docs : list t) : bool :=
  (is_active a
   && existsb (fun b => negb (_id b =? _id a) && is_active b && same_key a b) docs)%bool.

(** Inserting [a] would put two entries in the index on [_id]. *)
Definition duplicate_id (a : t) (docs : list t) : bool :=
  existsb (fun b => _id b =? _id a) docs.

Definition replace (a : t) (docs : list t) : list t :=
  map (fun b => if _id b =? _id a then a else b) docs.

End Appointment.

(** The store: the users directory, the appointments collection and the
    object-id counter. *)
Record Store := mkStore {
  users : list User.t;
  appointments : list Appointment.t;
  next_id : ObjectId
}.

Definition findUser (id : ObjectId) (db : Store) : option User.t :=
  find (fun u => User._id u =? id) (users db).

Definition findById (id : ObjectId) (db : Store) : option Appointment.t :=
  find (fun a => Appointment._id a =? id) (appointments db).

(** [doc.save()]: validation of the document (a new one, or one loaded by
    [findById] and changed), the pre-save hook, then the insert or the
    update by [_id] under the unique indexes (error code 11000 on a
    duplicate key).  A failed [save] writes nothing. *)
Definition save (now : Z) (isNew : bool) (a : Appointment.t) (db : Store)
  : Err + Store :=
  match Appointment.validate now a with
  | (_ :: _) as paths => inl (ValidationError paths)
  | [] =>
      match Appointment.pre_save a with
      | Some e => inl e
      | None =>
          if ((isNew && Appointment.duplicate_id a (appointments db))
              || Appointment.duplicate_key a (appointments db))%bool
          then inl (MongoServerError 11000)
          else if isNew
               then inr (mkStore (users db) (appointments db ++ [a]) (next_id db + 1))
               else inr (mkStore (users db) (Appointment.replace a (appointments db)) (next_id db))
      end
  end.

(** [Appointment.checkAvailability(doctorId, date, timeSlot)] once the date
    has been cast: no active appointment of the doctor at that instant with
    [timeSlot.start < timeSlot.end'] and [timeSlot.end > timeSlot.start']. *)
Definition overlaps_query (doctorId : ObjectId) (date : Z) (ts : TimeSlot)
  (b : Appointment.t) : bool :=
  ((Appointment.doctor b =? doctorId)
   && (Appointment.appointmentDate b =? date)
   && (Js.str_ltb (start (Appointment.timeSlot b)) (end_ ts)
       && Js.str_ltb (start ts) (end_ (Appointment.timeSlot b)))
   && Appointment.is_active b)%bool.

Definition checkAvailability (db : Store) (doctorId : ObjectId) (date : Z)
  (ts : TimeSlot) : bool :=
  match find (overlaps_query doctorId date ts) (appointments db) with
  | Some _ => false
  | None => true
  end.

(* ================================================================== *)
(** * Requests and responses *)

(** A date as it arrives in a body or a query string: the text, whether
    the validator's [isISO8601] accepts it, and the [Date] that
    [new Date(text)] (and the schema's cast of the text) yields. *)
Record DateInput := mkDateInput {
  text : string;
  isISO8601 : bool;
  asDate : Js.Date
}.

(** Body of [POST /].  [b_doctor] is [None] when the field is not a
    24-digit hexadecimal string; an optional field is [None] when absent. *)
Record CreateBody := mkCreateBody {
  b_doctor : option ObjectId;
  b_appointmentDate : DateInput;
  b_timeSlot : TimeSlot;
  b_reason : string;
  b_type : option string;
  b_priority : option string
}.

(** Body of [PATCH /:id/status]. *)
Record StatusBody := mkStatusBody {
  s_status : option string;
  s_notes : option string
}.

(** Body of [PUT /:id]. *)
Record UpdateBody := mkUpdateBody {
  u_appointmentDate : option DateInput;
  u_timeSlot : option TimeSlot;
  u_reason : option string;
  u_type : option string;
  u_priority : option string
}.

(** [GET /doctor/:doctorId/availability?date=...] *)
Record AvailabilityQuery := mkAvailabilityQuery {
  q_doctorId : ObjectId;
  q_date : option DateInput
}.

Inductive Payload :=
| Message (message : string)
| ValidationFailed (fields : list string)
| WithAppointment (message : string) (appointment : Appointment.t)
| Availability (date : string) (availableSlots : list string)
    (bookedSlots : list TimeSlot).

Record Response := mkResponse {
  status_code : Z;
  payload : Payload
}.

Inductive Request :=
| POST_appointment (body : CreateBody)
| PATCH_status (id : ObjectId) (body : StatusBody)
| PUT_appointment (id : ObjectId) (body : UpdateBody)
| DELETE_appointment (id : ObjectId)
| GET_availability (query : AvailabilityQuery).

(* ================================================================== *)
(** * middleware/validation: [validateAppointment] *)

Definition optional_isIn (o : option string) (l : list string) : bool :=
  match o with
  | None => true
  | Some s => Appointment.isIn s l
  end.

(** The fields for which a validator of the chain fails; the request is
    answered 400 when the list is not empty.  The custom date check throws
    when [new Date(value) <= now]. *)
Definition validateAppointment (now : Z) (b : CreateBody) : list string :=
  Appointment.check (match b_doctor b with Some _ => true | None => false end) "doctor"
  ++ Appointment.check (isISO8601 (b_appointmentDate b)) "appointmentDate"
  ++ Appointment.check (negb (Js.date_leb (asDate (b_appointmentDate b)) (Js.Instant now))) "appointmentDate"
  ++ Appointment.check (Js.matches_time (start (b_timeSlot b))) "timeSlot.start"
  ++ Appointment.check (Js.matches_time (end_ (b_timeSlot b))) "timeSlot.end"
  ++ Appointment.check ((10 <=? Js.len (Js.trim (b_reason b))) && (Js.len (Js.trim (b_reason b)) <=? 500)) "reason"
  ++ Appointment.check (optional_isIn (b_type b) Appointment.types) "type"
  ++ Appointment.check (optional_isIn (b_priority b) Appointment.priorities) "priority".

(** [x || dflt] on an optional string. *)
Definition or_default (o : option string) (dflt : string) : string :=
  match o with
  | Some s => if Js.truthy s then s else dflt
  | None => dflt
  end.

(* ================================================================== *)
(** * middleware/auth.js: [authorizeAppointmentAccess] *)

Definition authorizeAppointmentAccess (user : User.t) (id : ObjectId)
  (db : Store) : Response + Appointment.t :=
  match findById id db with
  | None => inl (mkResponse 404 (Message "Appointment not found."))
  | Some appointment =>
      let isPatient := User._id user =? Appointment.patient appointment in
      let isDoctor := User._id user =? Appointment.doctor appointment in
      let isAdminOrNurse :=
        (role_eqb (User.role user) Admin || role_eqb (User.role user) Nurse)%bool in
      if (negb isPatient && negb isDoctor && negb isAdminOrNurse)%bool
      then inl (mkResponse 403 (Message "Access denied to this appointment."))
      else inr appointment
  end.

(* ================================================================== *)
(** * routes/appointments *)

(** [saveError.code === 11000] *)
Definition is_duplicate_key (e : Err) : bool :=
  match e with
  | MongoServerError c => c =? 11000
  | _ => false
  end.

Definition not_available : Response :=
  mkResponse 409 (Message "Doctor is not available at the selected time slot").

(** The document built by [new Appointment({...})] in [POST /], with the
    schema defaults filled in. *)
Definition new_appointment (user : User.t) (b : CreateBody) (d : ObjectId)
  (date : Z) (db : Store) : Appointment.t :=
  Appointment.mk (next_id db) (User._id user) d date (b_timeSlot b) Pending
    (or_default (b_type b) "consultation") (Js.trim (b_reason b))
    (mkNotes None None None) [] None (or_default (b_priority b) "medium")
    30 None None false.

(** [router.post('/', authenticate, authorize('patient'),
    validateAppointment, ...)] *)
Definition post_appointment (now : Z) (user : User.t) (b : CreateBody)
  (db : Store) : Response * Store :=
  if negb (role_eqb (User.role user) Patient)
  then (mkResponse 403 (Message "Access denied. Insufficient permissions."), db)
  else
    match validateAppointment now b with
    | (_ :: _) as fields => (mkResponse 400 (ValidationFailed fields), db)
    | [] =>
        let invalid_doctor :=
          (mkResponse 400 (Message "Invalid or inactive doctor selected"), db) in
        let failed := (mkResponse 500 (Message "Failed to book appointment"), db) in
        match b_doctor b with
        | None => invalid_doctor
        | Some d =>
            match findUser d db with
            | None => invalid_doctor
            | Some doctorUser =>
                if (negb (role_eqb (User.role doctorUser) Doctor)
                    || negb (User.isActive doctorUser))%bool
                then invalid_doctor
                else
                  match asDate (b_appointmentDate b) with
                  | Js.InvalidDate => failed
                  | Js.Instant date =>
                      let appointment := new_appointment user b d date db in
                      match save now true appointment db with
                      | inl saveError =>
                          if is_duplicate_key saveError then (not_available, db)
                          else failed
                      | inr db' =>
                          (mkResponse 201
                             (WithAppointment "Appointment booked successfully" appointment),
                           db')
                      end
                  end
            end
        end
    end.

(** [validStatuses.includes(status)] *)
Definition status_of_string (s : string) : option Status :=
  if String.eqb s "pending" then Some Pending
  else if String.eqb s "confirmed" then Some Confirmed
  else if String.eqb s "cancelled" then Some Cancelled
  else if String.eqb s "completed" then Some Completed
  else if String.eqb s "no-show" then Some NoShow
  else None.

Definition requested_status (b : StatusBody) : option Status :=
  match s_status b with
  | Some s => status_of_string s
  | None => None
  end.

Definition canUpdateStatus (user : User.t) (appointment : Appointment.t)
  (status : Status) : bool :=
  (role_eqb (User.role user) Admin
   || role_eqb (User.role user) Nurse
   || (role_eqb (User.role user) Doctor
       && (User._id user =? Appointment.doctor appointment))
   || (role_eqb (User.role user) Patient
       && (User._id user =? Appointment.patient appointment)
       && status_eqb status Cancelled))%bool.

(** The note field written for the caller's role. *)
Definition write_notes (r : Role) (n : string) (old : Notes) : Notes :=
  match r with
  | Doctor => mkNotes (notes_patient old) (Some n) (notes_admin old)
  | Patient => mkNotes (Some n) (notes_doctor old) (notes_admin old)
  | Admin | Nurse => mkNotes (notes_patient old) (notes_doctor old) (Some n)
  end.

(** The document [PATCH /:id/status] saves once the caller is let through. *)
Definition apply_status (user : User.t) (appointment : Appointment.t)
  (status : Status) (notes : option string) : Appointment.t :=
  let a1 := Appointment.set_status appointment status in
  let a2 := if status_eqb status Cancelled
            then Appointment.set_cancellation a1 (User._id user) notes
            else a1 in
  match notes with
  | Some n =>
      if Js.truthy n
      then Appointment.set_notes a2 (write_notes (User.role user) n (Appointment.notes a2))
      else a2
  | None => a2
  end.

(** [router.patch('/:id/status', authenticate, validateObjectId('id'),
    authorizeAppointmentAccess, ...)] *)
Definition patch_status (now : Z) (user : User.t) (id : ObjectId)
  (b : StatusBody) (db : Store) : Response * Store :=
  match authorizeAppointmentAccess user id db with
  | inl denied => (denied, db)
  | inr appointment =>
      match requested_status b with
      | None => (mkResponse 400 (Message "Invalid status"), db)
      | Some status =>
          if negb (canUpdateStatus user appointment status)
          then (mkResponse 403 (Message "Not authorized to update appointment status"), db)
          else
            let updated := apply_status user appointment status (s_notes b) in
            match save now false updated db with
            | inl _ => (mkResponse 500 (Message "Failed to update appointment status"), db)
            | inr db' =>
                (mkResponse 200
                   (WithAppointment "Appointment status updated successfully" updated),
                 db')
            end
      end
  end.

Definition canUpdate (user : User.t) (appointment : Appointment.t) : bool :=
  (role_eqb (User.role user) Admin
   || role_eqb (User.role user) Nurse
   || (role_eqb (User.role user) Patient
       && (User._id user =? Appointment.patient appointment)
       && status_eqb (Appointment.status appointment) Pending))%bool.

(** [if (x) appointment.field = x] *)
Definition assign_if (o : option string)
  (set : Appointment.t -> string -> Appointment.t) (a : Appointment.t)
  : Appointment.t :=
  match o with
  | Some s => if Js.truthy s then set a s else a
  | None => a
  end.

Definition apply_fields (b : UpdateBody) (a : Appointment.t) : Appointment.t :=
  assign_if (u_priority b) Appointment.set_priority
    (assign_if (u_type b) Appointment.set_type
       (assign_if (u_reason b) Appointment.set_reason a)).

(** The reschedule branch of [PUT /:id], entered when both
    [appointmentDate] and [timeSlot] are truthy: a response when the branch
    ends the request, otherwise the rescheduled document. *)
Definition reschedule (b : UpdateBody) (appointment : Appointment.t)
  (db : Store) : Response + Appointment.t :=
  match u_appointmentDate b, u_timeSlot b with
  | Some d, Some ts =>
      if Js.truthy (text d) then
        match asDate d with
        | Js.InvalidDate => inl (mkResponse 500 (Message "Failed to update appointment"))
        | Js.Instant date =>
            if negb (checkAvailability db (Appointment.doctor appointment) date ts)
            then inl not_available
            else inr (Appointment.set_schedule appointment date ts)
        end
      else inr appointment
  | _, _ => inr appointment
  end.

(** [router.put('/:id', authenticate, validateObjectId('id'),
    authorizeAppointmentAccess, ...)] *)
Definition put_appointment (now : Z) (user : User.t) (id : ObjectId)
  (b : UpdateBody) (db : Store) : Response * Store :=
  match authorizeAppointmentAccess user id db with
  | inl denied => (denied, db)
  | inr appointment =>
      if negb (canUpdate user appointment)
      then (mkResponse 403
              (Message "Not authorized to update this appointment or appointment cannot be modified"),
            db)
      else
        match reschedule b appointment db with
        | inl r => (r, db)
        | inr moved =>
            let updated := apply_fields b moved in
            match save now false updated db with
            | inl _ => (mkResponse 500 (Message "Failed to update appointment"), db)
            | inr db' =>
                (mkResponse 200 (WithAppointment "Appointment updated successfully" updated),
                 db')
            end
        end
  end.

(** [router.delete('/:id', authenticate, validateObjectId('id'),
    authorize('admin'), ...)] *)
Definition delete_appointment (user : User.t) (id : ObjectId) (db : Store)
  : Response * Store :=
  if negb (role_eqb (User.role user) Admin)
  then (mkResponse 403 (Message "Access denied. Insufficient permissions."), db)
  else
    match findById id db with
    | None => (mkResponse 404 (Message "Appointment not found"), db)
    | Some _ =>
        (mkResponse 200 (Message "Appointment deleted successfully"),
         mkStore (users db)
           (filter (fun a => negb (Appointment._id a =? id)) (appointments db))
           (next_id db))
    end.

Definition workingHours : list string :=
  ["09:00"; "09:30"; "10:00"; "10:30"; "11:00"; "11:30";
   "14:00"; "14:30"; "15:00"; "15:30"; "16:00"; "16:30"].

(** The filter of the availability query: the doctor's active appointments
    with [appointmentDate] at or after [searchDate] and before [nextDay]. *)
Definition booked_on (doctorId : ObjectId) (searchDate nextDay : Z)
  (a : Appointment.t) : bool :=
  ((Appointment.doctor a =? doctorId)
   && ((searchDate <=? Appointment.appointmentDate a)
       && (Appointment.appointmentDate a <? nextDay))
   && Appointment.is_active a)%bool.

Definition bookedAppointments (doctorId : ObjectId) (searchDate nextDay : Z)
  (db : Store) : list Appointment.t :=
  filter (booked_on doctorId searchDate nextDay) (appointments db).

Definition availableSlots_of (booked : list Appointment.t) : list string :=
  filter
    (fun slot =>
       negb (existsb (fun a => String.eqb (start (Appointment.timeSlot a)) slot) booked))
    workingHours.

(** [router.get('/doctor/:doctorId/availability', authenticate,
    validateObjectId('doctorId'), ...)].  The query filter is built from
    [searchDate] and [nextDay]; casting an Invalid Date for the filter
    throws, which the route answers with 500. *)
Definition get_availability (q : AvailabilityQuery) (db : Store) : Response :=
  match q_date q with
  | None => mkResponse 400 (Message "Date parameter is required")
  | Some d =>
      if negb (Js.truthy (text d))
      then mkResponse 400 (Message "Date parameter is required")
      else
        match asDate d, Js.next_day (asDate d) with
        | Js.Instant searchDate, Js.Instant nextDay =>
            let booked := bookedAppointments (q_doctorId q) searchDate nextDay db in
            mkResponse 200
              (Availability (text d) (availableSlots_of booked)
                 (map Appointment.timeSlot booked))
        | _, _ => mkResponse 500 (Message "Failed to retrieve availability")
        end
  end.

(** One request of an authenticated caller served at instant [now]. *)
Definition handle (now : Z) (user : User.t) (r : Request) (db : Store)
  : Response * Store :=
  match r with
  | POST_appointment b => post_appointment now user b db
  | PATCH_status id b => patch_status now user id b db
  | PUT_appointment id b => put_appointment now user id b db
  | DELETE_appointment id => delete_appointment user id db
  | GET_availability q => (get_availability q db, db)
  end.

(* ================================================================== *)
(** * Properties of stores and of time slots *)

(** Every stored id was handed out by the counter. *)
Definition ids_fresh (db : Store) : Prop :=
  forall a, In a (appointments db) -> Appointment._id a < next_id db.

Definition ids_unique (db : Store) : Prop :=
  NoDup (map Appointment._id (appointments db)).

(** What the unique partial index maintains: two distinct active
    appointments of one doctor never have the same date, start and end. *)
Definition unique_active_slots (db : Store) : Prop :=
  forall a b,
    In a (appointments db) -> In b (appointments db) ->
    Appointment._id a <> Appointment._id b ->
    Appointment.is_active a = true -> Appointment.is_active b = true ->
    Appointment.doctor a = Appointment.doctor b ->
    Appointment.appointmentDate a = Appointment.appointmentDate b ->
    Appointment.timeSlot a <> Appointment.timeSlot b.

Definition index_invariant (db : Store) : Prop :=
  ids_unique db /\ unique_active_slots db.

(** Half-open intervals [[start, end)] in minutes since midnight meet. *)
Definition intervals_overlap (x y : TimeSlot) : bool :=
  match Js.minutes (start x), Js.minutes (end_ x),
        Js.minutes (start y), Js.minutes (end_ y) with
  | Some sx, Some ex, Some sy, Some ey => (sx <? ey) && (sy <? ex)
  | _, _, _, _ => false
  end.

(** The scheduling invariant in its interval form: two distinct active
    appointments of one doctor on one date never overlap. *)
Definition no_overlap (db : Store) : Prop :=
  forall a b,
    In a (appointments db) -> In b (appointments db) ->
    Appointment._id a <> Appointment._id b ->
    Appointment.is_active a = true -> Appointment.is_active b = true ->
    Appointment.doctor a = Appointment.doctor b ->
    Appointment.appointmentDate a = Appointment.appointmentDate b ->
    intervals_overlap (Appointment.timeSlot a) (Appointment.timeSlot b) = false.

(** Some active appointment of doctor [d] holds exactly the slot [ts] at
    instant [date]. *)
Definition slot_taken (d : ObjectId) (date : Z) (ts : TimeSlot) (db : Store)
  : Prop :=
  exists x,
    In x (appointments db) /\ Appointment.is_active x = true /\
    Appointment.doctor x = d /\ Appointment.appointmentDate x = date /\
    Appointment.timeSlot x = ts.

(** The request [b] of [user] gets as far as [save] in [POST /]: it passes
    the role gate, the validators, the doctor lookup and the cast of the
    date. *)
Definition reaches_save (now : Z) (user : User.t) (b : CreateBody)
  (d : ObjectId) (date : Z) (db : Store) : Prop :=
  User.role user = Patient /\
  validateAppointment now b = [] /\
  b_doctor b = Some d /\
  (exists doctorUser,
      findUser d db = Some doctorUser /\
      User.role doctorUser = Doctor /\ User.isActive doctorUser = true) /\
  asDate (b_appointmentDate b) = Js.Instant date.

(** ... and it passes the time-order hook as well: only the index can
    still refuse it. *)
Definition bookable (now : Z) (user : User.t) (b : CreateBody) (d : ObjectId)
  (date : Z) (db : Store) : Prop :=
  reaches_save now user b d date db /\
  Appointment.hook_rejects (b_timeSlot b) = false.

(** A zero-padded HH:MM time. *)
Definition padded (s : string) : bool :=
  (Js.matches_time s && Nat.eqb (String.length s) 5)%bool.



Definition stored_status (id : ObjectId) (db : Store) : option Status :=
  option_map Appointment.status (findById id db).

Definition available_in (r : Response) : list string :=
  match payload r with
  | Availability _ slots _ => slots
  | _ => []
  end.

Definition booked_in (r : Response) : list TimeSlot :=
  match payload r with
  | Availability _ _ slots => slots
  | _ => []
  end.

(* ================================================================== *)
(** * A small clinic used in the examples *)

Module Sample.

Definition P : User.t := User.mk 1 Patient true.
Definition Q : User.t := User.mk 2 Patient true.
Definition D : User.t := User.mk 10 Doctor true.
Definition A : User.t := User.mk 20 Admin true.

Definition clinic : Store := mkStore [P; Q; D; A] [] 100.

(** 2025-05-23T11:33:20Z *)
Definition now : Z := 1748000000000.

Definition june10 : DateInput :=
  mkDateInput "2025-06-10T00:00:00.000Z" true (Js.Instant 1749513600000).

Definition garbled : DateInput :=
  mkDateInput "next tuesday" false Js.InvalidDate.

Definition booking (s e : string) : CreateBody :=
  mkCreateBody (Some 10) june10 (mkSlot s e) "Annual physical exam" None None.

Definition book (s e : string) : Request := POST_appointment (booking s e).

Definition set_to (id : ObjectId) (s : string) : Request :=
  PATCH_status id (mkStatusBody (Some s) None).

Definition move (id : ObjectId) (s e : string) : Request :=
  PUT_appointment id (mkUpdateBody (Some june10) (Some (mkSlot s e)) None None None).

(** A reason of [n] characters. *)
Fixpoint filler (n : nat) : string :=
  match n with
  | O => EmptyString
  | S k => String "x" (filler k)
  end.

Definition booking_for (reason : string) : CreateBody :=
  mkCreateBody (Some 10) june10 (mkSlot "09:00" "09:30") reason None None.

Definition availability : AvailabilityQuery :=
  mkAvailabilityQuery 10 (Some june10).

(** The store after a sequence of requests, each served at [now]. *)
Definition after (steps : list (User.t * Request)) (db : Store) : Store :=
  fold_left (fun s step => snd (handle now (fst step) (snd step) s)) steps db.

Definition reply (u : User.t) (r : Request) (db : Store) : Response :=
  fst (handle now u r db).

End Sample.

(* ================================================================== *)
(** * middleware/auth.js: [authorize] and [authorizeOwnerOrRole] *)

(** [authorize(...roles)]: [None] stands for [next()]; [req.user] is
    absent when the request did not go through [authenticate]. *)
Definition authorize (roles : list Role) (user : option User.t)
  : option Response :=
  match user with
  | None => Some (mkResponse 401 (Message "Authentication required."))
  | Some u =>
      if (negb (Nat.eqb (List.length roles) 0)
          && negb (existsb (role_eqb (User.role u)) roles))%bool
      then Some (mkResponse 403 (Message "Access denied. Insufficient permissions."))
      else None
  end.

(** [authorizeOwnerOrRole(...roles)] on the id of the route
    ([req.params.userId || req.params.id]). *)
Definition authorizeOwnerOrRole (roles : list Role) (user : option User.t)
  (resourceUserId : ObjectId) : option Response :=
  match user with
  | None => Some (mkResponse 401 (Message "Authentication required."))
  | Some u =>
      let isOwner := User._id u =? resourceUserId in
      let hasAdminRole := role_eqb (User.role u) Admin in
      if (isOwner || hasAdminRole)%bool then None
      else if (negb (Nat.eqb (List.length roles) 0)
               && negb (existsb (role_eqb (User.role u)) roles))%bool
      then Some (mkResponse 403
                   (Message "Access denied. You can only access your own resources or need appropriate role."))
      else None
  end.

(* ================================================================== *)
(** * routes/appointments: [GET /] *)

(** An integer of the query string: absent, present but refused by
    [isInt], or an integer literal with its value. *)
Inductive IntInput :=
| NoInt
| NotAnInt
| AnInt (n : Z).

(** An object id of the query string, as the query's cast sees it. *)
Inductive IdInput :=
| GoodId (id : ObjectId)
| BadId.

(** Query of [GET /]; an id or a date is [None] when absent or empty. *)
Record ListQuery := mkListQuery {
  l_page : IntInput;
  l_limit : IntInput;
  l_status : option string;
  l_date : option DateInput;
  l_doctorId : option IdInput;
  l_patientId : option IdInput
}.

(** middleware/validation: [validatePagination]. *)
Definition validatePagination (page limit : IntInput) : list string :=
  Appointment.check
    (match page with
     | NoInt => true
     | NotAnInt => false
     | AnInt n => 1 <=? n
     end) "page"
  ++ Appointment.check
       (match limit with
        | NoInt => true
        | NotAnInt => false
        | AnInt n => (1 <=? n) && (n <=? 100)
        end) "limit".

(** [parseInt(x) || dflt] behind [validatePagination], which has turned
    away what is not an integer literal. *)
Definition parseInt_or (x : IntInput) (dflt : Z) : Z :=
  match x with
  | AnInt n => if n =? 0 then dflt else n
  | _ => dflt
  end.

(** [Math.ceil(total / limit)] for a positive [limit]. *)
Definition ceil_div (total limit : Z) : Z := (total + limit - 1) / limit.

Definition status_name (s : Status) : string :=
  match s with
  | Pending => "pending"
  | Confirmed => "confirmed"
  | Cancelled => "cancelled"
  | Completed => "completed"
  | NoShow => "no-show"
  end.

(** The filter object handed to [find] and [countDocuments], ids and
    dates still to be cast. *)
Record ListFilter := mkListFilter {
  f_patient : option IdInput;
  f_doctor : option IdInput;
  f_status : option string;
  f_date : option (Js.Date * Js.Date)
}.

Definition role_in (r : Role) (l : list Role) : bool := existsb (role_eqb r) l.

(** The filter [GET /] builds from the caller and the query string. *)
Definition list_filter (user : User.t) (q : ListQuery) : ListFilter :=
  let patient0 :=
    if role_eqb (User.role user) Patient then Some (GoodId (User._id user)) else None in
  let doctor0 :=
    if role_eqb (User.role user) Doctor then Some (GoodId (User._id user)) else None in
  let status1 :=
    match l_status q with
    | Some s => if Js.truthy s then Some s else None
    | None => None
    end in
  let date1 :=
    match l_date q with
    | Some d =>
        if Js.truthy (text d)
        then Some (asDate d, Js.next_day (asDate d)) else None
    | None => None
    end in
  let doctor1 :=
    match l_doctorId q with
    | Some i => if role_in (User.role user) [Admin; Nurse] then Some i else doctor0
    | None => doctor0
    end in
  let patient1 :=
    match l_patientId q with
    | Some i => if role_in (User.role user) [Admin; Nurse; Doctor] then Some i else patient0
    | None => patient0
    end in
  mkListFilter patient1 doctor1 status1 date1.

Definition id_matches (f : option IdInput) (id : ObjectId) : bool :=
  match f with
  | None => true
  | Some (GoodId i) => id =? i
  | Some BadId => false
  end.

(** A document satisfies the filter (its date at or after [searchDate]
    and before [nextDay]). *)
Definition satisfies (f : ListFilter) (a : Appointment.t) : bool :=
  (id_matches (f_patient f) (Appointment.patient a)
   && id_matches (f_doctor f) (Appointment.doctor a)
   && match f_status f with
      | None => true
      | Some s => String.eqb (status_name (Appointment.status a)) s
      end
   && match f_date f with
      | None => true
      | Some (Js.Instant searchDate, Js.Instant nextDay) =>
          (searchDate <=? Appointment.appointmentDate a)
          && (Appointment.appointmentDate a <? nextDay)
      | Some _ => false
      end)%bool.

(** Casting the filter throws on a malformed id or an Invalid Date. *)
Definition castable (f : ListFilter) : bool :=
  (match f_patient f with Some BadId => false | _ => true end
   && match f_doctor f with Some BadId => false | _ => true end
   && match f_date f with
      | Some (Js.Instant _, Js.Instant _) | None => true
      | Some _ => false
      end)%bool.

(** [sort({ appointmentDate: 1, 'timeSlot.start': 1 })]: [a] may come
    before [b]. *)
Definition sort_leb (a b : Appointment.t) : bool :=
  ((Appointment.appointmentDate a <? Appointment.appointmentDate b)
   || ((Appointment.appointmentDate a =? Appointment.appointmentDate b)
       && negb (Js.str_ltb (start (Appointment.timeSlot b))
                  (start (Appointment.timeSlot a)))))%bool.

Fixpoint insert_sorted (a : Appointment.t) (l : list Appointment.t)
  : list Appointment.t :=
  match l with
  | [] => [a]
  | b :: l' => if sort_leb a b then a :: l else b :: insert_sorted a l'
  end.

(** The sort of the cursor, applied to the documents in the order in which
    the store scans them.  The two keys do not determine a document, and
    between documents equal in both the store fixes no order: they come out
    in the order of the scan, which may differ from one query to the next. *)
Definition sort_appointments (l : list Appointment.t) : list Appointment.t :=
  fold_right insert_sorted [] l.

(** [.skip(skip).limit(limit)] *)
Definition skip_limit (skip limit : Z) (l : list Appointment.t)
  : list Appointment.t :=
  firstn (Z.to_nat limit) (skipn (Z.to_nat skip) l).

Record Pagination := mkPagination {
  current : Z;
  pages : Z;
  total : Z;
  hasNext : bool;
  hasPrev : bool
}.

Inductive ListResponse :=
| NotListed (code : Z) (why : Payload)
| Listed (found : list Appointment.t) (pagination : Pagination).

(** [router.get('/', authenticate, validatePagination, ...)].  [scan] is
    the order in which the store hands the matching documents to the sort
    while it serves this request, a rearrangement of them. *)
Definition get_appointments_in (scan : list Appointment.t -> list Appointment.t)
  (user : User.t) (q : ListQuery) (db : Store) : ListResponse :=
  match validatePagination (l_page q) (l_limit q) with
  | (_ :: _) as fields => NotListed 400 (ValidationFailed fields)
  | [] =>
      let page := parseInt_or (l_page q) 1 in
      let limit := parseInt_or (l_limit q) 10 in
      let skip := (page - 1) * limit in
      let query := list_filter user q in
      if negb (castable query)
      then NotListed 500 (Message "Failed to retrieve appointments")
      else
        let matching := filter (satisfies query) (appointments db) in
        let total := Z.of_nat (List.length matching) in
        Listed (skip_limit skip limit (sort_appointments (scan matching)))
          (mkPagination page (ceil_div total limit) total
             (page <? ceil_div total limit) (1 <? page))
  end.

(** The route when the store scans the collection in natural order. *)
Definition get_appointments (user : User.t) (q : ListQuery) (db : Store)
  : ListResponse :=
  get_appointments_in (fun l => l) user q db.

(** The same query for another page. *)
Definition with_page (q : ListQuery) (p : Z) : ListQuery :=
  mkListQuery (AnInt p) (l_limit q) (l_status q) (l_date q) (l_doctorId q)
    (l_patientId q).

(** The documents of a listing, none when the request failed. *)
Definition listed (r : ListResponse) : list Appointment.t :=
  match r with
  | Listed found _ => found
  | NotListed _ _ => []
  end.

(* ================================================================== *)
(** * The pages of the frontend that call the appointment routes *)

Module Frontend.

(** [n.toString()] of a number, NaN included. *)
Definition toString (n : option Z) : string :=
  match n with
  | Some v => NilZero.string_of_int (Z.to_int v)
  | None => "NaN"
  end.

(** [s.padStart(2, '0')] of a string that is not empty. *)
Definition padStart2 (s : string) : string :=
  if Nat.ltb (String.length s) 2 then String.append "0" s else s.

(** [getEndTime(startTime)] of the booking page.  [Number] is the decimal
    reading of [Js.Number], exact on the digit strings of the availability
    answer the page calls it with. *)
Definition getEndTime (startTime : string) : string :=
  let parts := map Js.Number (Js.split_colon startTime) in
  let hours := nth 0 parts None in
  let minutes := nth 1 parts None in
  let endMinutes := option_map (fun m => m + 30) minutes in
  let endHours :=
    match hours, endMinutes with
    | Some h, Some e => Some (h + e / 60)
    | _, _ => None
    end in
  let finalMinutes := option_map (fun e => Z.rem e 60) endMinutes in
  String.append (padStart2 (toString endHours))
    (String.append ":" (padStart2 (toString finalMinutes))).

(** [handleTimeSlotSelect(startTime)]: the time slot put in the form. *)
Definition handleTimeSlotSelect (startTime : string) : TimeSlot :=
  mkSlot startTime (getEndTime startTime).

(** [canUpdateStatus(appointment)] of the appointments page. *)
Definition canUpdateStatus (user : User.t) (appointment : Appointment.t) : bool :=
  (role_eqb (User.role user) Admin
   || role_eqb (User.role user) Nurse
   || (role_eqb (User.role user) Doctor
       && (Appointment.doctor appointment =? User._id user))
   || (role_eqb (User.role user) Patient
       && (Appointment.patient appointment =? User._id user)
       && status_eqb (Appointment.status appointment) Pending))%bool.

(** [renderActionButtons(appointment)]: the status each button sends to
    [PATCH /:id/status], in the order of the buttons. *)
Definition renderActionButtons (user : User.t) (appointment : Appointment.t)
  : list string :=
  if negb (canUpdateStatus user appointment) then []
  else
    (if (role_eqb (User.role user) Patient
         && status_eqb (Appointment.status appointment) Pending)%bool
     then ["cancelled"] else [])
    ++ (if role_in (User.role user) [Doctor; Nurse; Admin]
        then
          (if status_eqb (Appointment.status appointment) Pending
           then ["confirmed"] else [])
          ++ (if (status_eqb (Appointment.status appointment) Pending
                  || status_eqb (Appointment.status appointment) Confirmed)%bool
              then ["cancelled"] else [])
          ++ (if (status_eqb (Appointment.status appointment) Confirmed
                  && role_eqb (User.role user) Doctor)%bool
              then ["completed"] else [])
        else [])%list.

End Frontend.

(* ================================================================== *)
(** * models/EmailNotification.js: when a reminder is due *)

Module EmailNotification.

(** The names every object inherits: looked up in [reminderTimes] they
    yield a function or an object, not a number. *)
Definition inherited : list string :=
  ["constructor"; "__proto__"; "hasOwnProperty"; "isPrototypeOf";
   "propertyIsEnumerable"; "toLocaleString"; "toString"; "valueOf";
   "__defineGetter__"; "__defineSetter__"; "__lookupGetter__";
   "__lookupSetter__"].

(** [reminderTimes[reminderType] || reminderTimes['24_hours']], in
    milliseconds; [None] when the lookup yields no number. *)
Definition reminderDelay (reminderType : string) : option Z :=
  if String.eqb reminderType "24_hours" then Some (24 * 60 * 60 * 1000)
  else if String.eqb reminderType "2_hours" then Some (2 * 60 * 60 * 1000)
  else if String.eqb reminderType "30_minutes" then Some (30 * 60 * 1000)
  else if existsb (String.eqb reminderType) inherited then None
  else Some (24 * 60 * 60 * 1000).

(** What [createAppointmentReminder] fixes of the notification before the
    templates are filled in: the recipient, the appointment it is about,
    the time it is scheduled for and its priority. *)
Record Reminder := mkReminder {
  recipient : ObjectId;
  entityId : ObjectId;
  scheduledFor : Z;
  priority : string
}.

Inductive Outcome :=
| Thrown (message : string)
| NotScheduled
| Scheduled (r : Reminder).

(** [createAppointmentReminder(appointmentId, reminderType)] up to the
    notification it builds, the texts of the templates left out: it throws
    when the appointment is missing, returns [null] when the reminder time
    is not in the future, and reads the populated patient and doctor
    (throwing on a user that no longer exists) for the templates.  A delay
    that is no number makes [scheduledFor] an Invalid Date, which is not
    [<=] now and which [save] refuses. *)
Definition createAppointmentReminder (now : Z) (appointmentId : ObjectId)
  (reminderType : string) (db : Store) : Outcome :=
  match findById appointmentId db with
  | None => Thrown "Appointment not found"
  | Some appointment =>
      let scheduled :=
        option_map (fun delay => Appointment.appointmentDate appointment - delay)
          (reminderDelay reminderType) in
      if match scheduled with Some t => t <=? now | None => false end
      then NotScheduled
      else
        match findUser (Appointment.patient appointment) db,
              findUser (Appointment.doctor appointment) db with
        | Some patient, Some _ =>
            match scheduled with
            | Some t =>
                Scheduled
                  (mkReminder (User._id patient) appointmentId t
                     (if String.eqb reminderType "30_minutes" then "high" else "normal"))
            | None => Thrown "ValidationError"
            end
        | _, _ => Thrown "TypeError"
        end
  end.

End EmailNotification.

(* ================================================================== *)
(** * models/HealthRecord.js and routes/healthRecords: reading records *)

Section Sorting.

Variable A : Type.
Variable leb : A -> A -> bool.

Fixpoint insert_by (a : A) (l : list A) : list A :=
  match l with
  | [] => [a]
  | b :: l' => if leb a b then a :: l else b :: insert_by a l'
  end.

(** A cursor's sort on one key; equal keys keep their natural order. *)
Definition sort_by (l : list A) : list A := fold_right insert_by [] l.

End Sorting.

Module HealthRecord.

Section Documents.

(** The fields of a record the read routes never look at (title,
    description, clinical data, visit date, facility, attachments,
    amendment and signature fields), kept together. *)
Variable Rest : Type.

Record t := mk {
  _id : ObjectId;
  patient : ObjectId;
  provider : ObjectId;
  recordType : string;
  recordDate : Z;
  priority : string;
  rest : Rest
}.

(** Query of [GET /]. *)
Record ListQuery := mkListQuery {
  page : IntInput;
  limit : IntInput;
  q_patient : option IdInput;
  q_recordType : option string;
  q_startDate : option DateInput;
  q_endDate : option DateInput;
  q_priority : option string
}.

Record Filter := mkFilter {
  f_patient : option IdInput;
  f_provider : option IdInput;
  f_recordType : option string;
  f_priority : option string;
  f_gte : option Js.Date;
  f_lte : option Js.Date
}.

Definition given (o : option string) : option string :=
  match o with
  | Some s => if Js.truthy s then Some s else None
  | None => None
  end.

Definition given_date (o : option DateInput) : option Js.Date :=
  match o with
  | Some d => if Js.truthy (text d) then Some (asDate d) else None
  | None => None
  end.

(** The filter [GET /] builds: a patient sees their own records; a doctor
    or a nurse the records of the patient named in the query or, without
    one, the records they provided; an admin all. *)
Definition list_filter (user : User.t) (q : ListQuery) : Filter :=
  let scoped :=
    match User.role user with
    | Patient => (Some (GoodId (User._id user)), None)
    | Doctor | Nurse =>
        match q_patient q with
        | Some p => (Some p, None)
        | None => (None, Some (GoodId (User._id user)))
        end
    | Admin => (None, None)
    end in
  mkFilter (fst scoped) (snd scoped) (given (q_recordType q)) (given (q_priority q))
    (given_date (q_startDate q)) (given_date (q_endDate q)).

Definition text_matches (f : option string) (s : string) : bool :=
  match f with
  | None => true
  | Some x => String.eqb s x
  end.

Definition satisfies (f : Filter) (r : t) : bool :=
  (id_matches (f_patient f) (patient r)
   && id_matches (f_provider f) (provider r)
   && text_matches (f_recordType f) (recordType r)
   && text_matches (f_priority f) (priority r)
   && match f_gte f with
      | None => true
      | Some (Js.Instant d) => d <=? recordDate r
      | Some Js.InvalidDate => false
      end
   && match f_lte f with
      | None => true
      | Some (Js.Instant d) => recordDate r <=? d
      | Some Js.InvalidDate => false
      end)%bool.

Definition castable (f : Filter) : bool :=
  (match f_patient f with Some BadId => false | _ => true end
   && match f_provider f with Some BadId => false | _ => true end
   && match f_gte f with Some Js.InvalidDate => false | _ => true end
   && match f_lte f with Some Js.InvalidDate => false | _ => true end)%bool.

(** [sort({ recordDate: -1 })] *)
Definition newest_first (a b : t) : bool := recordDate b <=? recordDate a.

Inductive ListResponse :=
| NotListed (code : Z) (why : Payload)
| Listed (records : list t) (pagination : Pagination).

(** [router.get('/', authenticate, validatePagination, ...)] *)
Definition get_records (user : User.t) (q : ListQuery) (db : list t)
  : ListResponse :=
  match validatePagination (page q) (limit q) with
  | (_ :: _) as fields => NotListed 400 (ValidationFailed fields)
  | [] =>
      let page := parseInt_or (page q) 1 in
      let limit := parseInt_or (limit q) 10 in
      let skip := (page - 1) * limit in
      let query := list_filter user q in
      if negb (castable query)
      then NotListed 500 (Message "Failed to retrieve health records")
      else
        let matching := filter (satisfies query) db in
        let total := Z.of_nat (List.length matching) in
        Listed
          (firstn (Z.to_nat limit)
             (skipn (Z.to_nat skip) (sort_by t newest_first matching)))
          (mkPagination page (ceil_div total limit) total
             (page <? ceil_div total limit) (1 <? page))
  end.

Definition listed (r : ListResponse) : list t :=
  match r with
  | Listed records _ => records
  | NotListed _ _ => []
  end.

Inductive OneResponse :=
| Refused (code : Z) (message : string)
| Found (record : t).

(** [router.get('/:id', authenticate, validateObjectId('id'), ...)]; the
    record is populated, so reading [record.provider._id] or
    [record.patient._id] throws when that user is gone from [users]. *)
Definition get_record (user : User.t) (id : ObjectId) (users : list User.t)
  (db : list t) : OneResponse :=
  match find (fun r => _id r =? id) db with
  | None => Refused 404 "Health record not found"
  | Some record =>
      let known (i : ObjectId) :=
        existsb (fun u => User._id u =? i) users in
      let failed := Refused 500 "Failed to retrieve health record" in
      let denied := Refused 403 "Access denied" in
      if role_eqb (User.role user) Admin then Found record
      else if negb (known (provider record)) then failed
      else if User._id user =? provider record then Found record
      else if negb (known (patient record)) then failed
      else if User._id user =? patient record then Found record
      else denied
  end.

End Documents.

End HealthRecord.

(* ================================================================== *)
(** * More properties of stores and of time slots *)

(** Every time the schema pattern accepts, hour by hour and minute by
    minute: with one or two digits for the hours 0 to 9, with two for 10
    to 23. *)
Definition digit_char (n : nat) : ascii := ascii_of_nat (48 + n).

Definition time_text (pad : bool) (h1 h2 m1 m2 : nat) : string :=
  let tail :=
    String (digit_char h2)
      (String ":" (String (digit_char m1) (String (digit_char m2) EmptyString))) in
  if pad then String (digit_char h1) tail else tail.

Definition all_times : list string :=
  flat_map
    (fun h2 =>
       flat_map
         (fun m1 => map (fun m2 => time_text false 0 h2 m1 m2) (seq 0 10))
         (seq 0 6))
    (seq 0 10)
  ++ flat_map
       (fun h1 =>
          flat_map
            (fun h2 =>
               flat_map
                 (fun m1 => map (fun m2 => time_text true h1 h2 m1 m2) (seq 0 10))
                 (seq 0 6))
            (seq 0 (if Nat.eqb h1 2 then 4 else 10)))
       (seq 0 3).

(** What schema validation and the time-order hook leave in a stored
    appointment, whenever it was written. *)
Definition well_formed (a : Appointment.t) : Prop :=
  Js.matches_time (start (Appointment.timeSlot a)) = true /\
  Js.matches_time (end_ (Appointment.timeSlot a)) = true /\
  (exists s e,
      Js.minutes (start (Appointment.timeSlot a)) = Some s /\
      Js.minutes (end_ (Appointment.timeSlot a)) = Some e /\
      0 <= s < e /\ e < 1440) /\
  Appointment.isIn (Appointment.type a) Appointment.types = true /\
  Appointment.isIn (Appointment.priority a) Appointment.priorities = true /\
  1 <= Js.len (Appointment.reason a) <= 500.

Definition all_well_formed (db : Store) : Prop :=
  forall a, In a (appointments db) -> well_formed a.

(** The order of a listing, as a relation. *)
Definition in_order (a b : Appointment.t) : Prop := sort_leb a b = true.

(** The time slot is one the booking page makes: a start of the
    working-hours template with the end [getEndTime] gives it. *)
Definition page_made (ts : TimeSlot) : Prop :=
  In (start ts) workingHours /\ end_ ts = Frontend.getEndTime (start ts).

(** A second clinic for the examples: one appointment of each kind. *)
Module Cases.

Definition booked : Store :=
  Sample.after [(Sample.P, Sample.book "09:00" "09:30");
                (Sample.Q, Sample.book "14:00" "14:30")] Sample.clinic.

Definition cancelled_first : Store :=
  Sample.after [(Sample.P, Sample.set_to 100 "cancelled")] booked.

Definition N : User.t := User.mk 30 Nurse true.

Definition first_page : ListQuery :=
  mkListQuery NoInt NoInt None None None None.

(** The appointment of [P] in [booked], and the one that a booking of [Q]
    for 09:00-10:00 adds to it. *)
Definition first : Appointment.t :=
  new_appointment Sample.P (Sample.booking "09:00" "09:30") 10 1749513600000
    Sample.clinic.

Definition third : Appointment.t :=
  new_appointment Sample.Q (Sample.booking "09:00" "10:00") 10 1749513600000 booked.

(** A scan that runs backwards for the pages of even number. *)
Definition zigzag (p : nat) (l : list Appointment.t) : list Appointment.t :=
  if Nat.even p then rev l else l.

(** A store in which the first appointment has a one-digit hour. *)
Definition early : Store :=
  Sample.after [(Sample.P, Sample.book "9:00" "11:00");
                (Sample.Q, Sample.book "14:00" "14:30")] Sample.clinic.



End Cases.

(* ================================================================== *)
(** * Basic facts about the embedding *)

Lemma check_nil (ok : bool) (path : string) :
  Appointment.check ok path = [] <-> ok = true.
Proof.
  unfold Appointment.check. destruct ok; split; intro H; try reflexivity; discriminate.
Qed.

Lemma role_eqb_eq (a b : Role) : role_eqb a b = true <-> a = b.
Proof. destruct a, b; simpl; split; intro H; try reflexivity; discriminate. Qed.

Lemma status_eqb_eq (a b : Status) : status_eqb a b = true <-> a = b.
Proof. destruct a, b; simpl; split; intro H; try reflexivity; discriminate. Qed.

Lemma slot_eqb_eq (x y : TimeSlot) : slot_eqb x y = true <-> x = y.
Proof.
  unfold slot_eqb. rewrite andb_true_iff, !String.eqb_eq.
  destruct x, y; simpl. split.
  - intros [-> ->]. reflexivity.
  - intro H. inversion H. auto.
Qed.

Lemma same_key_spec (a b : Appointment.t) :
  Appointment.same_key a b = true <->
  Appointment.doctor a = Appointment.doctor b /\
  Appointment.appointmentDate a = Appointment.appointmentDate b /\
  Appointment.timeSlot a = Appointment.timeSlot b.
Proof.
  unfold Appointment.same_key.
  rewrite !andb_true_iff, !Z.eqb_eq, slot_eqb_eq. tauto.
Qed.

Lemma same_key_sym (a b : Appointment.t) :
  Appointment.same_key a b = Appointment.same_key b a.
Proof.
  apply eq_true_iff_eq. rewrite !same_key_spec.
  intuition congruence.
Qed.

(** What a successful [save] has checked and written. *)
Lemma save_ok (now : Z) (isNew : bool) (a : Appointment.t) (db db' : Store) :
  save now isNew a db = inr db' ->
  Appointment.validate now a = [] /\
  Appointment.hook_rejects (Appointment.timeSlot a) = false /\
  (isNew = true -> Appointment.duplicate_id a (appointments db) = false) /\
  Appointment.duplicate_key a (appointments db) = false /\
  db' = if isNew
        then mkStore (users db) (appointments db ++ [a]) (next_id db + 1)
        else mkStore (users db) (Appointment.replace a (appointments db)) (next_id db).
Proof.
  unfold save, Appointment.pre_save.
  destruct (Appointment.validate now a); [| discriminate].
  destruct (Appointment.hook_rejects (Appointment.timeSlot a)); [discriminate |].
  destruct (Appointment.duplicate_key a (appointments db)).
  - rewrite orb_true_r. discriminate.
  - rewrite orb_false_r.
    destruct isNew; simpl.
    + destruct (Appointment.duplicate_id a (appointments db)); [discriminate |].
      intro H. inversion H. auto.
    + intro H. inversion H. repeat split; auto. discriminate.
Qed.

(** A failed [save] writes nothing: the caller keeps the store it had. *)
Lemma save_users (now : Z) (isNew : bool) (a : Appointment.t) (db db' : Store) :
  save now isNew a db = inr db' -> users db' = users db.
Proof.
  intro H. apply save_ok in H. destruct H as (_ & _ & _ & _ & ->).
  destruct isNew; reflexivity.
Qed.

Lemma no_duplicate_key (a : Appointment.t) (docs : list Appointment.t) :
  Appointment.duplicate_key a docs = false ->
  Appointment.is_active a = true ->
  forall b, In b docs -> Appointment._id b <> Appointment._id a ->
       Appointment.is_active b = true -> Appointment.same_key a b = false.
Proof.
  unfold Appointment.duplicate_key. intros H Ha b Hb Hid Hact.
  rewrite Ha in H. simpl in H.
  destruct (Appointment.same_key a b) eqn:K; [| reflexivity].
  assert (E : existsb
                (fun b0 => negb (Appointment._id b0 =? Appointment._id a)
                           && Appointment.is_active b0
                           && Appointment.same_key a b0) docs = true).
  { apply existsb_exists. exists b. split; [assumption |].
    apply Z.eqb_neq in Hid. rewrite Hid, Hact, K. reflexivity. }
  congruence.
Qed.

Lemma replace_ids (a : Appointment.t) (docs : list Appointment.t) :
  map Appointment._id (Appointment.replace a docs) = map Appointment._id docs.
Proof.
  unfold Appointment.replace. induction docs as [| b docs IH]; simpl.
  - reflexivity.
  - rewrite IH. f_equal.
    destruct (Appointment._id b =? Appointment._id a) eqn:E.
    + apply Z.eqb_eq in E. congruence.
    + reflexivity.
Qed.

Lemma in_replace (a x : Appointment.t) (docs : list Appointment.t) :
  In x (Appointment.replace a docs) ->
  x = a \/ (In x docs /\ Appointment._id x <> Appointment._id a).
Proof.
  unfold Appointment.replace. rewrite in_map_iff.
  intros (b & Hx & Hb).
  destruct (Appointment._id b =? Appointment._id a) eqn:E.
  - left. congruence.
  - right. subst x. apply Z.eqb_neq in E. auto.
Qed.

(** ** The index invariant is kept by every write *)

Lemma save_keeps_index (now : Z) (isNew : bool) (a : Appointment.t)
  (db db' : Store) :
  index_invariant db -> save now isNew a db = inr db' -> index_invariant db'.
Proof.
  intros [Hids Huniq] Hsave.
  apply save_ok in Hsave. destruct Hsave as (_ & _ & Hnew & Hdup & ->).
  assert (Hpair : forall b, In b (appointments db) ->
                       Appointment._id b <> Appointment._id a ->
                       Appointment.is_active a = true -> Appointment.is_active b = true ->
                       Appointment.doctor a = Appointment.doctor b ->
                       Appointment.appointmentDate a = Appointment.appointmentDate b ->
                       Appointment.timeSlot a <> Appointment.timeSlot b).
  { intros b Hb Hid Ha Hact Hd Ht Hs.
    pose proof (no_duplicate_key a _ Hdup Ha b Hb Hid Hact) as K.
    assert (K' : Appointment.same_key a b = true) by (apply same_key_spec; auto).
    congruence. }
  destruct isNew; split; unfold ids_unique, unique_active_slots in *; simpl.
  - rewrite map_app. simpl.
    specialize (Hnew eq_refl). unfold Appointment.duplicate_id in Hnew.
    apply NoDup_app; [assumption | constructor; [intros [] | constructor] |].
    intros i Hi [Hia | []]. subst i.
    apply in_map_iff in Hi. destruct Hi as (b & Hbid & Hb).
    assert (E : existsb (fun b0 => Appointment._id b0 =? Appointment._id a)
                  (appointments db) = true).
    { apply existsb_exists. exists b. split; [assumption |]. now apply Z.eqb_eq. }
    congruence.
  - intros x y Hx Hy Hid Hax Hay Hd Ht.
    apply in_app_iff in Hx. apply in_app_iff in Hy. simpl in Hx, Hy.
    destruct Hx as [Hx | [<- | []]]; destruct Hy as [Hy | [<- | []]].
    + now apply Huniq.
    + intro Hs. apply (Hpair x Hx Hid Hay Hax); auto.
    + apply Hpair; auto.
    + congruence.
  - rewrite replace_ids. assumption.
  - intros x y Hx Hy Hid Hax Hay Hd Ht.
    apply in_replace in Hx. apply in_replace in Hy.
    destruct Hx as [-> | [Hx Hxa]]; destruct Hy as [-> | [Hy Hya]].
    + congruence.
    + apply Hpair; auto.
    + intro Hs. apply (Hpair x Hx Hxa Hay Hax); auto.
    + now apply Huniq.
Qed.

Lemma delete_keeps_index (id : ObjectId) (db : Store) :
  index_invariant db ->
  index_invariant
    (mkStore (users db)
       (filter (fun a => negb (Appointment._id a =? id)) (appointments db))
       (next_id db)).
Proof.
  intros [Hids Huniq]. split; unfold ids_unique, unique_active_slots in *; simpl.
  - clear Huniq. induction (appointments db) as [| b docs IH]; simpl.
    + constructor.
    + simpl in Hids. inversion Hids as [| ? ? Hnot Hrest]; subst.
      destruct (negb (Appointment._id b =? id)); simpl; auto.
      constructor; auto.
      intro Hin. apply Hnot. apply in_map_iff in Hin.
      destruct Hin as (c & Hc & Hcin). apply filter_In in Hcin.
      apply in_map_iff. exists c. tauto.
  - intros x y Hx Hy. apply filter_In in Hx. apply filter_In in Hy.
    apply Huniq; tauto.
Qed.

(** Every route either leaves the store alone, or commits one successful
    [save], or removes the documents of one id. *)
Lemma handle_writes (now : Z) (user : User.t) (r : Request) (db : Store) :
  snd (handle now user r db) = db \/
  (exists isNew a, save now isNew a db = inr (snd (handle now user r db))) \/
  (exists id,
      snd (handle now user r db) =
      mkStore (users db)
        (filter (fun a => negb (Appointment._id a =? id)) (appointments db))
        (next_id db)).
Proof.
  destruct r as [b | id b | id b | id | q]; simpl.
  - unfold post_appointment.
    destruct (negb (role_eqb (User.role user) Patient)); [auto |].
    destruct (validateAppointment now b); [| auto].
    destruct (b_doctor b) as [d |]; [| auto].
    destruct (findUser d db) as [du |]; [| auto].
    destruct (negb (role_eqb (User.role du) Doctor) || negb (User.isActive du))%bool; [auto |].
    destruct (asDate (b_appointmentDate b)) as [date |]; [| auto].
    destruct (save now true (new_appointment user b d date db) db) as [e | db'] eqn:S.
    + left. destruct (is_duplicate_key e); reflexivity.
    + right. left. exists true, (new_appointment user b d date db). simpl. assumption.
  - unfold patch_status.
    destruct (authorizeAppointmentAccess user id db) as [? | a]; [auto |].
    destruct (requested_status b) as [st |]; [| auto].
    destruct (negb (canUpdateStatus user a st)); [auto |].
    destruct (save now false (apply_status user a st (s_notes b)) db) as [e | db'] eqn:S.
    + left. reflexivity.
    + right. left. exists false, (apply_status user a st (s_notes b)). assumption.
  - unfold put_appointment.
    destruct (authorizeAppointmentAccess user id db) as [? | a]; [auto |].
    destruct (negb (canUpdate user a)); [auto |].
    destruct (reschedule b a db) as [? | moved]; [auto |].
    destruct (save now false (apply_fields b moved) db) as [e | db'] eqn:S.
    + left. reflexivity.
    + right. left. exists false, (apply_fields b moved). assumption.
  - unfold delete_appointment.
    destruct (negb (role_eqb (User.role user) Admin)); [auto |].
    destruct (findById id db); [| auto].
    right. right. exists id. reflexivity.
  - auto.
Qed.

Lemma handle_keeps_index (now : Z) (user : User.t) (r : Request) (db : Store) :
  index_invariant db -> index_invariant (snd (handle now user r db)).
Proof.
  intro Hinv.
  destruct (handle_writes now user r db) as [-> | [(isNew & a & Hsave) | (id & ->)]].
  - assumption.
  - eapply save_keeps_index; eassumption.
  - now apply delete_keeps_index.
Qed.

(** ** From the validators to the schema *)

Lemma matches_time_truthy (s : string) :
  Js.matches_time s = true -> Js.truthy s = true.
Proof. destruct s; [discriminate | reflexivity]. Qed.

Lemma or_default_isIn (o : option string) (dflt : string) (l : list string) :
  optional_isIn o l = true -> Appointment.isIn dflt l = true ->
  Appointment.isIn (or_default o dflt) l = true.
Proof.
  destruct o as [s |]; simpl; [| auto].
  destruct (Js.truthy s); auto.
Qed.

Lemma long_truthy (s : string) : 10 <= Js.len s -> Js.truthy s = true.
Proof.
  destruct s; [| reflexivity]. unfold Js.len. simpl. lia.
Qed.

Lemma validate_passes (now : Z) (a : Appointment.t) :
  (now <? Appointment.appointmentDate a) = true ->
  (Js.truthy (start (Appointment.timeSlot a))
   && Js.matches_time (start (Appointment.timeSlot a)))%bool = true ->
  (Js.truthy (end_ (Appointment.timeSlot a))
   && Js.matches_time (end_ (Appointment.timeSlot a)))%bool = true ->
  Appointment.isIn (Appointment.type a) Appointment.types = true ->
  (Js.truthy (Appointment.reason a) && (Js.len (Appointment.reason a) <=? 500))%bool = true ->
  Appointment.within 1000 (notes_patient (Appointment.notes a)) = true ->
  Appointment.within 1000 (notes_doctor (Appointment.notes a)) = true ->
  Appointment.within 500 (notes_admin (Appointment.notes a)) = true ->
  Appointment.isIn (Appointment.priority a) Appointment.priorities = true ->
  ((15 <=? Appointment.estimatedDuration a)
   && (Appointment.estimatedDuration a <=? 240))%bool = true ->
  Appointment.validate now a = [].
Proof.
  intros H1 H2 H3 H4 H5 H6 H7 H8 H9 H10. unfold Appointment.validate.
  rewrite H1, H2, H3, H4, H5, H6, H7, H8, H9, H10. reflexivity.
Qed.

(** A body the validators let through yields a document the schema
    accepts at the same instant. *)
Lemma validators_imply_schema (now : Z) (user : User.t) (b : CreateBody)
  (d : ObjectId) (date : Z) (db : Store) :
  validateAppointment now b = [] ->
  asDate (b_appointmentDate b) = Js.Instant date ->
  Appointment.validate now (new_appointment user b d date db) = [].
Proof.
  unfold validateAppointment. intros H Hdate.
  apply app_eq_nil in H; destruct H as [_ H].
  apply app_eq_nil in H; destruct H as [_ H].
  apply app_eq_nil in H; destruct H as [Kdate H].
  apply app_eq_nil in H; destruct H as [Kstart H].
  apply app_eq_nil in H; destruct H as [Kend H].
  apply app_eq_nil in H; destruct H as [Kreason H].
  apply app_eq_nil in H; destruct H as [Ktype Kprio].
  rewrite check_nil in *. rewrite Hdate in Kdate. simpl in Kdate.
  apply andb_true_iff in Kreason. destruct Kreason as [Hlo Hhi].
  apply Z.leb_le in Hlo.
  apply validate_passes; unfold new_appointment; cbn -[Appointment.isIn Js.truthy Js.len Js.trim Js.matches_time Z.leb Z.ltb].
  - apply Z.ltb_lt. apply negb_true_iff, Z.leb_gt in Kdate. lia.
  - now rewrite Kstart, (matches_time_truthy _ Kstart).
  - now rewrite Kend, (matches_time_truthy _ Kend).
  - apply or_default_isIn; [assumption | reflexivity].
  - now rewrite (long_truthy _ Hlo), Hhi.
  - reflexivity.
  - reflexivity.
  - reflexivity.
  - apply or_default_isIn; [assumption | reflexivity].
  - reflexivity.
Qed.

(** A bookable request gets as far as the write, and is answered from the
    outcome of [save] alone. *)
Lemma post_reaches_save (now : Z) (user : User.t) (b : CreateBody)
  (d : ObjectId) (date : Z) (db : Store) :
  reaches_save now user b d date db ->
  post_appointment now user b db =
  match save now true (new_appointment user b d date db) db with
  | inl saveError =>
      if is_duplicate_key saveError then (not_available, db)
      else (mkResponse 500 (Message "Failed to book appointment"), db)
  | inr db' =>
      (mkResponse 201
         (WithAppointment "Appointment booked successfully"
            (new_appointment user b d date db)), db')
  end.
Proof.
  intros (Hrole & Hval & Hdoc & (du & Hfind & Hdr & Hact) & Hdate).
  unfold post_appointment.
  rewrite Hrole, Hval, Hdoc, Hfind, Hdr, Hact, Hdate. reflexivity.
Qed.

Lemma bookable_users (now : Z) (user : User.t) (b : CreateBody) (d : ObjectId)
  (date : Z) (db db' : Store) :
  users db' = users db -> bookable now user b d date db ->
  bookable now user b d date db'.
Proof.
  unfold bookable, reaches_save, findUser. intros ->. tauto.
Qed.


(** The write of a bookable request on a free slot succeeds and appends
    the new document. *)
Lemma free_slot_books (now : Z) (user : User.t) (b : CreateBody)
  (d : ObjectId) (date : Z) (db : Store) :
  bookable now user b d date db ->
  ids_fresh db ->
  ~ slot_taken d date (b_timeSlot b) db ->
  post_appointment now user b db =
  (mkResponse 201
     (WithAppointment "Appointment booked successfully"
        (new_appointment user b d date db)),
   mkStore (users db) (appointments db ++ [new_appointment user b d date db])
     (next_id db + 1)).
Proof.
  intros Hb Hfresh Hfree.
  destruct Hb as (Hb & Hhook).
  rewrite (post_reaches_save _ _ _ _ _ _ Hb).
  destruct Hb as (_ & Hval & _ & _ & Hdate).
  unfold save, Appointment.pre_save.
  rewrite (validators_imply_schema _ user _ d _ db Hval Hdate).
  simpl Appointment.timeSlot. rewrite Hhook.
  set (a := new_appointment user b d date db).
  assert (Did : Appointment.duplicate_id a (appointments db) = false).
  { unfold Appointment.duplicate_id.
    destruct (existsb _ (appointments db)) eqn:E; [| reflexivity].
    apply existsb_exists in E. destruct E as (x & Hx & Hid).
    apply Z.eqb_eq in Hid. apply Hfresh in Hx. simpl in Hid. lia. }
  assert (Dk : Appointment.duplicate_key a (appointments db) = false).
  { unfold Appointment.duplicate_key.
    destruct (existsb _ (appointments db)) eqn:E; [| apply andb_false_r].
    apply existsb_exists in E. destruct E as (x & Hx & Hc).
    apply andb_true_iff in Hc. destruct Hc as [Hc Hk].
    apply andb_true_iff in Hc. destruct Hc as [_ Hact].
    apply same_key_spec in Hk. simpl in Hk. destruct Hk as (Hd & Ht & Hs).
    exfalso. apply Hfree. exists x. auto. }
  rewrite Did, Dk. reflexivity.
Qed.

(** ** The availability query *)

Lemma in_bookedAppointments (doctorId : ObjectId) (searchDate nextDay : Z)
  (db : Store) (a : Appointment.t) :
  In a (bookedAppointments doctorId searchDate nextDay db) <->
  In a (appointments db) /\
  Appointment.doctor a = doctorId /\
  searchDate <= Appointment.appointmentDate a < nextDay /\
  Appointment.is_active a = true.
Proof.
  unfold bookedAppointments, booked_on. rewrite filter_In.
  rewrite !andb_true_iff, Z.eqb_eq, Z.leb_le, Z.ltb_lt. tauto.
Qed.

Lemma in_availableSlots (booked : list Appointment.t) (slot : string) :
  In slot (availableSlots_of booked) <->
  In slot workingHours /\
  forall a, In a booked -> start (Appointment.timeSlot a) <> slot.
Proof.
  unfold availableSlots_of. rewrite filter_In, negb_true_iff.
  split; intros [Hw H]; split; try assumption.
  - intros a Ha Heq.
    assert (E : existsb (fun a0 => String.eqb (start (Appointment.timeSlot a0)) slot)
                  booked = true)
      by (apply existsb_exists; exists a; split; [assumption | now apply String.eqb_eq]).
    congruence.
  - destruct (existsb _ booked) eqn:E; [| reflexivity].
    apply existsb_exists in E. destruct E as (a & Ha & Heq).
    apply String.eqb_eq in Heq. exfalso. exact (H a Ha Heq).
Qed.

Lemma availableSlots_none : availableSlots_of [] = workingHours.
Proof. reflexivity. Qed.

(** The day after [searchDate], when there is one, starts 24 hours later. *)
Lemma next_day_instant (searchDate nextDay : Z) :
  Js.next_day (Js.Instant searchDate) = Js.Instant nextDay ->
  nextDay = searchDate + Js.day_ms /\ Z.abs nextDay <= Js.max_time.
Proof.
  unfold Js.next_day, Js.time_clip.
  destruct (Z.abs (searchDate + Js.day_ms) <=? Js.max_time) eqn:E; [| discriminate].
  intro H. inversion H. subst nextDay. split; [reflexivity |]. now apply Z.leb_le.
Qed.

Lemma next_day_in_range (searchDate : Z) :
  Z.abs (searchDate + Js.day_ms) <= Js.max_time ->
  Js.next_day (Js.Instant searchDate) = Js.Instant (searchDate + Js.day_ms).
Proof.
  intro H. unfold Js.next_day, Js.time_clip.
  apply Z.leb_le in H. rewrite H. reflexivity.
Qed.

(** With a parsable date that has a next day, the query answers 200 from
    the fetched documents. *)
Lemma availability_answer (q : AvailabilityQuery) (db : Store) (d : DateInput)
  (searchDate nextDay : Z) :
  q_date q = Some d -> Js.truthy (text d) = true ->
  asDate d = Js.Instant searchDate ->
  Js.next_day (Js.Instant searchDate) = Js.Instant nextDay ->
  get_availability q db =
  mkResponse 200
    (Availability (text d)
       (availableSlots_of (bookedAppointments (q_doctorId q) searchDate nextDay db))
       (map Appointment.timeSlot (bookedAppointments (q_doctorId q) searchDate nextDay db))).
Proof.
  intros Hq Ht Hd Hn. unfold get_availability. rewrite Hq, Ht, Hd, Hn. reflexivity.
Qed.

(** Without a next day the cast of the filter throws, as it does for an
    unparsable date. *)
Lemma availability_failed (q : AvailabilityQuery) (db : Store) (d : DateInput)
  (searchDate : Z) :
  q_date q = Some d -> Js.truthy (text d) = true ->
  asDate d = Js.Instant searchDate ->
  Js.next_day (Js.Instant searchDate) = Js.InvalidDate ->
  get_availability q db = mkResponse 500 (Message "Failed to retrieve availability").
Proof.
  intros Hq Ht Hd Hn. unfold get_availability. rewrite Hq, Ht, Hd, Hn. reflexivity.
Qed.




(** C9, what the route does: a date parameter that is present but does not
    parse makes the query filter throw, and the request is answered with the
    generic 500 of the [catch] block, not with a 400. *)
Theorem C9_unparsable_date_answered_500 :
  forall (q : AvailabilityQuery) (db : Store) (d : DateInput),
    q_date q = Some d -> Js.truthy (text d) = true ->
    asDate d = Js.InvalidDate ->
    get_availability q db =
    mkResponse 500 (Message "Failed to retrieve availability").
Proof.
  intros q db d Hq Ht Hd. unfold get_availability.
  rewrite Hq, Ht, Hd. reflexivity.
Qed.

Lemma C9_unparsable_date_answered_500_witness :
  get_availability (mkAvailabilityQuery 10 (Some Sample.garbled)) Sample.clinic =
  mkResponse 500 (Message "Failed to retrieve availability").
Proof.
  apply (C9_unparsable_date_answered_500
           (mkAvailabilityQuery 10 (Some Sample.garbled)) Sample.clinic
           Sample.garbled); reflexivity.
Defined.

(** ** The index invariant along a run, and the interval invariant *)

Lemma run_keeps_index (now : Z) (steps : list (User.t * Request)) (db : Store) :
  index_invariant db ->
  index_invariant
    (fold_left (fun s step => snd (handle now (fst step) (snd step) s)) steps db).
Proof.
  revert db. induction steps as [| step steps IH]; intros db Hinv; simpl.
  - assumption.
  - apply IH. now apply handle_keeps_index.
Qed.

Lemma empty_index_invariant (us : list User.t) (n : ObjectId) :
  index_invariant (mkStore us [] n).
Proof.
  split.
  - constructor.
  - intros a b [].
Qed.

(** C1, as amended: what every create, update, status change and delete
    preserves is the uniqueness kept by the partial index: ids stay
    distinct, and two distinct active appointments of one doctor on one
    appointmentDate never have the same timeSlot start and end. *)
Theorem C1_unique_active_slot_preserved :
  forall (now : Z) (user : User.t) (r : Request) (db : Store),
    index_invariant db ->
    let db' := snd (handle now user r db) in
    ids_unique db' /\
    forall a b,
      In a (appointments db') -> In b (appointments db') ->
      Appointment._id a <> Appointment._id b ->
      Appointment.is_active a = true -> Appointment.is_active b = true ->
      Appointment.doctor a = Appointment.doctor b ->
      Appointment.appointmentDate a = Appointment.appointmentDate b ->
      ~ (start (Appointment.timeSlot a) = start (Appointment.timeSlot b) /\
         end_ (Appointment.timeSlot a) = end_ (Appointment.timeSlot b)).
Proof.
  intros now user r db Hinv db'.
  destruct (handle_keeps_index now user r db Hinv) as [Hids Huniq].
  split; [exact Hids |].
  intros a b Ha Hb Hid Haa Hab Hd Ht [Hs He].
  apply (Huniq a b Ha Hb Hid Haa Hab Hd Ht).
  destruct (Appointment.timeSlot a), (Appointment.timeSlot b).
  simpl in Hs, He. congruence.
Qed.

Lemma C1_unique_active_slot_preserved_witness :
  index_invariant Cases.booked /\
  List.length
    (appointments
       (snd (handle Sample.now Sample.Q (Sample.book "09:00" "10:00") Cases.booked)))
  = 3%nat /\
  ids_unique
    (snd (handle Sample.now Sample.Q (Sample.book "09:00" "10:00") Cases.booked)) /\
  (In Cases.first
     (appointments
        (snd (handle Sample.now Sample.Q (Sample.book "09:00" "10:00") Cases.booked))) /\
   In Cases.third
     (appointments
        (snd (handle Sample.now Sample.Q (Sample.book "09:00" "10:00") Cases.booked))) /\
   Appointment._id Cases.first <> Appointment._id Cases.third /\
   Appointment.is_active Cases.first = true /\
   Appointment.is_active Cases.third = true /\
   Appointment.doctor Cases.first = Appointment.doctor Cases.third /\
   Appointment.appointmentDate Cases.first = Appointment.appointmentDate Cases.third /\
   start (Appointment.timeSlot Cases.first) = start (Appointment.timeSlot Cases.third)) /\
  ~ (start (Appointment.timeSlot Cases.first) = start (Appointment.timeSlot Cases.third) /\
     end_ (Appointment.timeSlot Cases.first) = end_ (Appointment.timeSlot Cases.third)).
Proof.
  assert (I : index_invariant Cases.booked).
  { apply (run_keeps_index Sample.now
             [(Sample.P, Sample.book "09:00" "09:30");
              (Sample.Q, Sample.book "14:00" "14:30")] Sample.clinic).
    apply empty_index_invariant. }
  destruct (C1_unique_active_slot_preserved Sample.now Sample.Q
              (Sample.book "09:00" "10:00") Cases.booked I) as [Hids Hpair].
  assert (Ha : In Cases.first
                 (appointments
                    (snd (handle Sample.now Sample.Q (Sample.book "09:00" "10:00")
                            Cases.booked))))
    by (vm_compute; left; reflexivity).
  assert (Hb : In Cases.third
                 (appointments
                    (snd (handle Sample.now Sample.Q (Sample.book "09:00" "10:00")
                            Cases.booked))))
    by (vm_compute; right; right; left; reflexivity).
  assert (Hid : Appointment._id Cases.first <> Appointment._id Cases.third)
    by (vm_compute; discriminate).
  split; [exact I |]. split; [vm_compute; reflexivity |]. split; [exact Hids |].
  split.
  - repeat split; try assumption; reflexivity.
  - apply (Hpair Cases.first Cases.third Ha Hb Hid); reflexivity.
Defined.

(** C1 as stated fails on create: with 09:00-10:00 booked, a second booking
    of the same doctor and date for 09:30-10:30 is accepted, and the two
    active appointments overlap. *)
Lemma C1_create_allows_overlap :
  no_overlap (Sample.after [(Sample.P, Sample.book "09:00" "10:00")] Sample.clinic) /\
  status_code
    (Sample.reply Sample.Q (Sample.book "09:30" "10:30")
       (Sample.after [(Sample.P, Sample.book "09:00" "10:00")] Sample.clinic)) = 201 /\
  ~ no_overlap
      (snd (handle Sample.now Sample.Q (Sample.book "09:30" "10:30")
              (Sample.after [(Sample.P, Sample.book "09:00" "10:00")] Sample.clinic))).
Proof.
  split; [| split].
  - intros a b Ha Hb Hid. vm_compute in Ha, Hb.
    destruct Ha as [<- | []]. destruct Hb as [<- | []].
    exfalso. apply Hid. reflexivity.
  - vm_compute. reflexivity.
  - intro H.
    set (db2 := snd (handle Sample.now Sample.Q (Sample.book "09:30" "10:30")
                       (Sample.after [(Sample.P, Sample.book "09:00" "10:00")] Sample.clinic))) in H.
    assert (E : exists a b,
               appointments db2 = [a; b] /\
               Appointment._id a <> Appointment._id b /\
               Appointment.is_active a = true /\ Appointment.is_active b = true /\
               Appointment.doctor a = Appointment.doctor b /\
               Appointment.appointmentDate a = Appointment.appointmentDate b /\
               intervals_overlap (Appointment.timeSlot a) (Appointment.timeSlot b) = true).
    { vm_compute. eexists. eexists. split; [reflexivity |].
      repeat split; try reflexivity. discriminate. }
    destruct E as (a & b & Hdocs & Hid & Ha & Hb & Hd & Ht & Ho).
    rewrite (H a b) in Ho; try assumption; try discriminate.
    + rewrite Hdocs. left. reflexivity.
    + rewrite Hdocs. right. left. reflexivity.
Qed.

(** ** Booking a slot that is taken *)



(** ** The status route *)

Lemma findById_some (id : ObjectId) (db : Store) (a : Appointment.t) :
  findById id db = Some a -> In a (appointments db) /\ Appointment._id a = id.
Proof.
  unfold findById. intro H. apply find_some in H.
  destruct H as [Hin Hid]. apply Z.eqb_eq in Hid. auto.
Qed.

Lemma apply_status_fields (user : User.t) (a : Appointment.t) (st : Status)
  (notes : option string) :
  let u := apply_status user a st notes in
  Appointment._id u = Appointment._id a /\
  Appointment.status u = st /\
  Appointment.doctor u = Appointment.doctor a /\
  Appointment.appointmentDate u = Appointment.appointmentDate a /\
  Appointment.timeSlot u = Appointment.timeSlot a.
Proof.
  unfold apply_status.
  destruct (status_eqb st Cancelled); destruct notes as [n |];
    try destruct (Js.truthy n); simpl; auto.
Qed.

(** A 200 from the status route means the caller was let through and the
    changed document was saved. *)
Lemma patch_status_200 (now : Z) (user : User.t) (id : ObjectId)
  (b : StatusBody) (db : Store) :
  status_code (fst (patch_status now user id b db)) = 200 ->
  exists a st,
    findById id db = Some a /\
    requested_status b = Some st /\
    canUpdateStatus user a st = true /\
    save now false (apply_status user a st (s_notes b)) db
    = inr (snd (patch_status now user id b db)).
Proof.
  unfold patch_status, authorizeAppointmentAccess.
  destruct (findById id db) as [a |]; [| discriminate].
  destruct (negb (User._id user =? Appointment.patient a)
            && negb (User._id user =? Appointment.doctor a)
            && negb (role_eqb (User.role user) Admin || role_eqb (User.role user) Nurse))%bool;
    [discriminate |].
  destruct (requested_status b) as [st |]; [| discriminate].
  destruct (canUpdateStatus user a st) eqn:C; [| discriminate]. simpl.
  destruct (save now false (apply_status user a st (s_notes b)) db) eqn:S;
    [discriminate |].
  intros _. exists a, st. auto.
Qed.

(** The owning patient passes the status gate for [cancelled] whatever the
    current status of the appointment is. *)
Lemma owner_may_cancel_any (user : User.t) (a : Appointment.t) :
  User.role user = Patient -> User._id user = Appointment.patient a ->
  canUpdateStatus user a Cancelled = true.
Proof.
  intros Hr Hid. unfold canUpdateStatus. rewrite Hr, Hid, Z.eqb_refl. reflexivity.
Qed.







(** C5, what the route does: the patient who owns a confirmed appointment
    asks for cancelled; the request is answered 200 and the stored status
    becomes cancelled. *)
Theorem C5_owner_patient_cancels_confirmed :
  stored_status 100
    (Sample.after [(Sample.P, Sample.book "09:00" "09:30");
                   (Sample.A, Sample.set_to 100 "confirmed")] Sample.clinic)
  = Some Confirmed /\
  option_map Appointment.patient
    (findById 100
       (Sample.after [(Sample.P, Sample.book "09:00" "09:30");
                      (Sample.A, Sample.set_to 100 "confirmed")] Sample.clinic))
  = Some (User._id Sample.P) /\
  status_code
    (Sample.reply Sample.P (Sample.set_to 100 "cancelled")
       (Sample.after [(Sample.P, Sample.book "09:00" "09:30");
                      (Sample.A, Sample.set_to 100 "confirmed")] Sample.clinic))
  = 200 /\
  stored_status 100
    (Sample.after [(Sample.P, Sample.book "09:00" "09:30");
                   (Sample.A, Sample.set_to 100 "confirmed");
                   (Sample.P, Sample.set_to 100 "cancelled")] Sample.clinic)
  = Some Cancelled.
Proof.
  repeat split; vm_compute; reflexivity.
Qed.

(** ** Booking, then cancelling, seen through the availability query *)

(** A 201 from the create route means the new document was saved. *)
Lemma post_appointment_201 (now : Z) (user : User.t) (b : CreateBody) (db : Store) :
  status_code (fst (post_appointment now user b db)) = 201 ->
  exists d date,
    b_doctor b = Some d /\
    asDate (b_appointmentDate b) = Js.Instant date /\
    save now true (new_appointment user b d date db) db
    = inr (snd (post_appointment now user b db)).
Proof.
  unfold post_appointment.
  destruct (negb (role_eqb (User.role user) Patient)); [discriminate |].
  destruct (validateAppointment now b); [| discriminate].
  destruct (b_doctor b) as [d |]; [| discriminate].
  destruct (findUser d db) as [du |]; [| discriminate].
  destruct (negb (role_eqb (User.role du) Doctor) || negb (User.isActive du))%bool;
    [discriminate |].
  destruct (asDate (b_appointmentDate b)) as [date |]; [| discriminate].
  destruct (save now true (new_appointment user b d date db) db) as [e | db'] eqn:S.
  - destruct (is_duplicate_key e); discriminate.
  - intros _. exists d, date. auto.
Qed.

Lemma replace_other (u : Appointment.t) (docs : list Appointment.t) :
  (forall x, In x docs -> Appointment._id x <> Appointment._id u) ->
  Appointment.replace u docs = docs.
Proof.
  unfold Appointment.replace. induction docs as [| x docs IH]; intro H; simpl.
  - reflexivity.
  - rewrite IH by (intros y Hy; apply H; right; exact Hy).
    assert (E : (Appointment._id x =? Appointment._id u) = false)
      by (apply Z.eqb_neq, H; left; reflexivity).
    rewrite E. reflexivity.
Qed.

Lemma filter_inactive (doctorId : ObjectId) (searchDate nextDay : Z)
  (u : Appointment.t) :
  Appointment.is_active u = false -> booked_on doctorId searchDate nextDay u = false.
Proof. unfold booked_on. intros ->. apply andb_false_r. Qed.

(** C4, as amended: after a successful booking of a slot for doctor D at
    instant T, a query for D whose day window holds T lists that slot's
    start in no availableSlots and, the queried date having a next day, its
    timeSlot among bookedSlots; once the booking has been set to cancelled,
    the query answers exactly what it answered before the booking, so the
    slot is available again if and only if it was available before the
    booking.  (The day of a booked date has a next day: [isISO8601] takes
    years of four digits only.) *)
Theorem C4_availability_round_trip :
  forall (now now' : Z) (user canceller : User.t) (b : CreateBody)
         (d : ObjectId) (date : Z) (db : Store) (q : AvailabilityQuery)
         (dq : DateInput) (searchDate : Z) (notes : option string),
    ids_fresh db ->
    b_doctor b = Some d ->
    asDate (b_appointmentDate b) = Js.Instant date ->
    status_code (fst (post_appointment now user b db)) = 201 ->
    q_doctorId q = d -> q_date q = Some dq -> Js.truthy (text dq) = true ->
    asDate dq = Js.Instant searchDate ->
    searchDate <= date < searchDate + Js.day_ms ->
    let db1 := snd (post_appointment now user b db) in
    let cancel := patch_status now' canceller (next_id db)
                    (mkStatusBody (Some "cancelled") notes) db1 in
    (~ In (start (b_timeSlot b)) (available_in (get_availability q db1)) /\
     (Js.next_day (Js.Instant searchDate) <> Js.InvalidDate ->
      In (b_timeSlot b) (booked_in (get_availability q db1)))) /\
    (status_code (fst cancel) = 200 ->
     stored_status (next_id db) (snd cancel) = Some Cancelled /\
     get_availability q (snd cancel) = get_availability q db).
Proof.
  intros now now' user canceller b d date db q dq searchDate notes
         Hfresh Hdoc Hdate H201 Hq Hqd Htruthy Hparse Hwin db1 cancel.
  destruct (post_appointment_201 _ _ _ _ H201) as (d' & date' & Hd' & Hdate' & Hsave).
  assert (d' = d) by congruence. assert (date' = date) by congruence. subst d' date'.
  apply save_ok in Hsave. destruct Hsave as (_ & _ & _ & _ & Hdb1).
  fold db1 in Hdb1. simpl in Hdb1.
  set (a := new_appointment user b d date db) in *.
  assert (Hcancel :
            status_code (fst cancel) = 200 ->
            stored_status (next_id db) (snd cancel) = Some Cancelled /\
            exists u, appointments (snd cancel) = (appointments db ++ [u])%list /\
                      Appointment.is_active u = false).
  { intro H200. subst cancel.
    destruct (patch_status_200 _ _ _ _ _ H200) as (a' & st & Hfind & Hreq & _ & Hsave).
    assert (st = Cancelled) by (vm_compute in Hreq; congruence). subst st.
    apply findById_some in Hfind. destruct Hfind as [_ Hid'].
    apply save_ok in Hsave. destruct Hsave as (_ & _ & _ & _ & Hdb2).
    simpl in Hdb2.
    set (u := apply_status canceller a' Cancelled notes) in *.
    destruct (apply_status_fields canceller a' Cancelled notes) as (Huid & Hust & _).
    fold u in Huid, Hust.
    assert (Hrep : Appointment.replace u (appointments db1) = (appointments db ++ [u])%list).
    { rewrite Hdb1. simpl. unfold Appointment.replace. rewrite map_app.
      fold (Appointment.replace u (appointments db)).
      rewrite replace_other.
      - simpl. rewrite Huid, Hid', Z.eqb_refl. reflexivity.
      - intros x Hx. apply Hfresh in Hx. rewrite Huid, Hid'. lia. }
    rewrite Hdb2. split.
    - unfold stored_status, findById. simpl. rewrite Hrep.
      assert (F : find (fun x => Appointment._id x =? next_id db) (appointments db ++ [u])%list
                  = Some u).
      { assert (N : forall l, (forall x, In x l -> Appointment._id x < next_id db) ->
                         find (fun x => Appointment._id x =? next_id db) (l ++ [u])%list = Some u).
        { induction l as [| x l IH]; intro Hl; simpl.
          - replace (Appointment._id u =? next_id db) with true; [reflexivity |].
            symmetry. apply Z.eqb_eq. congruence.
          - assert (E : (Appointment._id x =? next_id db) = false)
              by (apply Z.eqb_neq; specialize (Hl x (or_introl eq_refl)); lia).
            rewrite E. apply IH. intros y Hy. apply Hl. right. exact Hy. }
        apply N. exact Hfresh. }
      rewrite F. simpl. rewrite Hust. reflexivity.
    - exists u. split; [simpl; exact Hrep |].
      unfold Appointment.is_active. rewrite Hust. reflexivity. }
  destruct (Js.next_day (Js.Instant searchDate)) as [nextDay |] eqn:Hn.
  - destruct (next_day_instant _ _ Hn) as [-> _].
    assert (Hbooked : booked_on (q_doctorId q) searchDate (searchDate + Js.day_ms) a = true).
    { unfold booked_on. simpl. rewrite Hq, Z.eqb_refl.
      replace (searchDate <=? date) with true by (symmetry; apply Z.leb_le; lia).
      replace (date <? searchDate + Js.day_ms) with true by (symmetry; apply Z.ltb_lt; lia).
      reflexivity. }
    assert (Hin : In a (bookedAppointments (q_doctorId q) searchDate
                          (searchDate + Js.day_ms) db1)).
    { unfold bookedAppointments. rewrite Hdb1. simpl.
      apply filter_In. split; [| exact Hbooked].
      apply in_app_iff. right. left. reflexivity. }
    split.
    + rewrite (availability_answer q db1 dq searchDate _ Hqd Htruthy Hparse Hn).
      unfold available_in, booked_in. simpl. split.
      * intro Hav. apply in_availableSlots in Hav. destruct Hav as [_ Hav].
        apply (Hav a Hin). reflexivity.
      * intros _. apply in_map_iff. exists a. split; [reflexivity | exact Hin].
    + intro H200. destruct (Hcancel H200) as (Hst & u & Happ & Hu).
      split; [exact Hst |].
      rewrite (availability_answer q _ dq searchDate _ Hqd Htruthy Hparse Hn).
      rewrite (availability_answer q db dq searchDate _ Hqd Htruthy Hparse Hn).
      unfold bookedAppointments. rewrite Happ, filter_app. simpl.
      rewrite filter_inactive, app_nil_r; [reflexivity | exact Hu].
  - split.
    + rewrite (availability_failed q db1 dq searchDate Hqd Htruthy Hparse Hn).
      split; [intros [] | intro H; exfalso; apply H; reflexivity].
    + intro H200. destruct (Hcancel H200) as (Hst & _).
      split; [exact Hst |].
      rewrite !(availability_failed q _ dq searchDate Hqd Htruthy Hparse Hn).
      reflexivity.
Qed.

Lemma C4_availability_round_trip_witness :
  (~ In "09:00"
       (available_in
          (get_availability Sample.availability
             (snd (post_appointment Sample.now Sample.P
                     (Sample.booking "09:00" "09:30") Sample.clinic)))) /\
   In (mkSlot "09:00" "09:30")
     (booked_in
        (get_availability Sample.availability
           (snd (post_appointment Sample.now Sample.P
                   (Sample.booking "09:00" "09:30") Sample.clinic))))) /\
  get_availability Sample.availability
    (snd (patch_status Sample.now Sample.P 100 (mkStatusBody (Some "cancelled") None)
            (snd (post_appointment Sample.now Sample.P
                    (Sample.booking "09:00" "09:30") Sample.clinic))))
  = get_availability Sample.availability Sample.clinic.
Proof.
  assert (F : ids_fresh Sample.clinic) by (intros a Ha; simpl in Ha; destruct Ha).
  assert (W : 1749513600000 <= 1749513600000 < 1749513600000 + Js.day_ms)
    by (unfold Js.day_ms; lia).
  destruct (C4_availability_round_trip Sample.now Sample.now Sample.P Sample.P
              (Sample.booking "09:00" "09:30") 10 1749513600000 Sample.clinic
              Sample.availability Sample.june10 1749513600000 None
              F eq_refl eq_refl eq_refl eq_refl eq_refl eq_refl eq_refl W)
    as ((Hfree & Hbooked) & Hcancel).
  split; [split; [exact Hfree | apply Hbooked; vm_compute; discriminate] |].
  apply Hcancel. reflexivity.
Defined.

(** C4 as stated fails after the cancellation: with 09:00-10:00 active,
    09:00-09:30 of the same doctor and date is booked as well (the index keys
    differ in the end); once that booking is cancelled, the template slot
    09:00 is still not available, the other appointment starting there. *)
Lemma C4_slot_stays_booked_after_cancel :
  status_code
    (Sample.reply Sample.Q (Sample.book "09:00" "09:30")
       (Sample.after [(Sample.P, Sample.book "09:00" "10:00")] Sample.clinic)) = 201 /\
  status_code
    (Sample.reply Sample.Q (Sample.set_to 101 "cancelled")
       (Sample.after [(Sample.P, Sample.book "09:00" "10:00");
                      (Sample.Q, Sample.book "09:00" "09:30")] Sample.clinic)) = 200 /\
  stored_status 101
    (Sample.after [(Sample.P, Sample.book "09:00" "10:00");
                   (Sample.Q, Sample.book "09:00" "09:30");
                   (Sample.Q, Sample.set_to 101 "cancelled")] Sample.clinic)
  = Some Cancelled /\
  In "09:00" workingHours /\
  ~ In "09:00"
      (available_in
         (get_availability Sample.availability
            (Sample.after [(Sample.P, Sample.book "09:00" "10:00");
                           (Sample.Q, Sample.book "09:00" "09:30");
                           (Sample.Q, Sample.set_to 101 "cancelled")] Sample.clinic))).
Proof.
  split; [vm_compute; reflexivity |].
  split; [vm_compute; reflexivity |].
  split; [vm_compute; reflexivity |].
  split; [left; reflexivity |].
  vm_compute. intro H.
  repeat (destruct H as [H | H]; [discriminate H |]). exact H.
Qed.

(** ** The create route and its preconditions *)

Lemma post_invalid (now : Z) (user : User.t) (b : CreateBody) (db : Store) :
  User.role user = Patient ->
  validateAppointment now b <> [] ->
  post_appointment now user b db =
  (mkResponse 400 (ValidationFailed (validateAppointment now b)), db).
Proof.
  intros Hr Hne. unfold post_appointment. rewrite Hr. simpl.
  destruct (validateAppointment now b); [contradiction | reflexivity].
Qed.

Lemma in_check (ok : bool) (path : string) :
  ok = false -> In path (Appointment.check ok path).
Proof. intros ->. left. reflexivity. Qed.

(** A date that is not strictly after [now] fails the custom validator. *)
Lemma date_not_future_invalid (now : Z) (b : CreateBody) (date : Z) :
  asDate (b_appointmentDate b) = Js.Instant date -> date <= now ->
  In "appointmentDate" (validateAppointment now b).
Proof.
  intros Hd Hle. unfold validateAppointment.
  apply in_or_app. right. apply in_or_app. right. apply in_or_app. left.
  apply in_check. rewrite Hd. simpl. apply negb_false_iff, Z.leb_le. exact Hle.
Qed.

(** A trimmed reason shorter than 10 or longer than 500 fails [isLength]. *)
Lemma reason_length_invalid (now : Z) (b : CreateBody) :
  Js.len (Js.trim (b_reason b)) < 10 \/ 500 < Js.len (Js.trim (b_reason b)) ->
  In "reason" (validateAppointment now b).
Proof.
  intro H. unfold validateAppointment.
  do 5 (apply in_or_app; right). apply in_or_app. left.
  apply in_check. apply andb_false_iff.
  destruct H as [H | H]; [left; apply Z.leb_gt | right; apply Z.leb_gt]; exact H.
Qed.

(** Both violations are answered 400, and nothing is written. *)
Lemma past_date_or_bad_reason_400 (now : Z) (user : User.t) (b : CreateBody)
  (db : Store) :
  User.role user = Patient ->
  (exists date, asDate (b_appointmentDate b) = Js.Instant date /\ date <= now) \/
  Js.len (Js.trim (b_reason b)) < 10 \/ 500 < Js.len (Js.trim (b_reason b)) ->
  status_code (fst (post_appointment now user b db)) = 400 /\
  snd (post_appointment now user b db) = db.
Proof.
  intros Hr H.
  assert (Hne : validateAppointment now b <> []).
  { destruct H as [(date & Hd & Hle) | H].
    - intro E. pose proof (date_not_future_invalid now b date Hd Hle) as K.
      rewrite E in K. destruct K.
    - intro E. pose proof (reason_length_invalid now b H) as K.
      rewrite E in K. destruct K. }
  rewrite (post_invalid now user b db Hr Hne). auto.
Qed.

(** The boundaries of the reason: 9 and 501 characters are answered 400,
    10 and 500 characters are booked; a date equal to [now] is answered 400. *)
Lemma reason_and_date_boundaries :
  status_code (fst (post_appointment Sample.now Sample.P
                      (Sample.booking_for (Sample.filler 9)) Sample.clinic)) = 400 /\
  status_code (fst (post_appointment Sample.now Sample.P
                      (Sample.booking_for (Sample.filler 10)) Sample.clinic)) = 201 /\
  status_code (fst (post_appointment Sample.now Sample.P
                      (Sample.booking_for (Sample.filler 500)) Sample.clinic)) = 201 /\
  status_code (fst (post_appointment Sample.now Sample.P
                      (Sample.booking_for (Sample.filler 501)) Sample.clinic)) = 400 /\
  status_code (fst (post_appointment 1749513600000 Sample.P
                      (Sample.booking "09:00" "09:30") Sample.clinic)) = 400.
Proof. repeat split; vm_compute; reflexivity. Qed.

(** C7, what the route does with a time slot out of order: a request that
    passes the role gate, the validators and the doctor lookup, and whose
    start is not before its end in minutes, is stopped by the pre-save hook;
    the error is not a duplicate key, so the route answers the generic 500
    and not a 400. *)
Theorem C7_time_order_answered_500 :
  forall (now : Z) (user : User.t) (b : CreateBody) (d : ObjectId) (date : Z)
         (db : Store),
    reaches_save now user b d date db ->
    Appointment.hook_rejects (b_timeSlot b) = true ->
    post_appointment now user b db =
    (mkResponse 500 (Message "Failed to book appointment"), db).
Proof.
  intros now user b d date db Hr Hhook.
  rewrite (post_reaches_save _ _ _ _ _ _ Hr).
  destruct Hr as (_ & Hval & _ & _ & Hdate).
  unfold save, Appointment.pre_save.
  rewrite (validators_imply_schema _ user _ d _ db Hval Hdate).
  simpl Appointment.timeSlot. rewrite Hhook. reflexivity.
Qed.

Lemma C7_time_order_answered_500_witness :
  post_appointment Sample.now Sample.P (Sample.booking "10:00" "09:30") Sample.clinic =
  (mkResponse 500 (Message "Failed to book appointment"), Sample.clinic).
Proof.
  apply (C7_time_order_answered_500 Sample.now Sample.P
           (Sample.booking "10:00" "09:30") 10 1749513600000 Sample.clinic).
  - repeat split; try reflexivity.
    exists Sample.D. repeat split; reflexivity.
  - reflexivity.
Defined.

(** ** The update route *)

(** Whoever passes [canUpdate] has passed the access middleware. *)
Lemma canUpdate_access (user : User.t) (id : ObjectId) (db : Store)
  (a : Appointment.t) :
  findById id db = Some a -> canUpdate user a = true ->
  authorizeAppointmentAccess user id db = inr a.
Proof.
  intros Hfind Hcan. unfold authorizeAppointmentAccess. rewrite Hfind.
  unfold canUpdate in Hcan.
  destruct (role_eqb (User.role user) Admin); [now rewrite !andb_false_r |].
  destruct (role_eqb (User.role user) Nurse); [now rewrite !andb_false_r |].
  simpl in Hcan. apply andb_true_iff in Hcan. destruct Hcan as [Hcan _].
  apply andb_true_iff in Hcan. destruct Hcan as [_ Hid].
  rewrite Hid. reflexivity.
Qed.

Lemma checkAvailability_false (db : Store) (doctorId : ObjectId) (date : Z)
  (ts : TimeSlot) (x : Appointment.t) :
  In x (appointments db) -> overlaps_query doctorId date ts x = true ->
  checkAvailability db doctorId date ts = false.
Proof.
  intros Hx Ho. unfold checkAvailability.
  destruct (find (overlaps_query doctorId date ts) (appointments db)) eqn:F;
    [reflexivity |].
  pose proof (find_none _ _ F x Hx). congruence.
Qed.

Lemma checkAvailability_true (db : Store) (doctorId : ObjectId) (date : Z)
  (ts : TimeSlot) :
  checkAvailability db doctorId date ts = true ->
  forall x, In x (appointments db) -> overlaps_query doctorId date ts x = false.
Proof.
  unfold checkAvailability.
  destruct (find (overlaps_query doctorId date ts) (appointments db)) eqn:F;
    [discriminate |].
  intros _. exact (find_none _ _ F).
Qed.

(** With both a date and a time slot in the body, an authorised update is
    answered 409 as soon as the query of [checkAvailability] finds a
    document. *)
Lemma put_conflict (now : Z) (user : User.t) (id : ObjectId) (b : UpdateBody)
  (db : Store) (a : Appointment.t) (d : DateInput) (date : Z) (ts : TimeSlot)
  (x : Appointment.t) :
  findById id db = Some a -> canUpdate user a = true ->
  u_appointmentDate b = Some d -> Js.truthy (text d) = true ->
  asDate d = Js.Instant date -> u_timeSlot b = Some ts ->
  In x (appointments db) ->
  overlaps_query (Appointment.doctor a) date ts x = true ->
  put_appointment now user id b db = (not_available, db).
Proof.
  intros Hfind Hcan Hd Ht Hdate Hts Hx Ho. unfold put_appointment.
  rewrite (canUpdate_access user id db a Hfind Hcan), Hcan. simpl.
  unfold reschedule. rewrite Hd, Hts, Ht, Hdate.
  rewrite (checkAvailability_false db _ date ts x Hx Ho). reflexivity.
Qed.

Lemma apply_fields_keeps (b : UpdateBody) (a : Appointment.t) :
  Appointment._id (apply_fields b a) = Appointment._id a /\
  Appointment.appointmentDate (apply_fields b a) = Appointment.appointmentDate a /\
  Appointment.timeSlot (apply_fields b a) = Appointment.timeSlot a.
Proof.
  unfold apply_fields, assign_if.
  destruct (u_priority b) as [p |]; destruct (u_type b) as [t |];
    destruct (u_reason b) as [r |];
    try destruct (Js.truthy p); try destruct (Js.truthy t);
    try destruct (Js.truthy r); simpl; auto.
Qed.

Lemma find_replaced (id : ObjectId) (u a : Appointment.t)
  (docs : list Appointment.t) :
  find (fun x => Appointment._id x =? id) docs = Some a ->
  Appointment._id u = id ->
  find (fun x => Appointment._id x =? id) (Appointment.replace u docs) = Some u.
Proof.
  intros Hfind Hu. unfold Appointment.replace. subst id.
  induction docs as [| x docs IH]; simpl in *; [discriminate |].
  destruct (Appointment._id x =? Appointment._id u) eqn:E.
  - simpl. rewrite Z.eqb_refl. reflexivity.
  - simpl. rewrite E. apply IH. exact Hfind.
Qed.

(** ** String order and minutes on zero-padded times *)

Lemma ascii_compare_code (x y : ascii) :
  Ascii.compare x y = Z.compare (Z.of_nat (Js.code x)) (Z.of_nat (Js.code y)).
Proof.
  unfold Ascii.compare, Js.code, nat_of_ascii.
  rewrite !N_nat_Z. symmetry. apply N2Z.inj_compare.
Qed.

Lemma in_range_bounds (lo hi : nat) (c : ascii) :
  Js.in_range lo hi c = true ->
  Z.of_nat lo <= Z.of_nat (Js.code c) <= Z.of_nat hi.
Proof.
  unfold Js.in_range. rewrite andb_true_iff, !Nat.leb_le. lia.
Qed.

Lemma digit_not_colon (c : ascii) : Js.is_digit c = true -> Js.is_colon c = false.
Proof.
  intro H. apply in_range_bounds in H. unfold Js.is_colon.
  apply Nat.eqb_neq. lia.
Qed.

(** The shape of a zero-padded time, with the value of its minutes. *)
Lemma padded_shape (s : string) :
  padded s = true ->
  exists h1 h2 c m1 m2,
    s = String h1 (String h2 (String c (String m1 (String m2 EmptyString)))) /\
    Js.is_digit h1 = true /\ Js.is_digit h2 = true /\ Js.is_colon c = true /\
    Js.in_range 48 53 m1 = true /\ Js.is_digit m2 = true /\
    Js.minutes s =
    Some ((10 * (Z.of_nat (Js.code h1) - 48) + (Z.of_nat (Js.code h2) - 48)) * 60
          + (10 * (Z.of_nat (Js.code m1) - 48) + (Z.of_nat (Js.code m2) - 48))).
Proof.
  unfold padded. intro H. apply andb_true_iff in H. destruct H as [Hm Hl].
  destruct s as [| h1 [| h2 [| c [| m1 [| m2 [| ? ?]]]]]]; try discriminate Hl.
  unfold Js.matches_time in Hm. simpl in Hm.
  apply andb_true_iff in Hm. destruct Hm as [Hm Hd4].
  apply andb_true_iff in Hm. destruct Hm as [Hm Hd3].
  apply andb_true_iff in Hm. destruct Hm as [Hh Hc].
  assert (Hd1 : Js.is_digit h1 = true /\ Js.is_digit h2 = true).
  { apply orb_true_iff in Hh. destruct Hh as [Hh | Hh];
      apply andb_true_iff in Hh; destruct Hh as [Ha Hb].
    - split; [| exact Hb]. apply in_range_bounds in Ha.
      unfold Js.is_digit, Js.in_range. apply andb_true_iff.
      rewrite !Nat.leb_le. lia.
    - apply Nat.eqb_eq in Ha. apply in_range_bounds in Hb.
      unfold Js.is_digit, Js.in_range. rewrite !andb_true_iff, !Nat.leb_le. lia. }
  destruct Hd1 as [Hd1 Hd2].
  assert (Hd3' : Js.is_digit m1 = true).
  { apply in_range_bounds in Hd3. unfold Js.is_digit, Js.in_range.
    rewrite andb_true_iff, !Nat.leb_le. lia. }
  exists h1, h2, c, m1, m2. repeat split; try assumption.
  unfold Js.minutes. cbn [Js.split_colon].
  rewrite (digit_not_colon _ Hd1), (digit_not_colon _ Hd2), Hc,
    (digit_not_colon _ Hd3'), (digit_not_colon _ Hd4).
  cbn [Js.split_colon map]. unfold Js.Number. cbn [Js.digits_value].
  rewrite Hd1, Hd2, Hd3', Hd4.
  apply in_range_bounds in Hd1, Hd2, Hd3', Hd4.
  f_equal. lia.
Qed.

(** On zero-padded times the string order is the order of the minutes. *)
Lemma padded_order (s t : string) :
  padded s = true -> padded t = true ->
  exists m n,
    Js.minutes s = Some m /\ Js.minutes t = Some n /\
    Js.str_ltb s t = (m <? n).
Proof.
  intros Hs Ht.
  destruct (padded_shape s Hs)
    as (a1 & a2 & ac & a3 & a4 & -> & Ha1 & Ha2 & Hac & Ha3 & Ha4 & Hms).
  destruct (padded_shape t Ht)
    as (b1 & b2 & bc & b3 & b4 & -> & Hb1 & Hb2 & Hbc & Hb3 & Hb4 & Hmt).
  eexists. eexists. split; [exact Hms |]. split; [exact Hmt |].
  unfold Js.str_ltb, String.ltb. cbn [String.compare].
  rewrite !ascii_compare_code.
  apply in_range_bounds in Ha1, Ha2, Ha3, Ha4, Hb1, Hb2, Hb3, Hb4.
  unfold Js.is_colon in Hac, Hbc. apply Nat.eqb_eq in Hac, Hbc.
  rewrite Hac, Hbc, Z.compare_refl.
  set (x1 := Z.of_nat (Js.code a1)) in *. set (x2 := Z.of_nat (Js.code a2)) in *.
  set (x3 := Z.of_nat (Js.code a3)) in *. set (x4 := Z.of_nat (Js.code a4)) in *.
  set (y1 := Z.of_nat (Js.code b1)) in *. set (y2 := Z.of_nat (Js.code b2)) in *.
  set (y3 := Z.of_nat (Js.code b3)) in *. set (y4 := Z.of_nat (Js.code b4)) in *.
  simpl in Ha1, Ha2, Ha3, Ha4, Hb1, Hb2, Hb3, Hb4.
  symmetry.
  destruct (Z.compare_spec x1 y1); [| apply Z.ltb_lt; lia | apply Z.ltb_ge; lia].
  destruct (Z.compare_spec x2 y2); [| apply Z.ltb_lt; lia | apply Z.ltb_ge; lia].
  destruct (Z.compare_spec x3 y3); [| apply Z.ltb_lt; lia | apply Z.ltb_ge; lia].
  destruct (Z.compare_spec x4 y4); [| apply Z.ltb_lt; lia | apply Z.ltb_ge; lia].
  apply Z.ltb_ge. lia.
Qed.

(** On zero-padded times the comparison of the query is the overlap of the
    two intervals in minutes. *)
Lemma padded_overlap (x ts : TimeSlot) :
  padded (start x) = true -> padded (end_ x) = true ->
  padded (start ts) = true -> padded (end_ ts) = true ->
  intervals_overlap x ts
  = (Js.str_ltb (start x) (end_ ts) && Js.str_ltb (start ts) (end_ x))%bool.
Proof.
  intros P1 P2 P3 P4.
  destruct (padded_order _ _ P1 P4) as (sx & et & Hsx & Het & L1).
  destruct (padded_order _ _ P3 P2) as (st & ex & Hst & Hex & L2).
  unfold intervals_overlap. rewrite Hsx, Hex, Hst, Het, L1, L2. reflexivity.
Qed.

(** C6, as amended: when both a date and a time slot are supplied, the
    conflict check of an authorised update runs against every active
    appointment of the doctor at the requested instant, the appointment
    being rescheduled included, and compares the times as strings, as the
    query of the store does.  So a new slot with start before the end of its
    own current slot and end after its start, at its current date, is
    answered 409; for zero-padded HH:MM times these are the new slots whose
    interval in minutes overlaps its own.  When the request is answered 200
    the query matched no document (for zero-padded times: no active
    appointment of the doctor at that instant overlapped the new slot), and
    the stored appointment carries the requested date and time slot
    together; when it is not, the store is unchanged. *)
Theorem C6_reschedule_counts_own_slot :
  forall (now : Z) (user : User.t) (id : ObjectId) (b : UpdateBody)
         (db : Store) (a : Appointment.t) (d : DateInput) (date : Z)
         (ts : TimeSlot),
    findById id db = Some a -> canUpdate user a = true ->
    u_appointmentDate b = Some d -> Js.truthy (text d) = true ->
    asDate d = Js.Instant date -> u_timeSlot b = Some ts ->
    let out := put_appointment now user id b db in
    (Appointment.is_active a = true ->
     Appointment.appointmentDate a = date ->
     Js.str_ltb (start (Appointment.timeSlot a)) (end_ ts) = true ->
     Js.str_ltb (start ts) (end_ (Appointment.timeSlot a)) = true ->
     out = (not_available, db)) /\
    (Appointment.is_active a = true ->
     Appointment.appointmentDate a = date ->
     padded (start (Appointment.timeSlot a)) = true ->
     padded (end_ (Appointment.timeSlot a)) = true ->
     padded (start ts) = true -> padded (end_ ts) = true ->
     intervals_overlap (Appointment.timeSlot a) ts = true ->
     out = (not_available, db)) /\
    (status_code (fst out) = 200 ->
     (forall x, In x (appointments db) ->
           overlaps_query (Appointment.doctor a) date ts x = false) /\
     (forall x, In x (appointments db) ->
           Appointment.is_active x = true ->
           Appointment.doctor x = Appointment.doctor a ->
           Appointment.appointmentDate x = date ->
           padded (start (Appointment.timeSlot x)) = true ->
           padded (end_ (Appointment.timeSlot x)) = true ->
           padded (start ts) = true -> padded (end_ ts) = true ->
           intervals_overlap (Appointment.timeSlot x) ts = false) /\
     exists a',
       findById id (snd out) = Some a' /\
       Appointment.appointmentDate a' = date /\
       Appointment.timeSlot a' = ts) /\
    (status_code (fst out) <> 200 -> snd out = db).
Proof.
  intros now user id b db a d date ts Hfind Hcan Hd Ht Hdate Hts out.
  assert (Hown : Appointment.is_active a = true ->
                 Appointment.appointmentDate a = date ->
                 Js.str_ltb (start (Appointment.timeSlot a)) (end_ ts) = true ->
                 Js.str_ltb (start ts) (end_ (Appointment.timeSlot a)) = true ->
                 out = (not_available, db)).
  { intros Hact Hsame Hlo Hhi. subst out.
    destruct (findById_some id db a Hfind) as [Hin _].
    apply (put_conflict now user id b db a d date ts a); auto.
    unfold overlaps_query.
    rewrite Hsame, !Z.eqb_refl, Hlo, Hhi, Hact. reflexivity. }
  split; [exact Hown |]. split; [| split].
  - intros Hact Hsame P1 P2 P3 P4 Hover.
    rewrite (padded_overlap _ _ P1 P2 P3 P4) in Hover.
    apply andb_true_iff in Hover. destruct Hover as [Hlo Hhi].
    now apply Hown.
  - subst out. unfold put_appointment.
    rewrite (canUpdate_access user id db a Hfind Hcan), Hcan. simpl.
    unfold reschedule. rewrite Hd, Hts, Ht, Hdate.
    destruct (checkAvailability db (Appointment.doctor a) date ts) eqn:C;
      [| discriminate]. simpl.
    destruct (save now false (apply_fields b (Appointment.set_schedule a date ts)) db)
      as [e | db'] eqn:S; [discriminate |].
    intros _. simpl.
    pose proof (checkAvailability_true _ _ _ _ C) as Hnone.
    split; [exact Hnone |]. split.
    + intros x Hx Hact Hdoc Hsame P1 P2 P3 P4.
      rewrite (padded_overlap _ _ P1 P2 P3 P4).
      specialize (Hnone x Hx). unfold overlaps_query in Hnone.
      rewrite Hdoc, Hsame, !Z.eqb_refl, Hact, andb_true_r in Hnone.
      exact Hnone.
    + exists (apply_fields b (Appointment.set_schedule a date ts)).
      destruct (apply_fields_keeps b (Appointment.set_schedule a date ts))
        as (Hid & Hdt & Hslot).
      apply save_ok in S. destruct S as (_ & _ & _ & _ & ->).
      split; [| split].
      * unfold findById in *. simpl.
        apply find_replaced with (a := a); [exact Hfind |].
        rewrite Hid. simpl. apply find_some in Hfind.
        destruct Hfind as [_ E]. now apply Z.eqb_eq in E.
      * rewrite Hdt. reflexivity.
      * rewrite Hslot. reflexivity.
  - subst out. unfold put_appointment.
    destruct (authorizeAppointmentAccess user id db) as [denied | found];
      [reflexivity |].
    destruct (negb (canUpdate user found)); [reflexivity |].
    destruct (reschedule b found db) as [r | moved]; [reflexivity |].
    destruct (save now false (apply_fields b moved) db); [reflexivity |].
    simpl. intro H. exfalso. apply H. reflexivity.
Qed.

Lemma C6_reschedule_counts_own_slot_witness :
  put_appointment Sample.now Sample.A 100
    (mkUpdateBody (Some Sample.june10) (Some (mkSlot "09:15" "09:45")) None None None)
    Cases.booked
  = (not_available, Cases.booked) /\
  (status_code
     (fst (put_appointment Sample.now Sample.A 100
             (mkUpdateBody (Some Sample.june10) (Some (mkSlot "10:00" "10:30"))
                None None None)
             Cases.booked)) = 200 /\
   exists a',
     findById 100
       (snd (put_appointment Sample.now Sample.A 100
               (mkUpdateBody (Some Sample.june10) (Some (mkSlot "10:00" "10:30"))
                  None None None)
               Cases.booked)) = Some a' /\
     Appointment.appointmentDate a' = 1749513600000 /\
     Appointment.timeSlot a' = mkSlot "10:00" "10:30").
Proof.
  assert (F : findById 100 Cases.booked = Some Cases.first)
    by (vm_compute; reflexivity).
  split.
  - destruct (C6_reschedule_counts_own_slot Sample.now Sample.A 100
                (mkUpdateBody (Some Sample.june10) (Some (mkSlot "09:15" "09:45"))
                   None None None)
                Cases.booked Cases.first Sample.june10 1749513600000
                (mkSlot "09:15" "09:45") F eq_refl eq_refl eq_refl eq_refl eq_refl)
      as (_ & H & _).
    apply H; reflexivity.
  - assert (C : status_code
                  (fst (put_appointment Sample.now Sample.A 100
                          (mkUpdateBody (Some Sample.june10)
                             (Some (mkSlot "10:00" "10:30")) None None None)
                          Cases.booked)) = 200)
      by (vm_compute; reflexivity).
    split; [exact C |].
    destruct (C6_reschedule_counts_own_slot Sample.now Sample.A 100
                (mkUpdateBody (Some Sample.june10) (Some (mkSlot "10:00" "10:30"))
                   None None None)
                Cases.booked Cases.first Sample.june10 1749513600000
                (mkSlot "10:00" "10:30") F eq_refl eq_refl eq_refl eq_refl eq_refl)
      as (_ & _ & H & _).
    destruct (H C) as (_ & _ & Hmoved). exact Hmoved.
Defined.

(** C6 as stated fails: the only appointment of the store is the one being
    rescheduled, and the update that asks for the date and slot it already
    has, or for a slot that overlaps only its own, is answered 409. *)
Lemma C6_own_slot_is_a_conflict :
  List.length
    (appointments (Sample.after [(Sample.P, Sample.book "09:00" "09:30")] Sample.clinic))
  = 1%nat /\
  option_map Appointment.timeSlot
    (findById 100 (Sample.after [(Sample.P, Sample.book "09:00" "09:30")] Sample.clinic))
  = Some (mkSlot "09:00" "09:30") /\
  Sample.reply Sample.A (Sample.move 100 "09:00" "09:30")
    (Sample.after [(Sample.P, Sample.book "09:00" "09:30")] Sample.clinic)
  = not_available /\
  Sample.reply Sample.A (Sample.move 100 "09:15" "09:45")
    (Sample.after [(Sample.P, Sample.book "09:00" "09:30")] Sample.clinic)
  = not_available.
Proof. repeat split; vm_compute; reflexivity. Qed.

(** C10, as amended: on the update path a requested date and time slot are
    answered 409, with the store unchanged, whenever some active
    appointment of the same doctor at that date has timeSlot.start < new.end
    and timeSlot.end > new.start in the string order of the query; for
    zero-padded HH:MM times that is whenever the two intervals in minutes
    overlap. *)
Theorem C10_update_rejects_overlap :
  forall (now : Z) (user : User.t) (id : ObjectId) (b : UpdateBody)
         (db : Store) (a : Appointment.t) (d : DateInput) (date : Z)
         (ts : TimeSlot) (x : Appointment.t),
    findById id db = Some a -> canUpdate user a = true ->
    u_appointmentDate b = Some d -> Js.truthy (text d) = true ->
    asDate d = Js.Instant date -> u_timeSlot b = Some ts ->
    In x (appointments db) ->
    Appointment.doctor x = Appointment.doctor a ->
    Appointment.appointmentDate x = date ->
    Appointment.is_active x = true ->
    (Js.str_ltb (start (Appointment.timeSlot x)) (end_ ts) = true /\
     Js.str_ltb (start ts) (end_ (Appointment.timeSlot x)) = true) \/
    (padded (start (Appointment.timeSlot x)) = true /\
     padded (end_ (Appointment.timeSlot x)) = true /\
     padded (start ts) = true /\ padded (end_ ts) = true /\
     intervals_overlap (Appointment.timeSlot x) ts = true) ->
    put_appointment now user id b db = (not_available, db).
Proof.
  intros now user id b db a d date ts x Hfind Hcan Hd Ht Hdate Hts Hx Hdoc Hsame
         Hact Hover.
  apply (put_conflict now user id b db a d date ts x); auto.
  assert (Hstr : Js.str_ltb (start (Appointment.timeSlot x)) (end_ ts) = true /\
                 Js.str_ltb (start ts) (end_ (Appointment.timeSlot x)) = true).
  { destruct Hover as [H | (P1 & P2 & P3 & P4 & Hmin)]; [exact H |].
    destruct (padded_order _ _ P1 P4) as (sx & et & Hsx & Het & L1).
    destruct (padded_order _ _ P3 P2) as (st & ex & Hst & Hex & L2).
    unfold intervals_overlap in Hmin. rewrite Hsx, Hex, Hst, Het in Hmin.
    rewrite L1, L2. apply andb_true_iff in Hmin. exact Hmin. }
  destruct Hstr as [L1 L2].
  unfold overlaps_query. rewrite Hdoc, Hsame, !Z.eqb_refl, L1, L2, Hact. reflexivity.
Qed.

Lemma C10_update_rejects_overlap_witness :
  put_appointment Sample.now Sample.A 101
    (mkUpdateBody (Some Sample.june10) (Some (mkSlot "09:15" "09:45")) None None None)
    (Sample.after [(Sample.P, Sample.book "09:00" "09:30");
                   (Sample.Q, Sample.book "14:00" "14:30")] Sample.clinic)
  = (not_available,
     Sample.after [(Sample.P, Sample.book "09:00" "09:30");
                   (Sample.Q, Sample.book "14:00" "14:30")] Sample.clinic).
Proof.
  apply (C10_update_rejects_overlap Sample.now Sample.A 101
           (mkUpdateBody (Some Sample.june10) (Some (mkSlot "09:15" "09:45")) None None None)
           (Sample.after [(Sample.P, Sample.book "09:00" "09:30");
                          (Sample.Q, Sample.book "14:00" "14:30")] Sample.clinic)
           (new_appointment Sample.Q (Sample.booking "14:00" "14:30") 10
              1749513600000
              (Sample.after [(Sample.P, Sample.book "09:00" "09:30")] Sample.clinic))
           Sample.june10 1749513600000 (mkSlot "09:15" "09:45")
           (new_appointment Sample.P (Sample.booking "09:00" "09:30") 10
              1749513600000 Sample.clinic)).
  - vm_compute. reflexivity.
  - reflexivity.
  - reflexivity.
  - reflexivity.
  - reflexivity.
  - reflexivity.
  - vm_compute. left. reflexivity.
  - reflexivity.
  - reflexivity.
  - reflexivity.
  - right. repeat split; reflexivity.
Defined.

(** The create path accepts what the update path refuses: with 09:00-09:30
    active, a new booking for the overlapping 09:15-09:45 is answered 201,
    while moving another appointment of the doctor onto 09:15-09:45 is
    answered 409. *)
Lemma create_accepts_what_update_refuses :
  status_code
    (Sample.reply Sample.Q (Sample.book "09:15" "09:45")
       (Sample.after [(Sample.P, Sample.book "09:00" "09:30");
                      (Sample.Q, Sample.book "14:00" "14:30")] Sample.clinic)) = 201 /\
  status_code
    (Sample.reply Sample.A (Sample.move 101 "09:15" "09:45")
       (Sample.after [(Sample.P, Sample.book "09:00" "09:30");
                      (Sample.Q, Sample.book "14:00" "14:30")] Sample.clinic)) = 409.
Proof. split; vm_compute; reflexivity. Qed.

(** C10 as stated fails for times with a one-digit hour, which the time
    pattern of the schema and of the validators accepts: 9:00-11:00 is
    active, and moving another appointment of the doctor to 10:00-10:30 of
    the same date, inside it, is answered 200, the query comparing "9:00"
    with "10:30" as strings; after it two active appointments of the doctor
    overlap.  Moving it onto 9:00-11:00 itself is answered 500, not 409: the
    query finds no conflict and the unique index refuses the save. *)
Lemma C10_unpadded_overlap_is_accepted :
  option_map (fun a => (Appointment.timeSlot a, Appointment.is_active a,
                        Appointment.doctor a, Appointment.appointmentDate a))
    (findById 100 Cases.early)
  = Some (mkSlot "9:00" "11:00", true, 10, 1749513600000) /\
  option_map Appointment.doctor (findById 101 Cases.early) = Some 10 /\
  intervals_overlap (mkSlot "9:00" "11:00") (mkSlot "10:00" "10:30") = true /\
  Js.str_ltb "9:00" "10:30" = false /\
  status_code (Sample.reply Sample.A (Sample.move 101 "10:00" "10:30") Cases.early)
  = 200 /\
  ~ no_overlap (Sample.after [(Sample.A, Sample.move 101 "10:00" "10:30")] Cases.early) /\
  status_code (Sample.reply Sample.A (Sample.move 101 "9:00" "11:00") Cases.early)
  = 500.
Proof.
  split; [vm_compute; reflexivity |].
  split; [vm_compute; reflexivity |].
  split; [vm_compute; reflexivity |].
  split; [vm_compute; reflexivity |].
  split; [vm_compute; reflexivity |].
  split; [| vm_compute; reflexivity].
  intro H.
  set (db2 := Sample.after [(Sample.A, Sample.move 101 "10:00" "10:30")] Cases.early) in H.
  assert (E : exists a b,
             appointments db2 = [a; b] /\
             Appointment._id a <> Appointment._id b /\
             Appointment.is_active a = true /\ Appointment.is_active b = true /\
             Appointment.doctor a = Appointment.doctor b /\
             Appointment.appointmentDate a = Appointment.appointmentDate b /\
             intervals_overlap (Appointment.timeSlot a) (Appointment.timeSlot b) = true).
  { vm_compute. eexists. eexists. split; [reflexivity |].
    repeat split; try reflexivity. discriminate. }
  destruct E as (a & b & Hdocs & Hid & Ha & Hb & Hd & Ht & Ho).
  rewrite (H a b) in Ho; try assumption; try discriminate.
  - rewrite Hdocs. left. reflexivity.
  - rewrite Hdocs. right. left. reflexivity.
Qed.

(* ================================================================== *)
(** * Further properties of the routes *)

(** ** Lookups after a write *)

Lemma find_replace_other (id : ObjectId) (u : Appointment.t)
  (docs : list Appointment.t) :
  Appointment._id u <> id ->
  find (fun x => Appointment._id x =? id) (Appointment.replace u docs)
  = find (fun x => Appointment._id x =? id) docs.
Proof.
  intro Hne. unfold Appointment.replace.
  induction docs as [| x docs IH]; simpl; [reflexivity |].
  destruct (Appointment._id x =? Appointment._id u) eqn:E.
  - apply Z.eqb_eq in E.
    assert (E1 : (Appointment._id u =? id) = false) by now apply Z.eqb_neq.
    assert (E2 : (Appointment._id x =? id) = false)
      by (apply Z.eqb_neq; congruence).
    rewrite E1, E2. exact IH.
  - destruct (Appointment._id x =? id); [reflexivity | exact IH].
Qed.

Lemma find_snoc (id : ObjectId) (docs : list Appointment.t) (a : Appointment.t) :
  find (fun x => Appointment._id x =? id) (docs ++ [a])
  = match find (fun x => Appointment._id x =? id) docs with
    | Some x => Some x
    | None => if Appointment._id a =? id then Some a else None
    end.
Proof.
  induction docs as [| x docs IH]; simpl; [reflexivity |].
  destruct (Appointment._id x =? id); [reflexivity | exact IH].
Qed.

Lemma find_fresh (db : Store) (id : ObjectId) :
  ids_fresh db -> next_id db <= id -> findById id db = None.
Proof.
  intros Hfresh Hid. unfold findById.
  destruct (find (fun a => Appointment._id a =? id) (appointments db)) as [x |] eqn:F;
    [| reflexivity].
  apply find_some in F. destruct F as [Hx E]. apply Z.eqb_eq in E.
  apply Hfresh in Hx. lia.
Qed.

Lemma find_filter_other (id id' : ObjectId) (docs : list Appointment.t) :
  id' <> id ->
  find (fun x => Appointment._id x =? id')
    (filter (fun a => negb (Appointment._id a =? id)) docs)
  = find (fun x => Appointment._id x =? id') docs.
Proof.
  intro Hne. induction docs as [| x docs IH]; simpl; [reflexivity |].
  destruct (Appointment._id x =? id) eqn:E; simpl.
  - apply Z.eqb_eq in E.
    assert (E' : (Appointment._id x =? id') = false)
      by (apply Z.eqb_neq; congruence).
    rewrite E'. exact IH.
  - destruct (Appointment._id x =? id'); [reflexivity | exact IH].
Qed.

Lemma find_filter_same (id : ObjectId) (docs : list Appointment.t) :
  find (fun x => Appointment._id x =? id)
    (filter (fun a => negb (Appointment._id a =? id)) docs) = None.
Proof.
  induction docs as [| x docs IH]; simpl; [reflexivity |].
  destruct (Appointment._id x =? id) eqn:E; simpl; [exact IH |].
  rewrite E. exact IH.
Qed.

(** ** What each route writes *)

Lemma reschedule_moved (b : UpdateBody) (a moved : Appointment.t) (db : Store) :
  reschedule b a db = inr moved ->
  moved = a \/
  exists d date ts,
    u_appointmentDate b = Some d /\ u_timeSlot b = Some ts /\
    asDate d = Js.Instant date /\ moved = Appointment.set_schedule a date ts.
Proof.
  unfold reschedule.
  destruct (u_appointmentDate b) as [d |]; [| intro H; inversion H; auto].
  destruct (u_timeSlot b) as [ts |]; [| intro H; inversion H; auto].
  destruct (Js.truthy (text d)); [| intro H; inversion H; auto].
  destruct (asDate d) as [date |] eqn:D; [| discriminate].
  destruct (negb (checkAvailability db (Appointment.doctor a) date ts));
    [discriminate |].
  intro H. inversion H. right. exists d, date, ts. auto.
Qed.

Lemma put_appointment_200 (now : Z) (user : User.t) (id : ObjectId)
  (b : UpdateBody) (db : Store) :
  status_code (fst (put_appointment now user id b db)) = 200 ->
  exists a moved,
    findById id db = Some a /\ canUpdate user a = true /\
    reschedule b a db = inr moved /\
    save now false (apply_fields b moved) db
    = inr (snd (put_appointment now user id b db)).
Proof.
  unfold put_appointment, authorizeAppointmentAccess.
  destruct (findById id db) as [a |]; [| discriminate].
  destruct (negb (User._id user =? Appointment.patient a)
            && negb (User._id user =? Appointment.doctor a)
            && negb (role_eqb (User.role user) Admin || role_eqb (User.role user) Nurse))%bool;
    [discriminate |].
  destruct (canUpdate user a) eqn:C; [| discriminate]. simpl.
  destruct (reschedule b a db) as [r | moved] eqn:R.
  - unfold reschedule in R.
    destruct (u_appointmentDate b) as [d |]; [| discriminate].
    destruct (u_timeSlot b) as [ts |]; [| discriminate].
    destruct (Js.truthy (text d)); [| discriminate].
    destruct (asDate d) as [date |]; [| inversion R; discriminate].
    destruct (negb (checkAvailability db (Appointment.doctor a) date ts));
      inversion R; discriminate.
  - destruct (save now false (apply_fields b moved) db) eqn:S; [discriminate |].
    intros _. exists a, moved. auto.
Qed.

(** The document a route saves carries the counter's id when it is new and
    the id of a stored document when it is not. *)
Lemma handle_writes_ids (now : Z) (user : User.t) (r : Request) (db : Store) :
  snd (handle now user r db) = db \/
  (exists a,
      Appointment._id a = next_id db /\
      save now true a db = inr (snd (handle now user r db))) \/
  (exists a a0,
      In a0 (appointments db) /\ Appointment._id a = Appointment._id a0 /\
      save now false a db = inr (snd (handle now user r db))) \/
  (exists id,
      snd (handle now user r db) =
      mkStore (users db)
        (filter (fun a => negb (Appointment._id a =? id)) (appointments db))
        (next_id db)).
Proof.
  destruct r as [b | id b | id b | id | q].
  - destruct (status_code (fst (handle now user (POST_appointment b) db)) =? 201) eqn:E.
    + apply Z.eqb_eq in E. simpl in E.
      destruct (post_appointment_201 _ _ _ _ E) as (d & date & _ & _ & Hsave).
      right. left. exists (new_appointment user b d date db). split; [reflexivity |].
      exact Hsave.
    + left. apply Z.eqb_neq in E. simpl in *. unfold post_appointment in *.
      destruct (negb (role_eqb (User.role user) Patient)); [reflexivity |].
      destruct (validateAppointment now b); [| reflexivity].
      destruct (b_doctor b) as [d |]; [| reflexivity].
      destruct (findUser d db) as [du |]; [| reflexivity].
      destruct (negb (role_eqb (User.role du) Doctor) || negb (User.isActive du))%bool;
        [reflexivity |].
      destruct (asDate (b_appointmentDate b)) as [date |]; [| reflexivity].
      destruct (save now true (new_appointment user b d date db) db) as [e | db'].
      * destruct (is_duplicate_key e); reflexivity.
      * exfalso. apply E. reflexivity.
  - destruct (status_code (fst (handle now user (PATCH_status id b) db)) =? 200) eqn:E.
    + apply Z.eqb_eq in E. simpl in E.
      destruct (patch_status_200 _ _ _ _ _ E) as (a & st & Hfind & _ & _ & Hsave).
      right. right. left.
      exists (apply_status user a st (s_notes b)), a.
      destruct (findById_some _ _ _ Hfind) as [Hin _].
      destruct (apply_status_fields user a st (s_notes b)) as (Hid & _).
      auto.
    + left. apply Z.eqb_neq in E. simpl in *. unfold patch_status in *.
      destruct (authorizeAppointmentAccess user id db) as [? | a]; [reflexivity |].
      destruct (requested_status b) as [st |]; [| reflexivity].
      destruct (negb (canUpdateStatus user a st)); [reflexivity |].
      destruct (save now false (apply_status user a st (s_notes b)) db);
        [reflexivity |].
      exfalso. apply E. reflexivity.
  - destruct (status_code (fst (handle now user (PUT_appointment id b) db)) =? 200) eqn:E.
    + apply Z.eqb_eq in E. simpl in E.
      destruct (put_appointment_200 _ _ _ _ _ E) as (a & moved & Hfind & _ & Hres & Hsave).
      right. right. left. exists (apply_fields b moved), a.
      destruct (findById_some _ _ _ Hfind) as [Hin _].
      destruct (apply_fields_keeps b moved) as (Hid & _).
      split; [exact Hin |]. split; [| exact Hsave].
      rewrite Hid.
      destruct (reschedule_moved _ _ _ _ Hres) as [-> | (d & date & ts & _ & _ & _ & ->)];
        reflexivity.
    + left. apply Z.eqb_neq in E. simpl in *. unfold put_appointment in *.
      destruct (authorizeAppointmentAccess user id db) as [? | a]; [reflexivity |].
      destruct (negb (canUpdate user a)); [reflexivity |].
      destruct (reschedule b a db) as [? | moved]; [reflexivity |].
      destruct (save now false (apply_fields b moved) db); [reflexivity |].
      exfalso. apply E. reflexivity.
  - simpl. unfold delete_appointment.
    destruct (negb (role_eqb (User.role user) Admin)); [auto |].
    destruct (findById id db); [| auto].
    right. right. right. exists id. reflexivity.
  - left. reflexivity.
Qed.

(** The ids of the embedding: no request touches the users or lowers the
    counter, and the stored ids stay below it. *)
Lemma handle_keeps_ids_fresh :
  forall (now : Z) (user : User.t) (r : Request) (db : Store),
    ids_fresh db ->
    let db' := snd (handle now user r db) in
    ids_fresh db' /\ users db' = users db /\ next_id db <= next_id db'.
Proof.
  intros now user r db Hfresh db'. subst db'.
  destruct (handle_writes_ids now user r db)
    as [-> | [(a & Hid & Hsave) | [(a & a0 & Hin & Hid & Hsave) | (id & ->)]]].
  - split; [exact Hfresh |]. split; [reflexivity | lia].
  - apply save_ok in Hsave. destruct Hsave as (_ & _ & _ & _ & ->). simpl.
    split; [| split; [reflexivity | lia]].
    intros x Hx. simpl in *. apply in_app_iff in Hx.
    destruct Hx as [Hx | [<- | []]].
    + apply Hfresh in Hx. lia.
    + lia.
  - apply save_ok in Hsave. destruct Hsave as (_ & _ & _ & _ & ->). simpl.
    split; [| split; [reflexivity | lia]].
    intros x Hx. simpl in *. apply in_replace in Hx.
    destruct Hx as [-> | [Hx _]].
    + rewrite Hid. now apply Hfresh.
    + now apply Hfresh.
  - simpl. split; [| split; [reflexivity | lia]].
    intros x Hx. simpl in Hx. apply filter_In in Hx. apply Hfresh. tauto.
Qed.

(** ** Creating *)

(** X2: a 201 from the create route means this: the caller is a patient,
    the doctor named in the body is an active doctor of the directory, and
    the appointment of the answer is stored under the id the counter held,
    pending, with the caller as patient, the body's time slot and its
    trimmed reason; a lookup by that id returns it, and every other lookup
    answers as before. *)
Theorem X2_created_appointment_is_stored :
  forall (now : Z) (user : User.t) (b : CreateBody) (db : Store),
    ids_fresh db ->
    status_code (fst (post_appointment now user b db)) = 201 ->
    let db' := snd (post_appointment now user b db) in
    exists a doctorUser,
      payload (fst (post_appointment now user b db))
      = WithAppointment "Appointment booked successfully" a /\
      User.role user = Patient /\
      b_doctor b = Some (Appointment.doctor a) /\
      findUser (Appointment.doctor a) db = Some doctorUser /\
      User.role doctorUser = Doctor /\ User.isActive doctorUser = true /\
      Appointment._id a = next_id db /\
      Appointment.status a = Pending /\
      Appointment.patient a = User._id user /\
      asDate (b_appointmentDate b) = Js.Instant (Appointment.appointmentDate a) /\
      now < Appointment.appointmentDate a /\
      Appointment.timeSlot a = b_timeSlot b /\
      Appointment.reason a = Js.trim (b_reason b) /\
      findById (next_id db) db' = Some a /\
      (forall id, id <> next_id db -> findById id db' = findById id db).
Proof.
  intros now user b db Hfresh H201 db'. subst db'.
  unfold post_appointment in *.
  destruct (role_eqb (User.role user) Patient) eqn:R; [| discriminate]. simpl in *.
  destruct (validateAppointment now b); [| discriminate].
  destruct (b_doctor b) as [d |]; [| discriminate].
  destruct (findUser d db) as [du |] eqn:Fu; [| discriminate].
  destruct (role_eqb (User.role du) Doctor) eqn:Rd; [| discriminate].
  destruct (User.isActive du) eqn:Act; [| discriminate]. simpl in *.
  destruct (asDate (b_appointmentDate b)) as [date |]; [| discriminate].
  destruct (save now true (new_appointment user b d date db) db) as [e | db1] eqn:S.
  { destruct (is_duplicate_key e); discriminate. }
  apply save_ok in S. destruct S as (Hval & _ & _ & _ & ->). simpl.
  exists (new_appointment user b d date db), du.
  repeat split; try reflexivity; try assumption.
  - now apply role_eqb_eq.
  - now apply role_eqb_eq.
  - unfold Appointment.validate in Hval. apply app_eq_nil in Hval.
    destruct Hval as [Hd _]. apply check_nil in Hd. simpl in Hd.
    now apply Z.ltb_lt.
  - unfold findById. simpl. rewrite find_snoc.
    fold (findById (next_id db) db). rewrite (find_fresh db (next_id db) Hfresh) by lia.
    simpl. rewrite Z.eqb_refl. reflexivity.
  - intros id Hid. unfold findById. simpl. rewrite find_snoc.
    destruct (find (fun a => Appointment._id a =? id) (appointments db));
      [reflexivity |].
    simpl. assert (E : (next_id db =? id) = false) by (apply Z.eqb_neq; congruence).
    rewrite E. reflexivity.
Qed.

Lemma X2_created_appointment_is_stored_witness :
  exists a doctorUser,
    payload (fst (post_appointment Sample.now Sample.P
                    (Sample.booking "09:00" "09:30") Sample.clinic))
    = WithAppointment "Appointment booked successfully" a /\
    User.role Sample.P = Patient /\
    b_doctor (Sample.booking "09:00" "09:30") = Some (Appointment.doctor a) /\
    findUser (Appointment.doctor a) Sample.clinic = Some doctorUser /\
    User.role doctorUser = Doctor /\ User.isActive doctorUser = true /\
    Appointment._id a = next_id Sample.clinic /\
    Appointment.status a = Pending /\
    Appointment.patient a = User._id Sample.P /\
    asDate (b_appointmentDate (Sample.booking "09:00" "09:30"))
    = Js.Instant (Appointment.appointmentDate a) /\
    Sample.now < Appointment.appointmentDate a /\
    Appointment.timeSlot a = b_timeSlot (Sample.booking "09:00" "09:30") /\
    Appointment.reason a = Js.trim (b_reason (Sample.booking "09:00" "09:30")) /\
    findById (next_id Sample.clinic)
      (snd (post_appointment Sample.now Sample.P
              (Sample.booking "09:00" "09:30") Sample.clinic)) = Some a /\
    (forall id, id <> next_id Sample.clinic ->
           findById id
             (snd (post_appointment Sample.now Sample.P
                     (Sample.booking "09:00" "09:30") Sample.clinic))
           = findById id Sample.clinic).
Proof.
  apply (X2_created_appointment_is_stored Sample.now Sample.P
           (Sample.booking "09:00" "09:30") Sample.clinic).
  - intros a Ha. simpl in Ha. destruct Ha.
  - reflexivity.
Defined.

(** ** Changing the status *)

Lemma apply_status_rest (user : User.t) (a : Appointment.t) (st : Status)
  (notes : option string) :
  let u := apply_status user a st notes in
  Appointment.patient u = Appointment.patient a /\
  Appointment.type u = Appointment.type a /\
  Appointment.reason u = Appointment.reason a /\
  Appointment.prescription u = Appointment.prescription a /\
  Appointment.followUpDate u = Appointment.followUpDate a /\
  Appointment.priority u = Appointment.priority a /\
  Appointment.estimatedDuration u = Appointment.estimatedDuration a /\
  Appointment.reminderSent u = Appointment.reminderSent a.
Proof.
  unfold apply_status.
  destruct (status_eqb st Cancelled); destruct notes as [n |];
    try destruct (Js.truthy n); simpl; repeat split; reflexivity.
Qed.

(** X3: a 200 from the status route changes one stored appointment only,
    the one addressed, and of it only the status, the notes and the
    cancellation fields: its id, patient, doctor, date, time slot, type,
    reason, prescription and priority are what they were, its status is the
    requested one, and every other lookup answers as before. *)
Theorem X3_status_update_changes_one_appointment :
  forall (now : Z) (user : User.t) (id : ObjectId) (b : StatusBody) (db : Store),
    status_code (fst (patch_status now user id b db)) = 200 ->
    let db' := snd (patch_status now user id b db) in
    exists a u,
      findById id db = Some a /\ findById id db' = Some u /\
      requested_status b = Some (Appointment.status u) /\
      Appointment._id u = id /\
      Appointment.patient u = Appointment.patient a /\
      Appointment.doctor u = Appointment.doctor a /\
      Appointment.appointmentDate u = Appointment.appointmentDate a /\
      Appointment.timeSlot u = Appointment.timeSlot a /\
      Appointment.type u = Appointment.type a /\
      Appointment.reason u = Appointment.reason a /\
      Appointment.prescription u = Appointment.prescription a /\
      Appointment.priority u = Appointment.priority a /\
      (forall id', id' <> id -> findById id' db' = findById id' db).
Proof.
  intros now user id b db H200 db'. subst db'.
  destruct (patch_status_200 _ _ _ _ _ H200) as (a & st & Hfind & Hreq & _ & Hsave).
  apply save_ok in Hsave. destruct Hsave as (_ & _ & _ & _ & ->).
  set (u := apply_status user a st (s_notes b)).
  destruct (apply_status_fields user a st (s_notes b)) as (Hid & Hst & Hdoc & Hdate & Hslot).
  destruct (apply_status_rest user a st (s_notes b))
    as (Hpat & Hty & Hre & Hpr & _ & Hprio & _).
  fold u in Hid, Hst, Hdoc, Hdate, Hslot, Hpat, Hty, Hre, Hpr, Hprio.
  destruct (findById_some _ _ _ Hfind) as [_ Haid].
  exists a, u. simpl.
  split; [exact Hfind |]. split.
  { unfold findById in *. simpl. apply find_replaced with (a := a); [exact Hfind |].
    congruence. }
  split; [congruence |]. split; [congruence |].
  repeat (split; [assumption |]).
  intros id' Hne. unfold findById. simpl. apply find_replace_other. congruence.
Qed.

Lemma X3_status_update_changes_one_appointment_witness :
  exists a u,
    findById 100 Cases.booked = Some a /\
    findById 100
      (snd (patch_status Sample.now Sample.A 100 (mkStatusBody (Some "confirmed") None)
              Cases.booked)) = Some u /\
    requested_status (mkStatusBody (Some "confirmed") None)
    = Some (Appointment.status u) /\
    Appointment._id u = 100 /\
    Appointment.patient u = Appointment.patient a /\
    Appointment.doctor u = Appointment.doctor a /\
    Appointment.appointmentDate u = Appointment.appointmentDate a /\
    Appointment.timeSlot u = Appointment.timeSlot a /\
    Appointment.type u = Appointment.type a /\
    Appointment.reason u = Appointment.reason a /\
    Appointment.prescription u = Appointment.prescription a /\
    Appointment.priority u = Appointment.priority a /\
    (forall id', id' <> 100 ->
            findById id'
              (snd (patch_status Sample.now Sample.A 100
                      (mkStatusBody (Some "confirmed") None) Cases.booked))
            = findById id' Cases.booked).
Proof.
  apply (X3_status_update_changes_one_appointment Sample.now Sample.A 100
           (mkStatusBody (Some "confirmed") None) Cases.booked).
  reflexivity.
Defined.

(** X4: in a status update that is answered 200, a non-empty note lands in
    the field of the caller's role and in no other (the doctor's in
    notes.doctor, the patient's in notes.patient, an admin's or nurse's in
    notes.admin), an absent or empty note changes no note field, and
    cancelledBy and cancellationReason are written exactly when the
    requested status is cancelled, with the caller and the note as sent. *)
Theorem X4_notes_by_role_and_cancellation_stamp :
  forall (now : Z) (user : User.t) (id : ObjectId) (b : StatusBody) (db : Store),
    status_code (fst (patch_status now user id b db)) = 200 ->
    exists a u st,
      findById id db = Some a /\
      findById id (snd (patch_status now user id b db)) = Some u /\
      requested_status b = Some st /\
      (forall n, s_notes b = Some n -> Js.truthy n = true ->
         match User.role user with
         | Doctor =>
             notes_doctor (Appointment.notes u) = Some n /\
             notes_patient (Appointment.notes u) = notes_patient (Appointment.notes a) /\
             notes_admin (Appointment.notes u) = notes_admin (Appointment.notes a)
         | Patient =>
             notes_patient (Appointment.notes u) = Some n /\
             notes_doctor (Appointment.notes u) = notes_doctor (Appointment.notes a) /\
             notes_admin (Appointment.notes u) = notes_admin (Appointment.notes a)
         | Admin | Nurse =>
             notes_admin (Appointment.notes u) = Some n /\
             notes_patient (Appointment.notes u) = notes_patient (Appointment.notes a) /\
             notes_doctor (Appointment.notes u) = notes_doctor (Appointment.notes a)
         end) /\
      ((s_notes b = None \/ s_notes b = Some "") ->
       Appointment.notes u = Appointment.notes a) /\
      (st = Cancelled ->
       Appointment.cancelledBy u = Some (User._id user) /\
       Appointment.cancellationReason u = s_notes b) /\
      (st <> Cancelled ->
       Appointment.cancelledBy u = Appointment.cancelledBy a /\
       Appointment.cancellationReason u = Appointment.cancellationReason a).
Proof.
  intros now user id b db H200.
  destruct (patch_status_200 _ _ _ _ _ H200) as (a & st & Hfind & Hreq & _ & Hsave).
  apply save_ok in Hsave. destruct Hsave as (_ & _ & _ & _ & ->).
  set (u := apply_status user a st (s_notes b)).
  destruct (apply_status_fields user a st (s_notes b)) as (Hid & _).
  destruct (findById_some _ _ _ Hfind) as [_ Haid].
  exists a, u, st.
  split; [exact Hfind |]. split.
  { unfold findById in *. simpl. apply find_replaced with (a := a); [exact Hfind |].
    fold u in Hid. congruence. }
  split; [exact Hreq |].
  subst u. unfold apply_status.
  split; [| split; [| split]].
  - intros n Hn Ht. rewrite Hn, Ht.
    destruct (status_eqb st Cancelled); destruct (User.role user); simpl; auto.
  - intros [Hn | Hn]; rewrite Hn; destruct (status_eqb st Cancelled); reflexivity.
  - intros ->. simpl.
    destruct (s_notes b) as [n |]; try destruct (Js.truthy n); simpl; auto.
  - intro Hne.
    assert (E : status_eqb st Cancelled = false).
    { destruct (status_eqb st Cancelled) eqn:E; [| reflexivity].
      apply status_eqb_eq in E. contradiction. }
    rewrite E.
    destruct (s_notes b) as [n |]; try destruct (Js.truthy n); simpl; auto.
Qed.

Lemma X4_notes_by_role_and_cancellation_stamp_witness :
  exists a u st,
    findById 100 Cases.booked = Some a /\
    findById 100
      (snd (patch_status Sample.now Sample.D 100
              (mkStatusBody (Some "cancelled") (Some "On leave")) Cases.booked))
    = Some u /\
    requested_status (mkStatusBody (Some "cancelled") (Some "On leave")) = Some st /\
    (forall n, Some "On leave" = Some n -> Js.truthy n = true ->
       notes_doctor (Appointment.notes u) = Some n /\
       notes_patient (Appointment.notes u) = notes_patient (Appointment.notes a) /\
       notes_admin (Appointment.notes u) = notes_admin (Appointment.notes a)) /\
    ((Some "On leave" = None \/ Some "On leave" = Some "") ->
     Appointment.notes u = Appointment.notes a) /\
    (st = Cancelled ->
     Appointment.cancelledBy u = Some (User._id Sample.D) /\
     Appointment.cancellationReason u = Some "On leave") /\
    (st <> Cancelled ->
     Appointment.cancelledBy u = Appointment.cancelledBy a /\
     Appointment.cancellationReason u = Appointment.cancellationReason a).
Proof.
  apply (X4_notes_by_role_and_cancellation_stamp Sample.now Sample.D 100
           (mkStatusBody (Some "cancelled") (Some "On leave")) Cases.booked).
  reflexivity.
Defined.

(** ** Slots that come free, and slots that are taken again *)

Lemma canUpdateStatus_access (user : User.t) (id : ObjectId) (db : Store)
  (a : Appointment.t) (st : Status) :
  findById id db = Some a -> canUpdateStatus user a st = true ->
  authorizeAppointmentAccess user id db = inr a.
Proof.
  intros Hfind Hcan. unfold authorizeAppointmentAccess. rewrite Hfind.
  unfold canUpdateStatus in Hcan.
  destruct (role_eqb (User.role user) Admin); [now rewrite !andb_false_r |].
  destruct (role_eqb (User.role user) Nurse); [now rewrite !andb_false_r |].
  simpl in Hcan. apply orb_true_iff in Hcan. destruct Hcan as [Hcan | Hcan].
  - apply andb_true_iff in Hcan. destruct Hcan as [_ Hid]. rewrite Hid.
    now rewrite andb_false_r.
  - apply andb_true_iff in Hcan. destruct Hcan as [Hcan _].
    apply andb_true_iff in Hcan. destruct Hcan as [_ Hid]. rewrite Hid. reflexivity.
Qed.

Lemma replace_fresh (u : Appointment.t) (db : Store) (a0 : Appointment.t) :
  ids_fresh db -> In a0 (appointments db) ->
  Appointment._id u = Appointment._id a0 ->
  ids_fresh (mkStore (users db) (Appointment.replace u (appointments db)) (next_id db)).
Proof.
  intros Hfresh Hin Hid x Hx. simpl in *. apply in_replace in Hx.
  destruct Hx as [-> | [Hx _]].
  - rewrite Hid. now apply Hfresh.
  - now apply Hfresh.
Qed.

(** X5: once an active appointment has been set to cancelled, completed or
    no-show with a 200, a bookable request for the same doctor, date and
    time slot is answered 201: the partial index no longer counts the
    appointment, and no other active one can hold its key. *)
Theorem X5_inactive_status_frees_the_slot :
  forall (now now' : Z) (user booker : User.t) (id : ObjectId)
         (body : StatusBody) (b : CreateBody) (db : Store) (a : Appointment.t)
         (st : Status),
    index_invariant db -> ids_fresh db ->
    findById id db = Some a -> Appointment.is_active a = true ->
    requested_status body = Some st ->
    st = Cancelled \/ st = Completed \/ st = NoShow ->
    status_code (fst (patch_status now user id body db)) = 200 ->
    bookable now' booker b (Appointment.doctor a) (Appointment.appointmentDate a) db ->
    b_timeSlot b = Appointment.timeSlot a ->
    status_code
      (fst (post_appointment now' booker b (snd (patch_status now user id body db))))
    = 201.
Proof.
  intros now now' user booker id body b db a st [_ Huniq] Hfresh Hfind Hact Hreq
         Hst H200 Hbook Hslot.
  destruct (patch_status_200 _ _ _ _ _ H200) as (a' & st' & Hfind' & Hreq' & _ & Hsave).
  assert (a' = a) by congruence. assert (st' = st) by congruence. subst a' st'.
  apply save_ok in Hsave. destruct Hsave as (_ & _ & _ & _ & Hdb').
  simpl in Hdb'. rewrite Hdb'.
  set (u := apply_status user a st (s_notes body)) in *.
  destruct (apply_status_fields user a st (s_notes body)) as (Hid & Hust & _).
  fold u in Hid, Hust.
  destruct (findById_some _ _ _ Hfind) as [Hin _].
  assert (Hinactive : Appointment.is_active u = false).
  { unfold Appointment.is_active. rewrite Hust.
    destruct Hst as [-> | [-> | ->]]; reflexivity. }
  rewrite (free_slot_books now' booker b (Appointment.doctor a)
             (Appointment.appointmentDate a)).
  - reflexivity.
  - eapply bookable_users; [| exact Hbook]. reflexivity.
  - apply replace_fresh with (a0 := a); assumption.
  - intros (x & Hx & Hxact & Hxd & Hxt & Hxs). simpl in Hx.
    apply in_replace in Hx. destruct Hx as [-> | [Hx Hxid]].
    + congruence.
    + apply (Huniq x a Hx Hin); try congruence.
Qed.

Lemma X5_inactive_status_frees_the_slot_witness :
  status_code
    (fst (post_appointment Sample.now Sample.Q (Sample.booking "09:00" "09:30")
            (snd (patch_status Sample.now Sample.P 100
                    (mkStatusBody (Some "cancelled") None) Cases.booked))))
  = 201.
Proof.
  apply (X5_inactive_status_frees_the_slot Sample.now Sample.now Sample.P Sample.Q
           100 (mkStatusBody (Some "cancelled") None)
           (Sample.booking "09:00" "09:30") Cases.booked
           (new_appointment Sample.P (Sample.booking "09:00" "09:30") 10
              1749513600000 Sample.clinic) Cancelled).
  - apply (run_keeps_index Sample.now
             [(Sample.P, Sample.book "09:00" "09:30");
              (Sample.Q, Sample.book "14:00" "14:30")] Sample.clinic).
    apply empty_index_invariant.
  - intros a Ha. vm_compute in Ha.
    destruct Ha as [<- | [<- | []]]; vm_compute; reflexivity.
  - reflexivity.
  - reflexivity.
  - reflexivity.
  - left. reflexivity.
  - reflexivity.
  - split; [| reflexivity].
    repeat split; try reflexivity.
    exists Sample.D. repeat split; reflexivity.
  - reflexivity.
Defined.

(** X6: whoever may change the status and asks to put an inactive
    appointment back to pending or confirmed while another active
    appointment holds its doctor, date and time slot is answered 500, and
    nothing is written: the index refuses the update, and the status route
    has no 409 for it. *)
Theorem X6_reactivation_onto_taken_slot_is_refused :
  forall (now : Z) (user : User.t) (id : ObjectId) (body : StatusBody)
         (db : Store) (a x : Appointment.t) (st : Status),
    findById id db = Some a ->
    requested_status body = Some st -> st = Pending \/ st = Confirmed ->
    canUpdateStatus user a st = true ->
    In x (appointments db) -> Appointment._id x <> id ->
    Appointment.is_active x = true ->
    Appointment.doctor x = Appointment.doctor a ->
    Appointment.appointmentDate x = Appointment.appointmentDate a ->
    Appointment.timeSlot x = Appointment.timeSlot a ->
    patch_status now user id body db =
    (mkResponse 500 (Message "Failed to update appointment status"), db).
Proof.
  intros now user id body db a x st Hfind Hreq Hst Hcan Hx Hxid Hxact Hxd Hxt Hxs.
  unfold patch_status.
  rewrite (canUpdateStatus_access user id db a st Hfind Hcan), Hreq, Hcan. simpl.
  set (u := apply_status user a st (s_notes body)).
  destruct (apply_status_fields user a st (s_notes body))
    as (Hid & Hust & Hdoc & Hdate & Hslot).
  fold u in Hid, Hust, Hdoc, Hdate, Hslot.
  destruct (findById_some _ _ _ Hfind) as [_ Haid].
  assert (Hdup : Appointment.duplicate_key u (appointments db) = true).
  { unfold Appointment.duplicate_key. apply andb_true_iff. split.
    - unfold Appointment.is_active. rewrite Hust. destruct Hst as [-> | ->]; reflexivity.
    - apply existsb_exists. exists x. split; [exact Hx |].
      assert (E : (Appointment._id x =? Appointment._id u) = false)
        by (apply Z.eqb_neq; congruence).
      rewrite E, Hxact. simpl. apply same_key_spec. repeat split; congruence. }
  unfold save, Appointment.pre_save.
  destruct (Appointment.validate now u); [| reflexivity].
  destruct (Appointment.hook_rejects (Appointment.timeSlot u)); [reflexivity |].
  rewrite Hdup. reflexivity.
Qed.

Lemma X6_reactivation_onto_taken_slot_is_refused_witness :
  patch_status Sample.now Sample.A 100 (mkStatusBody (Some "pending") None)
    (Sample.after [(Sample.Q, Sample.book "09:00" "09:30")] Cases.cancelled_first)
  = (mkResponse 500 (Message "Failed to update appointment status"),
     Sample.after [(Sample.Q, Sample.book "09:00" "09:30")] Cases.cancelled_first).
Proof.
  apply (X6_reactivation_onto_taken_slot_is_refused Sample.now Sample.A 100
           (mkStatusBody (Some "pending") None)
           (Sample.after [(Sample.Q, Sample.book "09:00" "09:30")] Cases.cancelled_first)
           (Appointment.set_cancellation
              (Appointment.set_status
                 (new_appointment Sample.P (Sample.booking "09:00" "09:30") 10
                    1749513600000 Sample.clinic) Cancelled) 1 None)
           (Appointment.mk 102 2 10 1749513600000 (mkSlot "09:00" "09:30") Pending
              "consultation" "Annual physical exam" (mkNotes None None None) [] None
              "medium" 30 None None false)
           Pending).
  - vm_compute. reflexivity.
  - reflexivity.
  - left. reflexivity.
  - reflexivity.
  - vm_compute. right. right. left. reflexivity.
  - vm_compute. discriminate.
  - reflexivity.
  - reflexivity.
  - reflexivity.
  - reflexivity.
Defined.

(** ** Deleting *)

(** X7: only an admin deletes: any other role is answered 403 and an
    unknown id 404, with the store unchanged; after a 200 a lookup of the
    deleted id finds nothing, every other lookup answers as before, and the
    users and the id counter are untouched. *)
Theorem X7_delete_removes_exactly_one_id :
  forall (user : User.t) (id : ObjectId) (db : Store),
    let out := delete_appointment user id db in
    (User.role user <> Admin -> status_code (fst out) = 403 /\ snd out = db) /\
    (User.role user = Admin -> findById id db = None ->
     status_code (fst out) = 404 /\ snd out = db) /\
    (User.role user = Admin -> findById id db <> None ->
     status_code (fst out) = 200 /\
     findById id (snd out) = None /\
     (forall id', id' <> id -> findById id' (snd out) = findById id' db) /\
     users (snd out) = users db /\ next_id (snd out) = next_id db).
Proof.
  intros user id db out. subst out. unfold delete_appointment.
  split; [| split].
  - intro Hr.
    assert (E : role_eqb (User.role user) Admin = false).
    { destruct (role_eqb (User.role user) Admin) eqn:E; [| reflexivity].
      apply role_eqb_eq in E. contradiction. }
    rewrite E. simpl. auto.
  - intros -> Hnone. simpl. rewrite Hnone. auto.
  - intros -> Hsome. simpl.
    destruct (findById id db) eqn:F; [| contradiction]. simpl.
    split; [reflexivity |]. split; [apply find_filter_same |].
    split; [| auto].
    intros id' Hne. unfold findById. simpl. now apply find_filter_other.
Qed.

Lemma X7_delete_removes_exactly_one_id_witness :
  status_code (fst (delete_appointment Sample.A 100 Cases.booked)) = 200 /\
  findById 100 (snd (delete_appointment Sample.A 100 Cases.booked)) = None /\
  (forall id', id' <> 100 ->
          findById id' (snd (delete_appointment Sample.A 100 Cases.booked))
          = findById id' Cases.booked) /\
  users (snd (delete_appointment Sample.A 100 Cases.booked)) = users Cases.booked /\
  next_id (snd (delete_appointment Sample.A 100 Cases.booked)) = next_id Cases.booked.
Proof.
  apply (X7_delete_removes_exactly_one_id Sample.A 100 Cases.booked).
  - reflexivity.
  - vm_compute. discriminate.
Defined.

(** ** Updating *)

(** X8: the update route is closed to doctors, the appointment's own doctor
    included, and to the owning patient once the appointment is no longer
    pending: such a request on an existing appointment is answered 403 and
    nothing is written. *)
Theorem X8_update_refuses_doctors_and_settled_patients :
  forall (now : Z) (user : User.t) (id : ObjectId) (b : UpdateBody)
         (db : Store) (a : Appointment.t),
    findById id db = Some a ->
    User.role user = Doctor \/
    (User.role user = Patient /\ Appointment.status a <> Pending) ->
    status_code (fst (put_appointment now user id b db)) = 403 /\
    snd (put_appointment now user id b db) = db.
Proof.
  intros now user id b db a Hfind Hwho.
  unfold put_appointment, authorizeAppointmentAccess. rewrite Hfind.
  destruct (negb (User._id user =? Appointment.patient a)
            && negb (User._id user =? Appointment.doctor a)
            && negb (role_eqb (User.role user) Admin || role_eqb (User.role user) Nurse))%bool;
    [simpl; auto |].
  assert (C : canUpdate user a = false).
  { unfold canUpdate. destruct Hwho as [-> | [-> Hst]]; simpl; [reflexivity |].
    destruct (status_eqb (Appointment.status a) Pending) eqn:E.
    - apply status_eqb_eq in E. contradiction.
    - apply andb_false_r. }
  rewrite C. simpl. auto.
Qed.

Lemma X8_update_refuses_doctors_and_settled_patients_witness :
  status_code
    (fst (put_appointment Sample.now Sample.D 100
            (mkUpdateBody None None (Some "Moved to a longer visit") None None)
            Cases.booked)) = 403 /\
  snd (put_appointment Sample.now Sample.D 100
         (mkUpdateBody None None (Some "Moved to a longer visit") None None)
         Cases.booked) = Cases.booked.
Proof.
  apply (X8_update_refuses_doctors_and_settled_patients Sample.now Sample.D 100
           (mkUpdateBody None None (Some "Moved to a longer visit") None None)
           Cases.booked
           (new_appointment Sample.P (Sample.booking "09:00" "09:30") 10
              1749513600000 Sample.clinic)).
  - reflexivity.
  - left. reflexivity.
Defined.

Lemma apply_fields_rest (b : UpdateBody) (a : Appointment.t) :
  Appointment.patient (apply_fields b a) = Appointment.patient a /\
  Appointment.doctor (apply_fields b a) = Appointment.doctor a /\
  Appointment.status (apply_fields b a) = Appointment.status a /\
  Appointment.notes (apply_fields b a) = Appointment.notes a /\
  Appointment.cancelledBy (apply_fields b a) = Appointment.cancelledBy a /\
  Appointment.cancellationReason (apply_fields b a) = Appointment.cancellationReason a.
Proof.
  unfold apply_fields, assign_if.
  destruct (u_priority b) as [p |]; destruct (u_type b) as [t |];
    destruct (u_reason b) as [r |];
    try destruct (Js.truthy p); try destruct (Js.truthy t);
    try destruct (Js.truthy r); simpl; repeat split; reflexivity.
Qed.

(** X9: a 200 from the update route never changes who the appointment
    belongs to or where it stands: id, patient, doctor, status, notes and
    cancellation fields are kept, and every other appointment is as before.
    A date sent without a time slot, or a time slot without a date, is
    dropped without a word: date and time slot are then the stored ones. *)
Theorem X9_update_keeps_identity_and_ignores_half_a_schedule :
  forall (now : Z) (user : User.t) (id : ObjectId) (b : UpdateBody) (db : Store),
    status_code (fst (put_appointment now user id b db)) = 200 ->
    let db' := snd (put_appointment now user id b db) in
    exists a u,
      findById id db = Some a /\ findById id db' = Some u /\
      Appointment._id u = id /\
      Appointment.patient u = Appointment.patient a /\
      Appointment.doctor u = Appointment.doctor a /\
      Appointment.status u = Appointment.status a /\
      Appointment.notes u = Appointment.notes a /\
      Appointment.cancelledBy u = Appointment.cancelledBy a /\
      (u_appointmentDate b = None \/ u_timeSlot b = None ->
       Appointment.appointmentDate u = Appointment.appointmentDate a /\
       Appointment.timeSlot u = Appointment.timeSlot a) /\
      (forall id', id' <> id -> findById id' db' = findById id' db).
Proof.
  intros now user id b db H200 db'. subst db'.
  destruct (put_appointment_200 _ _ _ _ _ H200) as (a & moved & Hfind & _ & Hres & Hsave).
  apply save_ok in Hsave. destruct Hsave as (_ & _ & _ & _ & ->).
  destruct (findById_some _ _ _ Hfind) as [_ Haid].
  destruct (apply_fields_keeps b moved) as (Hid & Hdate & Hslot).
  destruct (apply_fields_rest b moved) as (Hpat & Hdoc & Hst & Hnotes & Hcb & _).
  assert (Hmoved : Appointment._id moved = Appointment._id a /\
                   Appointment.patient moved = Appointment.patient a /\
                   Appointment.doctor moved = Appointment.doctor a /\
                   Appointment.status moved = Appointment.status a /\
                   Appointment.notes moved = Appointment.notes a /\
                   Appointment.cancelledBy moved = Appointment.cancelledBy a).
  { destruct (reschedule_moved _ _ _ _ Hres) as [-> | (d & date & ts & _ & _ & _ & ->)];
      simpl; auto 10. }
  destruct Hmoved as (M1 & M2 & M3 & M4 & M5 & M6).
  exists a, (apply_fields b moved). simpl.
  split; [exact Hfind |]. split.
  { unfold findById in *. simpl. apply find_replaced with (a := a); [exact Hfind |].
    congruence. }
  repeat (split; [congruence |]).
  split.
  - intro Hhalf. rewrite Hdate, Hslot.
    destruct (reschedule_moved _ _ _ _ Hres) as [-> | (d & date & ts & Hd & Hts & _ & _)].
    + auto.
    + destruct Hhalf; congruence.
  - intros id' Hne. unfold findById. simpl. apply find_replace_other. congruence.
Qed.

Lemma X9_update_keeps_identity_and_ignores_half_a_schedule_witness :
  exists a u,
    findById 100 Cases.booked = Some a /\
    findById 100
      (snd (put_appointment Sample.now Sample.A 100
              (mkUpdateBody (Some Sample.june10) None (Some "A longer visit, please") None None)
              Cases.booked)) = Some u /\
    Appointment._id u = 100 /\
    Appointment.patient u = Appointment.patient a /\
    Appointment.doctor u = Appointment.doctor a /\
    Appointment.status u = Appointment.status a /\
    Appointment.notes u = Appointment.notes a /\
    Appointment.cancelledBy u = Appointment.cancelledBy a /\
    (Some Sample.june10 = None \/ @None TimeSlot = None ->
     Appointment.appointmentDate u = Appointment.appointmentDate a /\
     Appointment.timeSlot u = Appointment.timeSlot a) /\
    (forall id', id' <> 100 ->
            findById id'
              (snd (put_appointment Sample.now Sample.A 100
                      (mkUpdateBody (Some Sample.june10) None
                         (Some "A longer visit, please") None None) Cases.booked))
            = findById id' Cases.booked).
Proof.
  apply (X9_update_keeps_identity_and_ignores_half_a_schedule Sample.now Sample.A 100
           (mkUpdateBody (Some Sample.june10) None (Some "A longer visit, please") None None)
           Cases.booked).
  reflexivity.
Defined.

(** ** The availability answer, slot by slot *)

Lemma workingHours_NoDup : NoDup workingHours.
Proof.
  unfold workingHours.
  repeat (constructor;
          [intro H; simpl in H;
           repeat (destruct H as [H | H]; [discriminate H |]); exact H |]).
  constructor.
Qed.

(** X10: in an availability answer for a date that has a next day, the
    template is split in two: a template slot is among availableSlots
    exactly when no entry of bookedSlots starts at it, so the available
    slots and the template slots at which a booked slot starts number
    twelve together; availableSlots has no duplicates and holds template
    slots only. *)
Theorem X10_availability_splits_the_template :
  forall (q : AvailabilityQuery) (db : Store) (d : DateInput)
         (searchDate nextDay : Z),
    q_date q = Some d -> Js.truthy (text d) = true ->
    asDate d = Js.Instant searchDate ->
    Js.next_day (Js.Instant searchDate) = Js.Instant nextDay ->
    let r := get_availability q db in
    (forall slot, In slot workingHours ->
       (In slot (available_in r) <->
        ~ exists ts, In ts (booked_in r) /\ start ts = slot)) /\
    (forall slot, In slot (available_in r) -> In slot workingHours) /\
    NoDup (available_in r) /\
    (List.length (available_in r)
     + List.length
         (filter (fun slot => existsb (fun ts => String.eqb (start ts) slot) (booked_in r))
            workingHours)
     = 12)%nat.
Proof.
  intros q db d searchDate nextDay Hq Ht Hd Hn r. subst r.
  rewrite (availability_answer q db d searchDate nextDay Hq Ht Hd Hn).
  unfold available_in, booked_in. simpl.
  set (booked := bookedAppointments (q_doctorId q) searchDate nextDay db).
  split; [| split; [| split]].
  - intros slot Hw. rewrite in_availableSlots. split.
    + intros [_ H] (ts & Hts & Hs). apply in_map_iff in Hts.
      destruct Hts as (a & <- & Ha). exact (H a Ha Hs).
    + intro H. split; [exact Hw |]. intros a Ha Hs. apply H.
      exists (Appointment.timeSlot a). split; [| exact Hs].
      apply in_map. exact Ha.
  - intros slot Hs. apply in_availableSlots in Hs. tauto.
  - unfold availableSlots_of. apply NoDup_filter. exact workingHours_NoDup.
  - assert (E : forall slot,
               existsb (fun ts => String.eqb (start ts) slot)
                 (map Appointment.timeSlot booked)
               = existsb (fun a => String.eqb (start (Appointment.timeSlot a)) slot) booked).
    { intro slot. clear. induction booked as [| a l IH]; simpl; [reflexivity |].
      now rewrite IH. }
    assert (L : (List.length (availableSlots_of booked)
                 + List.length
                     (filter (fun slot => existsb (fun ts => String.eqb (start ts) slot)
                                            (map Appointment.timeSlot booked))
                        workingHours)
                 = List.length workingHours)%nat).
    { unfold availableSlots_of. rewrite (filter_ext _ _ E).
      rewrite Nat.add_comm. apply filter_length. }
    exact L.
Qed.

Lemma X10_availability_splits_the_template_witness :
  In "10:00" (available_in (get_availability Sample.availability Cases.booked)) /\
  NoDup (available_in (get_availability Sample.availability Cases.booked)) /\
  List.length (available_in (get_availability Sample.availability Cases.booked)) = 10%nat.
Proof.
  destruct (X10_availability_splits_the_template Sample.availability Cases.booked
              Sample.june10 1749513600000 1749600000000 eq_refl eq_refl eq_refl eq_refl)
    as (Hslot & _ & Hnodup & Hlen).
  split; [| split].
  - apply Hslot; [simpl; auto 12 |].
    intros (ts & Hts & Hs). vm_compute in Hts.
    destruct Hts as [<- | [<- | []]]; discriminate Hs.
  - exact Hnodup.
  - vm_compute in Hlen. vm_compute. lia.
Defined.

(** ** Listing *)

Lemma in_insert_sorted (a x : Appointment.t) (l : list Appointment.t) :
  In x (insert_sorted a l) <-> x = a \/ In x l.
Proof.
  induction l as [| b l IH]; simpl.
  - intuition.
  - destruct (sort_leb a b); simpl; [intuition |].
    rewrite IH. intuition.
Qed.

Lemma in_sort_appointments (x : Appointment.t) (l : list Appointment.t) :
  In x (sort_appointments l) <-> In x l.
Proof.
  unfold sort_appointments. induction l as [| a l IH]; simpl.
  - tauto.
  - rewrite in_insert_sorted, IH. intuition.
Qed.

Lemma length_insert_sorted (a : Appointment.t) (l : list Appointment.t) :
  List.length (insert_sorted a l) = S (List.length l).
Proof.
  induction l as [| b l IH]; simpl; [reflexivity |].
  destruct (sort_leb a b); simpl; [reflexivity | now rewrite IH].
Qed.

Lemma length_sort_appointments (l : list Appointment.t) :
  List.length (sort_appointments l) = List.length l.
Proof.
  unfold sort_appointments. induction l as [| a l IH]; simpl; [reflexivity |].
  now rewrite length_insert_sorted, IH.
Qed.

Lemma in_skip_limit (x : Appointment.t) (skip limit : Z) (l : list Appointment.t) :
  In x (skip_limit skip limit l) -> In x l.
Proof.
  unfold skip_limit. intro H.
  rewrite <- (firstn_skipn (Z.to_nat skip) l). apply in_or_app. right.
  rewrite <- (firstn_skipn (Z.to_nat limit) (skipn (Z.to_nat skip) l)).
  apply in_or_app. left. exact H.
Qed.

(** What a listing is made of, when there is one. *)
Lemma get_appointments_in_listed (scan : list Appointment.t -> list Appointment.t)
  (user : User.t) (q : ListQuery) (db : Store)
  (found : list Appointment.t) (pg : Pagination) :
  get_appointments_in scan user q db = Listed found pg ->
  validatePagination (l_page q) (l_limit q) = [] /\
  castable (list_filter user q) = true /\
  found = skip_limit ((parseInt_or (l_page q) 1 - 1) * parseInt_or (l_limit q) 10)
            (parseInt_or (l_limit q) 10)
            (sort_appointments
               (scan (filter (satisfies (list_filter user q)) (appointments db)))) /\
  pg = mkPagination (parseInt_or (l_page q) 1)
         (ceil_div
            (Z.of_nat (List.length (filter (satisfies (list_filter user q)) (appointments db))))
            (parseInt_or (l_limit q) 10))
         (Z.of_nat (List.length (filter (satisfies (list_filter user q)) (appointments db))))
         (parseInt_or (l_page q) 1 <?
          ceil_div
            (Z.of_nat (List.length (filter (satisfies (list_filter user q)) (appointments db))))
            (parseInt_or (l_limit q) 10))
         (1 <? parseInt_or (l_page q) 1).
Proof.
  unfold get_appointments_in.
  destruct (validatePagination (l_page q) (l_limit q)); [| discriminate].
  destruct (castable (list_filter user q)); [| discriminate]. simpl.
  intro H. inversion H. auto.
Qed.

Lemma get_appointments_listed (user : User.t) (q : ListQuery) (db : Store)
  (found : list Appointment.t) (pg : Pagination) :
  get_appointments user q db = Listed found pg ->
  validatePagination (l_page q) (l_limit q) = [] /\
  castable (list_filter user q) = true /\
  found = skip_limit ((parseInt_or (l_page q) 1 - 1) * parseInt_or (l_limit q) 10)
            (parseInt_or (l_limit q) 10)
            (sort_appointments
               (filter (satisfies (list_filter user q)) (appointments db))) /\
  pg = mkPagination (parseInt_or (l_page q) 1)
         (ceil_div
            (Z.of_nat (List.length (filter (satisfies (list_filter user q)) (appointments db))))
            (parseInt_or (l_limit q) 10))
         (Z.of_nat (List.length (filter (satisfies (list_filter user q)) (appointments db))))
         (parseInt_or (l_page q) 1 <?
          ceil_div
            (Z.of_nat (List.length (filter (satisfies (list_filter user q)) (appointments db))))
            (parseInt_or (l_limit q) 10))
         (1 <? parseInt_or (l_page q) 1).
Proof. apply get_appointments_in_listed. Qed.

(** X11: whatever the query string says, a listing shows a patient only
    appointments of which they are the patient and a doctor only
    appointments of which they are the doctor; every listed appointment is a
    stored one, and carries the status asked for when a status is given. *)
Theorem X11_listing_is_scoped_to_the_caller :
  forall (user : User.t) (q : ListQuery) (db : Store) (a : Appointment.t),
    In a (listed (get_appointments user q db)) ->
    In a (appointments db) /\
    (User.role user = Patient -> Appointment.patient a = User._id user) /\
    (User.role user = Doctor -> Appointment.doctor a = User._id user) /\
    (forall s, l_status q = Some s -> Js.truthy s = true ->
          status_name (Appointment.status a) = s).
Proof.
  intros user q db a Ha.
  destruct (get_appointments user q db) as [c w | found pg] eqn:G; [destruct Ha |].
  simpl in Ha. apply get_appointments_listed in G.
  destruct G as (_ & _ & -> & _).
  apply in_skip_limit, in_sort_appointments, filter_In in Ha.
  destruct Ha as [Hin Hsat]. split; [exact Hin |].
  unfold satisfies in Hsat.
  apply andb_true_iff in Hsat. destruct Hsat as [Hsat _].
  apply andb_true_iff in Hsat. destruct Hsat as [Hsat Hstatus].
  apply andb_true_iff in Hsat. destruct Hsat as [Hpat Hdoc].
  unfold list_filter in *. simpl in *.
  split; [| split].
  - intro Hr. rewrite Hr in Hpat. simpl in Hpat.
    destruct (l_patientId q); simpl in Hpat; now apply Z.eqb_eq in Hpat.
  - intro Hr. rewrite Hr in Hdoc. simpl in Hdoc.
    destruct (l_doctorId q); simpl in Hdoc; now apply Z.eqb_eq in Hdoc.
  - intros s Hs Ht. rewrite Hs, Ht in Hstatus. now apply String.eqb_eq in Hstatus.
Qed.

Lemma X11_listing_is_scoped_to_the_caller_witness :
  In (new_appointment Sample.P (Sample.booking "09:00" "09:30") 10 1749513600000
        Sample.clinic) (appointments Cases.booked) /\
  (User.role Sample.P = Patient ->
   Appointment.patient
     (new_appointment Sample.P (Sample.booking "09:00" "09:30") 10 1749513600000
        Sample.clinic) = User._id Sample.P).
Proof.
  destruct (X11_listing_is_scoped_to_the_caller Sample.P
              (mkListQuery NoInt NoInt None None None (Some (GoodId 2))) Cases.booked
              (new_appointment Sample.P (Sample.booking "09:00" "09:30") 10
                 1749513600000 Sample.clinic))
    as (Hin & Hpat & _).
  - vm_compute. left. reflexivity.
  - split; assumption.
Defined.

Lemma validatePagination_ok (page limit : IntInput) :
  validatePagination page limit = [] ->
  1 <= parseInt_or page 1 /\
  1 <= parseInt_or limit 10 <= 100.
Proof.
  unfold validatePagination. intro H. apply app_eq_nil in H.
  destruct H as [Hp Hl]. apply check_nil in Hp, Hl.
  unfold parseInt_or. split.
  - destruct page as [| | n]; try lia. apply Z.leb_le in Hp.
    destruct (n =? 0) eqn:E; [lia | exact Hp].
  - destruct limit as [| | n]; try lia.
    apply andb_true_iff in Hl. destruct Hl as [H1 H2].
    apply Z.leb_le in H1, H2. destruct (n =? 0) eqn:E; lia.
Qed.

Lemma ceil_div_spec (t l : Z) :
  0 <= t -> 0 < l ->
  (ceil_div t l - 1) * l < t + (if t =? 0 then 1 else 0) /\ t <= ceil_div t l * l /\
  0 <= ceil_div t l /\
  forall p, p < ceil_div t l <-> p * l < t.
Proof.
  intros Ht Hl. unfold ceil_div.
  pose proof (Z.div_mod (t + l - 1) l ltac:(lia)) as E.
  pose proof (Z.mod_pos_bound (t + l - 1) l Hl) as B.
  set (c := (t + l - 1) / l) in *. set (m := (t + l - 1) mod l) in *.
  assert (Hc : (c - 1) * l < t /\ t <= c * l) by nia.
  split; [destruct (t =? 0); lia |]. split; [lia |]. split; [nia |].
  intro p. split; intro H; nia.
Qed.

(** X12: a listing holds at most [limit] appointments, [limit] being the
    validated query value (1 to 100) or 10; exactly those of the page, that
    is min(limit, total - skip) when the page starts inside the result and
    none beyond it; [total] counts the matching appointments, [pages] is the
    least number of pages that holds them, and hasNext is true exactly when
    appointments remain after this page. *)
Theorem X12_pagination_counts :
  forall (user : User.t) (q : ListQuery) (db : Store)
         (found : list Appointment.t) (pg : Pagination),
    get_appointments user q db = Listed found pg ->
    let limit := parseInt_or (l_limit q) 10 in
    let page := parseInt_or (l_page q) 1 in
    1 <= page /\ 1 <= limit <= 100 /\
    current pg = page /\
    total pg
    = Z.of_nat (List.length (filter (satisfies (list_filter user q)) (appointments db))) /\
    Z.of_nat (List.length found) = Z.min limit (Z.max 0 (total pg - (page - 1) * limit)) /\
    total pg <= pages pg * limit /\
    (0 < total pg -> (pages pg - 1) * limit < total pg) /\
    (total pg = 0 -> pages pg = 0) /\
    (hasNext pg = true <-> page * limit < total pg) /\
    (hasPrev pg = true <-> 1 < page).
Proof.
  intros user q db found pg G limit page.
  apply get_appointments_listed in G. destruct G as (Hval & _ & -> & ->).
  destruct (validatePagination_ok _ _ Hval) as [Hp Hl].
  fold limit in Hl |- *. fold page in Hp |- *. simpl.
  set (matching := filter (satisfies (list_filter user q)) (appointments db)).
  set (t := Z.of_nat (List.length matching)).
  assert (Ht : 0 <= t) by (subst t; lia).
  destruct (ceil_div_spec t limit Ht ltac:(lia)) as (C1 & C2 & C3 & C4).
  repeat split; try lia.
  - unfold skip_limit.
    rewrite length_firstn, length_skipn, length_sort_appointments.
    fold matching. subst t.
    assert (Hs : 0 <= (page - 1) * limit) by nia.
    set (s := (page - 1) * limit) in *. lia.
  - intro Hpos. assert (E : (t =? 0) = false) by (apply Z.eqb_neq; lia).
    rewrite E in C1. lia.
  - intro H0. apply Z.le_antisymm; [| exact C3].
    assert (H1 : ~ 0 < ceil_div t limit) by (rewrite C4; lia). lia.
  - intro H. apply Z.ltb_lt in H. now apply C4.
  - intro H. apply Z.ltb_lt. now apply C4.
Qed.

Lemma X12_pagination_counts_witness :
  Z.of_nat
    (List.length
       (listed (get_appointments Sample.D
                  (mkListQuery (AnInt 2) (AnInt 1) None None None None) Cases.booked)))
  = 1.
Proof.
  destruct (X12_pagination_counts Sample.D
              (mkListQuery (AnInt 2) (AnInt 1) None None None None) Cases.booked
              (listed (get_appointments Sample.D
                         (mkListQuery (AnInt 2) (AnInt 1) None None None None)
                         Cases.booked))
              (mkPagination 2 2 2 false true) eq_refl)
    as (_ & _ & _ & _ & Hlen & _).
  rewrite Hlen. reflexivity.
Defined.

(** ** Pages *)

Lemma firstn_then_firstn (a b : nat) (l : list Appointment.t) :
  (firstn a l ++ firstn b (skipn a l))%list = firstn (a + b) l.
Proof.
  revert l. induction a as [| a IH]; intro l; simpl; [reflexivity |].
  destruct l as [| x l]; simpl.
  - now rewrite firstn_nil.
  - now rewrite IH.
Qed.

Lemma pages_concat (n k : nat) (l : list Appointment.t) :
  flat_map (fun p => firstn n (skipn ((p - 1) * n) l)) (seq 1 k) = firstn (k * n) l.
Proof.
  induction k as [| k IH].
  - reflexivity.
  - rewrite seq_S, flat_map_app, IH. cbn [flat_map]. rewrite app_nil_r.
    replace ((1 + k - 1) * n)%nat with (k * n)%nat by lia.
    rewrite firstn_then_firstn. f_equal. lia.
Qed.

Lemma flat_map_ext_in (f g : nat -> list Appointment.t) (l : list nat) :
  (forall p, In p l -> f p = g p) -> flat_map f l = flat_map g l.
Proof.
  induction l as [| x l IH]; intro H; simpl; [reflexivity |].
  rewrite (H x (or_introl eq_refl)), IH; [reflexivity |].
  intros p Hp. apply H. right. exact Hp.
Qed.

Lemma str_ltb_asym (s t : string) :
  Js.str_ltb s t = true -> Js.str_ltb t s = false.
Proof.
  unfold Js.str_ltb, String.ltb. rewrite (String.compare_antisym t s).
  destruct (s ?= t)%string; simpl; intro H; try discriminate; reflexivity.
Qed.

Lemma sort_leb_total (a b : Appointment.t) :
  sort_leb a b = false -> sort_leb b a = true.
Proof.
  unfold sort_leb. intro H.
  apply orb_false_iff in H. destruct H as [Hlt Heq].
  apply Z.ltb_ge in Hlt.
  destruct (Appointment.appointmentDate b <? Appointment.appointmentDate a) eqn:L;
    [reflexivity |].
  apply Z.ltb_ge in L.
  assert (E : Appointment.appointmentDate a = Appointment.appointmentDate b) by lia.
  rewrite E, Z.eqb_refl in *. simpl in *.
  apply negb_false_iff in Heq. now rewrite (str_ltb_asym _ _ Heq).
Qed.

Lemma insert_sorted_Sorted (a : Appointment.t) (l : list Appointment.t) :
  Sorted in_order l -> Sorted in_order (insert_sorted a l).
Proof.
  induction l as [| b l IH]; intro Hs; simpl.
  - constructor; constructor.
  - destruct (sort_leb a b) eqn:E.
    + constructor; [exact Hs | constructor; exact E].
    + apply Sorted_inv in Hs. destruct Hs as [Hs Hhd].
      constructor; [now apply IH |].
      destruct l as [| c l]; simpl.
      * constructor. now apply sort_leb_total.
      * destruct (sort_leb a c).
        -- constructor. now apply sort_leb_total.
        -- inversion Hhd. now constructor.
Qed.

Lemma sort_appointments_Sorted (l : list Appointment.t) :
  Sorted in_order (sort_appointments l).
Proof.
  unfold sort_appointments. induction l as [| a l IH]; simpl.
  - constructor.
  - now apply insert_sorted_Sorted.
Qed.

Lemma Sorted_skipn (n : nat) (l : list Appointment.t) :
  Sorted in_order l -> Sorted in_order (skipn n l).
Proof.
  revert l. induction n as [| n IH]; intros l Hs; simpl; [exact Hs |].
  destruct l as [| x l]; [constructor |].
  apply IH. now apply Sorted_inv in Hs.
Qed.

Lemma Sorted_firstn (n : nat) (l : list Appointment.t) :
  Sorted in_order l -> Sorted in_order (firstn n l).
Proof.
  revert l. induction n as [| n IH]; intros l Hs; simpl; [constructor |].
  destruct l as [| x l]; [constructor |].
  apply Sorted_inv in Hs. destruct Hs as [Hs Hhd].
  constructor; [now apply IH |].
  destruct l as [| y l]; destruct n; simpl; try constructor.
  now inversion Hhd.
Qed.

(** The order of the sort is a total preorder, and two documents each
    before the other have the same two keys. *)
Lemma str_ltb_lt (s t : string) :
  Js.str_ltb s t = true <-> OrderedTypeEx.String_as_OT.lt s t.
Proof.
  unfold Js.str_ltb, String.ltb.
  rewrite <- OrderedTypeEx.String_as_OT.cmp_lt.
  unfold OrderedTypeEx.String_as_OT.cmp.
  destruct (s ?= t)%string; split; intro H; try reflexivity; discriminate.
Qed.

Lemma str_ltb_total (s t : string) :
  Js.str_ltb s t = false -> Js.str_ltb t s = false -> s = t.
Proof.
  unfold Js.str_ltb, String.ltb. rewrite (String.compare_antisym t s).
  destruct (s ?= t)%string eqn:E; simpl; intros H1 H2; try discriminate.
  now apply String.compare_eq_iff.
Qed.

Lemma str_leb_trans (s t u : string) :
  Js.str_ltb t s = false -> Js.str_ltb u t = false -> Js.str_ltb u s = false.
Proof.
  intros H1 H2.
  destruct (Js.str_ltb u s) eqn:H3; [| reflexivity]. exfalso.
  destruct (Js.str_ltb s t) eqn:A.
  - destruct (Js.str_ltb t u) eqn:B.
    + apply str_ltb_lt in A, B, H3.
      pose proof (OrderedTypeEx.String_as_OT.lt_trans _ _ _ A B) as L.
      pose proof (OrderedTypeEx.String_as_OT.lt_trans _ _ _ L H3) as L'.
      exact (OrderedTypeEx.String_as_OT.lt_not_eq _ _ L' eq_refl).
    + rewrite (str_ltb_total _ _ B H2) in A.
      rewrite (str_ltb_asym _ _ A) in H3. discriminate.
  - rewrite (str_ltb_total _ _ A H1) in H3. congruence.
Qed.

Lemma in_order_refl (a : Appointment.t) : in_order a a.
Proof.
  unfold in_order, sort_leb. rewrite Z.eqb_refl.
  assert (E : Js.str_ltb (start (Appointment.timeSlot a)) (start (Appointment.timeSlot a))
              = false).
  { destruct (Js.str_ltb _ _) eqn:E; [| reflexivity].
    now rewrite (str_ltb_asym _ _ E) in E. }
  rewrite E. apply orb_true_r.
Qed.

Lemma in_order_trans (a b c : Appointment.t) :
  in_order a b -> in_order b c -> in_order a c.
Proof.
  unfold in_order, sort_leb. intros H1 H2.
  apply orb_true_iff in H1. apply orb_true_iff in H2. apply orb_true_iff.
  destruct H1 as [H1 | H1]; destruct H2 as [H2 | H2];
    try apply andb_true_iff in H1; try apply andb_true_iff in H2;
    try apply Z.ltb_lt in H1; try apply Z.ltb_lt in H2.
  - left. apply Z.ltb_lt. lia.
  - destruct H2 as [E _]. apply Z.eqb_eq in E. left. apply Z.ltb_lt. lia.
  - destruct H1 as [E _]. apply Z.eqb_eq in E. left. apply Z.ltb_lt. lia.
  - destruct H1 as [E1 L1]. destruct H2 as [E2 L2].
    apply Z.eqb_eq in E1, E2. apply negb_true_iff in L1, L2.
    right. apply andb_true_iff. split; [apply Z.eqb_eq; lia |].
    apply negb_true_iff. exact (str_leb_trans _ _ _ L1 L2).
Qed.

Lemma in_order_antisym (a b : Appointment.t) :
  in_order a b -> in_order b a ->
  Appointment.appointmentDate a = Appointment.appointmentDate b /\
  start (Appointment.timeSlot a) = start (Appointment.timeSlot b).
Proof.
  unfold in_order, sort_leb. intros H1 H2.
  apply orb_true_iff in H1. apply orb_true_iff in H2.
  destruct H1 as [H1 | H1]; destruct H2 as [H2 | H2];
    try apply andb_true_iff in H1; try apply andb_true_iff in H2;
    try apply Z.ltb_lt in H1; try apply Z.ltb_lt in H2.
  - lia.
  - destruct H2 as [E _]. apply Z.eqb_eq in E. lia.
  - destruct H1 as [E _]. apply Z.eqb_eq in E. lia.
  - destruct H1 as [E1 L1]. destruct H2 as [E2 L2].
    apply Z.eqb_eq in E1. apply negb_true_iff in L1, L2.
    split; [exact E1 |]. exact (str_ltb_total _ _ L2 L1).
Qed.

Lemma insert_sorted_Permutation (a : Appointment.t) (l : list Appointment.t) :
  Permutation (insert_sorted a l) (a :: l).
Proof.
  induction l as [| b l IH]; simpl.
  - apply Permutation_refl.
  - destruct (sort_leb a b); [apply Permutation_refl |].
    apply perm_trans with (b :: a :: l); [now apply perm_skip | apply perm_swap].
Qed.

Lemma sort_appointments_Permutation (l : list Appointment.t) :
  Permutation (sort_appointments l) l.
Proof.
  unfold sort_appointments. induction l as [| a l IH]; simpl.
  - apply perm_nil.
  - apply perm_trans with (a :: fold_right insert_sorted [] l);
      [apply insert_sorted_Permutation | now apply perm_skip].
Qed.

(** Two sorted rearrangements of one list are the same list, when the
    order decides between any two of its members. *)
Lemma sorted_rearrangement_unique (l1 l2 : list Appointment.t) :
  StronglySorted in_order l1 -> StronglySorted in_order l2 ->
  Permutation l1 l2 ->
  (forall a b, In a l1 -> In b l1 -> in_order a b -> in_order b a -> a = b) ->
  l1 = l2.
Proof.
  revert l2. induction l1 as [| x l1 IH]; intros l2 S1 S2 P Hd.
  - apply Permutation_nil in P. now subst.
  - destruct l2 as [| y l2];
      [apply Permutation_sym, Permutation_nil in P; discriminate |].
    apply StronglySorted_inv in S1. destruct S1 as [S1 F1].
    apply StronglySorted_inv in S2. destruct S2 as [S2 F2].
    rewrite Forall_forall in F1, F2.
    assert (Hy : In y (x :: l1))
      by (apply (Permutation_in y (Permutation_sym P)); left; reflexivity).
    assert (Hx : In x (y :: l2))
      by (apply (Permutation_in x P); left; reflexivity).
    assert (E : x = y).
    { destruct Hy as [Hy | Hy]; [exact Hy |].
      destruct Hx as [Hx | Hx]; [now symmetry |].
      apply Hd; [left; reflexivity | right; exact Hy | now apply F1 | now apply F2]. }
    subst y. f_equal.
    apply IH; [exact S1 | exact S2 | exact (Permutation_cons_inv P) |].
    intros a b Ha Hb. apply Hd; right; assumption.
Qed.

Lemma sort_appointments_StronglySorted (l : list Appointment.t) :
  StronglySorted in_order (sort_appointments l).
Proof.
  apply Sorted_StronglySorted.
  - intros a b c. apply in_order_trans.
  - apply sort_appointments_Sorted.
Qed.

(** The sort of a rearrangement is the sort of the list, when no two
    members have the same two keys. *)
Lemma sort_appointments_perm (l1 l2 : list Appointment.t) :
  Permutation l1 l2 ->
  (forall a b, In a l2 -> In b l2 -> in_order a b -> in_order b a -> a = b) ->
  sort_appointments l1 = sort_appointments l2.
Proof.
  intros P Hd.
  apply sorted_rearrangement_unique; try apply sort_appointments_StronglySorted.
  - apply perm_trans with l1; [apply sort_appointments_Permutation |].
    apply perm_trans with l2; [exact P |].
    apply Permutation_sym, sort_appointments_Permutation.
  - intros a b Ha Hb. apply Hd.
    + apply (Permutation_in a P). now apply in_sort_appointments.
    + apply (Permutation_in b P). now apply in_sort_appointments.
Qed.

(** X13: a listing is in the order of the cursor, by date and then by
    start.  When no two matching appointments have both the same
    appointmentDate and the same timeSlot.start, the pages 1 to [pages] of
    one query, each served by a request of its own with whatever order of
    scan, put end to end are the sorted result: every matching appointment
    is returned exactly once.  (With two appointments equal in both keys the
    sort fixes no order between them, and neither does this.) *)
Theorem X13_pages_cover_the_sorted_result :
  forall (scan : nat -> list Appointment.t -> list Appointment.t)
         (user : User.t) (q : ListQuery) (db : Store)
         (found : list Appointment.t) (pg : Pagination),
    (forall p l, Permutation (scan p l) l) ->
    (forall a b,
        In a (appointments db) -> In b (appointments db) ->
        satisfies (list_filter user q) a = true ->
        satisfies (list_filter user q) b = true ->
        Appointment.appointmentDate a = Appointment.appointmentDate b ->
        start (Appointment.timeSlot a) = start (Appointment.timeSlot b) ->
        a = b) ->
    get_appointments_in (scan 0%nat) user q db = Listed found pg ->
    Sorted in_order found /\
    flat_map
      (fun p => listed (get_appointments_in (scan p) user (with_page q (Z.of_nat p)) db))
      (seq 1 (Z.to_nat (pages pg)))
    = sort_appointments (filter (satisfies (list_filter user q)) (appointments db)) /\
    Permutation
      (flat_map
         (fun p => listed (get_appointments_in (scan p) user (with_page q (Z.of_nat p)) db))
         (seq 1 (Z.to_nat (pages pg))))
      (filter (satisfies (list_filter user q)) (appointments db)).
Proof.
  intros scan user q db found pg Hscan Hkeys G.
  apply get_appointments_in_listed in G. destruct G as (Hval & Hcast & -> & ->).
  destruct (validatePagination_ok _ _ Hval) as [Hp Hl].
  set (limit := parseInt_or (l_limit q) 10) in *.
  set (matching := filter (satisfies (list_filter user q)) (appointments db)) in *.
  assert (Hdistinct : forall a b, In a matching -> In b matching ->
                                  in_order a b -> in_order b a -> a = b).
  { intros a b Ha Hb Hab Hba. subst matching.
    apply filter_In in Ha. apply filter_In in Hb.
    destruct (in_order_antisym a b Hab Hba) as [Hdate Hstart].
    apply Hkeys; tauto. }
  assert (Hsame : forall p, sort_appointments (scan p matching) = sort_appointments matching).
  { intro p. apply sort_appointments_perm; [apply Hscan | exact Hdistinct]. }
  assert (Hpages :
            flat_map
              (fun p => listed (get_appointments_in (scan p) user
                                  (with_page q (Z.of_nat p)) db))
              (seq 1 (Z.to_nat
                        (pages
                           (mkPagination (parseInt_or (l_page q) 1)
                              (ceil_div (Z.of_nat (List.length matching)) limit)
                              (Z.of_nat (List.length matching))
                              (parseInt_or (l_page q) 1
                               <? ceil_div (Z.of_nat (List.length matching)) limit)
                              (1 <? parseInt_or (l_page q) 1)))))
            = sort_appointments matching).
  { simpl pages.
    set (t := Z.of_nat (List.length matching)).
    destruct (ceil_div_spec t limit ltac:(subst t; lia) ltac:(lia)) as (_ & C2 & C3 & _).
    rewrite (flat_map_ext_in _
               (fun p => firstn (Z.to_nat limit)
                           (skipn ((p - 1) * Z.to_nat limit) (sort_appointments matching)))).
    + rewrite pages_concat. apply firstn_all2.
      rewrite length_sort_appointments.
      apply Nat2Z.inj_le. rewrite Nat2Z.inj_mul, !Z2Nat.id by lia. exact C2.
    + intros p Hp'. apply in_seq in Hp'.
      unfold get_appointments_in, with_page. simpl.
      assert (V : validatePagination (AnInt (Z.of_nat p)) (l_limit q) = []).
      { unfold validatePagination in *. apply app_eq_nil in Hval.
        destruct Hval as [_ Hlim]. rewrite Hlim, app_nil_r.
        apply check_nil. apply Z.leb_le. lia. }
      rewrite V.
      change (list_filter user
                (mkListQuery (AnInt (Z.of_nat p)) (l_limit q) (l_status q) (l_date q)
                   (l_doctorId q) (l_patientId q)))
        with (list_filter user q).
      rewrite Hcast. simpl. fold limit. fold matching. rewrite Hsame.
      unfold skip_limit. f_equal. f_equal.
      assert (E : (Z.of_nat p =? 0) = false) by (apply Z.eqb_neq; lia).
      rewrite E.
      replace (Z.of_nat p - 1) with (Z.of_nat (p - 1)) by lia.
      rewrite Z2Nat.inj_mul, Nat2Z.id by lia. reflexivity. }
  split; [| split].
  - unfold skip_limit. apply Sorted_firstn, Sorted_skipn, sort_appointments_Sorted.
  - exact Hpages.
  - rewrite Hpages. apply sort_appointments_Permutation.
Qed.

Lemma X13_pages_cover_the_sorted_result_witness :
  flat_map
    (fun p => listed (get_appointments_in (Cases.zigzag p) Sample.D
                        (with_page (mkListQuery NoInt (AnInt 1) None None None None)
                           (Z.of_nat p)) Cases.booked))
    (seq 1 (Z.to_nat 2))
  = sort_appointments
      (filter (satisfies (list_filter Sample.D
                            (mkListQuery NoInt (AnInt 1) None None None None)))
         (appointments Cases.booked)).
Proof.
  apply (X13_pages_cover_the_sorted_result Cases.zigzag Sample.D
           (mkListQuery NoInt (AnInt 1) None None None None) Cases.booked
           (listed (get_appointments_in (Cases.zigzag 0) Sample.D
                      (mkListQuery NoInt (AnInt 1) None None None None) Cases.booked))
           (mkPagination 1 2 2 true false)).
  - intros p l. unfold Cases.zigzag. destruct (Nat.even p).
    + apply Permutation_sym, Permutation_rev.
    + apply Permutation_refl.
  - intros a b Ha Hb _ _ _ Hstart. vm_compute in Ha, Hb.
    destruct Ha as [<- | [<- | []]]; destruct Hb as [<- | [<- | []]];
      try reflexivity; discriminate Hstart.
  - reflexivity.
Defined.

(** ** The role gates *)

Lemma role_in_spec (r : Role) (l : list Role) : role_in r l = true <-> In r l.
Proof.
  unfold role_in. rewrite existsb_exists. split.
  - intros (x & Hx & E). apply role_eqb_eq in E. now subst.
  - intro H. exists r. split; [exact H | now apply role_eqb_eq].
Qed.

(** X14: [authorizeOwnerOrRole] refuses an authenticated caller exactly
    when the caller is not the owner of the resource, is not an admin, and
    a role list was given that lacks the caller's role.  So a caller whose
    role is listed passes for every resource, their own or not: the gate of
    the profile update, which lists all four roles, refuses nobody. *)
Theorem X14_owner_or_role_gate :
  forall (roles : list Role) (u : User.t) (resourceUserId : ObjectId),
    (authorizeOwnerOrRole roles (Some u) resourceUserId = None <->
     User._id u = resourceUserId \/ User.role u = Admin \/ roles = [] \/
     In (User.role u) roles) /\
    (authorizeOwnerOrRole roles (Some u) resourceUserId <> None ->
     exists m, authorizeOwnerOrRole roles (Some u) resourceUserId
               = Some (mkResponse 403 (Message m))) /\
    authorizeOwnerOrRole [Admin; Patient; Doctor; Nurse] (Some u) resourceUserId = None.
Proof.
  intros roles u rid. unfold authorizeOwnerOrRole.
  split; [| split].
  - destruct (User._id u =? rid) eqn:Eo; simpl.
    { apply Z.eqb_eq in Eo. tauto. }
    apply Z.eqb_neq in Eo.
    destruct (role_eqb (User.role u) Admin) eqn:Ea; simpl.
    { apply role_eqb_eq in Ea. tauto. }
    assert (Ha : User.role u <> Admin)
      by (intro H; apply role_eqb_eq in H; congruence).
    destruct (existsb (role_eqb (User.role u)) roles) eqn:Er.
    + rewrite andb_false_r. split; [intros _ | reflexivity].
      right. right. right. apply role_in_spec. exact Er.
    + destruct roles as [| r roles].
      * simpl. split; [intros _; right; right; left; reflexivity | reflexivity].
      * cbn [List.length Nat.eqb negb andb]. split; [discriminate |].
        intros [H | [H | [H | H]]]; try contradiction; try discriminate.
        apply role_in_spec in H. unfold role_in in H. congruence.
  - destruct ((User._id u =? rid) || role_eqb (User.role u) Admin)%bool;
      [intro H; contradiction |].
    destruct (negb (Nat.eqb (List.length roles) 0)
              && negb (existsb (role_eqb (User.role u)) roles))%bool;
      [| intro H; contradiction].
    intros _. eexists. reflexivity.
  - destruct (User._id u =? rid); destruct (User.role u); reflexivity.
Qed.

Lemma X14_owner_or_role_gate_witness :
  authorizeOwnerOrRole [Admin; Patient; Doctor; Nurse] (Some Sample.Q) 1 = None.
Proof.
  apply (X14_owner_or_role_gate [Admin; Patient; Doctor; Nurse] Sample.Q 1).
Defined.

(** The role gates written into [post_appointment] and
    [delete_appointment] are the answers of [authorize('patient')] and
    [authorize('admin')]. *)
Lemma inlined_gates_are_authorize (now : Z) (user : User.t) (b : CreateBody)
  (id : ObjectId) (db : Store) (refusal : Response) :
  (authorize [Patient] (Some user) = Some refusal ->
   post_appointment now user b db = (refusal, db)) /\
  (authorize [Admin] (Some user) = Some refusal ->
   delete_appointment user id db = (refusal, db)).
Proof.
  unfold authorize, post_appointment, delete_appointment. simpl.
  rewrite !orb_false_r.
  split; intro H.
  - destruct (role_eqb (User.role user) Patient); simpl in *; [discriminate |].
    inversion H. reflexivity.
  - destruct (role_eqb (User.role user) Admin); simpl in *; [discriminate |].
    inversion H. reflexivity.
Qed.

(** ** Every time the schema accepts *)

Lemma digit_char_code (c : ascii) :
  (48 <= Js.code c)%nat -> digit_char (Js.code c - 48) = c.
Proof.
  intro H. unfold digit_char, Js.code in *.
  replace (48 + (nat_of_ascii c - 48))%nat with (nat_of_ascii c) by lia.
  apply ascii_nat_embedding.
Qed.

Lemma colon_char (c : ascii) : Js.is_colon c = true -> c = ":"%char.
Proof.
  unfold Js.is_colon, Js.code. intro H. apply Nat.eqb_eq in H.
  rewrite <- (ascii_nat_embedding c), H. reflexivity.
Qed.

Lemma in_range_nat (lo hi : nat) (c : ascii) :
  Js.in_range lo hi c = true -> (lo <= Js.code c <= hi)%nat.
Proof.
  unfold Js.in_range. rewrite andb_true_iff, !Nat.leb_le. tauto.
Qed.

Lemma in_minutes_block (pad : bool) (h1 h2 m1 m2 : nat) :
  (m1 < 6)%nat -> (m2 < 10)%nat ->
  In (time_text pad h1 h2 m1 m2)
    (flat_map (fun m1 => map (fun m2 => time_text pad h1 h2 m1 m2) (seq 0 10)) (seq 0 6)).
Proof.
  intros H1 H2. apply in_flat_map. exists m1. split; [apply in_seq; lia |].
  apply in_map. apply in_seq. lia.
Qed.

(** [all_times] misses no string the pattern accepts. *)
Lemma all_times_complete (s : string) :
  Js.matches_time s = true -> In s all_times.
Proof.
  intro H. unfold Js.matches_time in H.
  destruct s as [| a [| b [| c [| d [| e [| f s]]]]]]; try discriminate H.
  - simpl in H.
    apply andb_true_iff in H. destruct H as [H Hm2].
    apply andb_true_iff in H. destruct H as [H Hm1].
    apply andb_true_iff in H. destruct H as [Hh Hc].
    apply in_range_nat in Hh, Hm1, Hm2. apply colon_char in Hc. subst b.
    unfold all_times. apply in_or_app. left.
    replace (String a (String ":" (String c (String d EmptyString))))
      with (time_text false 0 (Js.code a - 48) (Js.code c - 48) (Js.code d - 48))
      by (unfold time_text; rewrite !digit_char_code by lia; reflexivity).
    apply in_flat_map. exists (Js.code a - 48)%nat. split; [apply in_seq; lia |].
    apply (in_minutes_block false 0); lia.
  - simpl in H.
    apply andb_true_iff in H. destruct H as [H Hm2].
    apply andb_true_iff in H. destruct H as [H Hm1].
    apply andb_true_iff in H. destruct H as [Hh Hc].
    apply in_range_nat in Hm1, Hm2. apply colon_char in Hc. subst c.
    unfold all_times. apply in_or_app. right.
    assert (Hhours : (48 <= Js.code a)%nat /\ (48 <= Js.code b)%nat /\
                     (Js.code a - 48 < 3)%nat /\
                     (Js.code b - 48 < (if Nat.eqb (Js.code a - 48) 2 then 4 else 10))%nat).
    { apply orb_true_iff in Hh. destruct Hh as [Hh | Hh];
        apply andb_true_iff in Hh; destruct Hh as [Ha Hb].
      - apply in_range_nat in Ha, Hb.
        assert (E : Nat.eqb (Js.code a - 48) 2 = false) by (apply Nat.eqb_neq; lia).
        rewrite E. lia.
      - apply Nat.eqb_eq in Ha. apply in_range_nat in Hb.
        rewrite Ha. simpl. lia. }
    destruct Hhours as (Ha & Hb & Ha3 & Hb4).
    replace (String a (String b (String ":" (String d (String e EmptyString)))))
      with (time_text true (Js.code a - 48) (Js.code b - 48) (Js.code d - 48)
              (Js.code e - 48))
      by (unfold time_text; rewrite !digit_char_code by lia; reflexivity).
    apply in_flat_map. exists (Js.code a - 48)%nat. split; [apply in_seq; lia |].
    apply in_flat_map. exists (Js.code b - 48)%nat. split; [apply in_seq; lia |].
    apply (in_minutes_block true); lia.
Qed.

(** A check that holds of each entry of [all_times] holds of every time
    the pattern accepts. *)
Lemma for_all_times (P : string -> bool) :
  forallb P all_times = true ->
  forall s, Js.matches_time s = true -> P s = true.
Proof.
  intros H s Hs. rewrite forallb_forall in H. apply H. now apply all_times_complete.
Qed.

Lemma matched_minutes (s : string) :
  Js.matches_time s = true ->
  exists m, Js.minutes s = Some m /\ 0 <= m < 1440.
Proof.
  intro Hs.
  pose proof (for_all_times
                (fun s => match Js.minutes s with
                          | Some m => (0 <=? m) && (m <? 1440)
                          | None => false
                          end)
                ltac:(vm_compute; reflexivity) s Hs) as H.
  simpl in H. destruct (Js.minutes s) as [m |]; [| discriminate].
  exists m. split; [reflexivity |].
  apply andb_true_iff in H. destruct H as [H1 H2].
  apply Z.leb_le in H1. apply Z.ltb_lt in H2. lia.
Qed.

(** ** What is stored is well formed *)

Lemma validate_inv (now : Z) (a : Appointment.t) :
  Appointment.validate now a = [] ->
  Js.matches_time (start (Appointment.timeSlot a)) = true /\
  Js.matches_time (end_ (Appointment.timeSlot a)) = true /\
  Appointment.isIn (Appointment.type a) Appointment.types = true /\
  Appointment.isIn (Appointment.priority a) Appointment.priorities = true /\
  1 <= Js.len (Appointment.reason a) <= 500.
Proof.
  unfold Appointment.validate. intro H.
  apply app_eq_nil in H; destruct H as [_ H].
  apply app_eq_nil in H; destruct H as [Hs H].
  apply app_eq_nil in H; destruct H as [He H].
  apply app_eq_nil in H; destruct H as [Hty H].
  apply app_eq_nil in H; destruct H as [Hre H].
  apply app_eq_nil in H; destruct H as [_ H].
  apply app_eq_nil in H; destruct H as [_ H].
  apply app_eq_nil in H; destruct H as [_ H].
  apply app_eq_nil in H; destruct H as [Hpr _].
  rewrite check_nil in *.
  apply andb_true_iff in Hs, He, Hre.
  destruct Hs as [_ Hs]. destruct He as [_ He]. destruct Hre as [Ht Hl].
  apply Z.leb_le in Hl.
  repeat split; try assumption.
  destruct (Appointment.reason a); [discriminate Ht |].
  unfold Js.len. simpl. lia.
Qed.

Lemma saved_well_formed (now : Z) (isNew : bool) (a : Appointment.t)
  (db db' : Store) :
  save now isNew a db = inr db' -> well_formed a.
Proof.
  intro S. apply save_ok in S. destruct S as (Hval & Hhook & _).
  destruct (validate_inv now a Hval) as (Hs & He & Hty & Hpr & Hre).
  destruct (matched_minutes _ Hs) as (ms & Hms & Bs).
  destruct (matched_minutes _ He) as (me & Hme & Be).
  unfold well_formed. repeat split; try assumption; try lia.
  exists ms, me. repeat split; try assumption; try lia.
  unfold Appointment.hook_rejects in Hhook.
  rewrite (matches_time_truthy _ Hs), (matches_time_truthy _ He), Hms, Hme in Hhook.
  simpl in Hhook. rewrite Z.geb_leb in Hhook. apply Z.leb_gt in Hhook. lia.
Qed.

(** X15: every stored appointment stays well formed under every request:
    its start and end match the HH:MM pattern and read as minutes of the
    day with start strictly before end, its type and priority are of the
    enumerations, and its reason has between 1 and 500 characters. *)
Theorem X15_stored_appointments_stay_well_formed :
  forall (now : Z) (user : User.t) (r : Request) (db : Store),
    all_well_formed db -> all_well_formed (snd (handle now user r db)).
Proof.
  intros now user r db Hwf.
  destruct (handle_writes now user r db) as [-> | [(isNew & a & Hsave) | (id & ->)]].
  - exact Hwf.
  - pose proof (saved_well_formed _ _ _ _ _ Hsave) as Ha.
    apply save_ok in Hsave. destruct Hsave as (_ & _ & _ & _ & ->).
    intros x Hx. destruct isNew; simpl in Hx.
    + apply in_app_iff in Hx. destruct Hx as [Hx | [<- | []]]; auto.
    + apply in_replace in Hx. destruct Hx as [-> | [Hx _]]; auto.
  - intros x Hx. simpl in Hx. apply filter_In in Hx. apply Hwf. tauto.
Qed.

Lemma X15_stored_appointments_stay_well_formed_witness :
  all_well_formed
    (snd (handle Sample.now Sample.P (Sample.book "09:00" "09:30") Sample.clinic)).
Proof.
  apply (X15_stored_appointments_stay_well_formed Sample.now Sample.P
           (Sample.book "09:00" "09:30") Sample.clinic).
  intros a Ha. simpl in Ha. destruct Ha.
Defined.

(** ** The booking page *)

(** X16: for every start time the HH:MM pattern accepts, [getEndTime]
    returns the time thirty minutes later, zero-padded: up to 23:29 the
    result matches the pattern and the slot the page builds from it passes
    the time-order hook; from 23:30 on the result reads 24:mm, which the
    pattern refuses. *)
Theorem X16_getEndTime_is_thirty_minutes_later :
  forall (s : string),
    Js.matches_time s = true ->
    exists m,
      Js.minutes s = Some m /\
      (m < 1410 ->
       padded (Frontend.getEndTime s) = true /\
       Js.minutes (Frontend.getEndTime s) = Some (m + 30) /\
       Appointment.hook_rejects (Frontend.handleTimeSlotSelect s) = false) /\
      (1410 <= m -> Js.matches_time (Frontend.getEndTime s) = false).
Proof.
  intros s Hs.
  pose proof (for_all_times
                (fun s =>
                   match Js.minutes s with
                   | Some m =>
                       if m <? 1410
                       then padded (Frontend.getEndTime s)
                            && match Js.minutes (Frontend.getEndTime s) with
                               | Some e => e =? m + 30
                               | None => false
                               end
                            && negb (Appointment.hook_rejects (Frontend.handleTimeSlotSelect s))
                       else negb (Js.matches_time (Frontend.getEndTime s))
                   | None => false
                   end)
                ltac:(vm_compute; reflexivity) s Hs) as H.
  simpl in H. destruct (Js.minutes s) as [m |]; [| discriminate].
  exists m. split; [reflexivity |]. split.
  - intro Hm. apply Z.ltb_lt in Hm. rewrite Hm in H.
    apply andb_true_iff in H. destruct H as [H Hh].
    apply andb_true_iff in H. destruct H as [Hp He].
    split; [exact Hp |]. split.
    + destruct (Js.minutes (Frontend.getEndTime s)) as [e |]; [| discriminate].
      apply Z.eqb_eq in He. now subst.
    + now apply negb_true_iff.
  - intro Hm. apply Z.ltb_ge in Hm. rewrite Hm in H. now apply negb_true_iff.
Qed.

Lemma X16_getEndTime_is_thirty_minutes_later_witness :
  exists m,
    Js.minutes "09:30" = Some m /\
    (m < 1410 ->
     padded (Frontend.getEndTime "09:30") = true /\
     Js.minutes (Frontend.getEndTime "09:30") = Some (m + 30) /\
     Appointment.hook_rejects (Frontend.handleTimeSlotSelect "09:30") = false) /\
    (1410 <= m -> Js.matches_time (Frontend.getEndTime "09:30") = false).
Proof.
  apply (X16_getEndTime_is_thirty_minutes_later "09:30"). reflexivity.
Defined.

Lemma page_made_meet (s1 s2 : string) :
  In s1 workingHours -> In s2 workingHours ->
  intervals_overlap (Frontend.handleTimeSlotSelect s1) (Frontend.handleTimeSlotSelect s2)
  = true ->
  s1 = s2.
Proof.
  intros H1 H2 Ho.
  assert (C : forallb
                (fun a =>
                   forallb
                     (fun b =>
                        negb (intervals_overlap (Frontend.handleTimeSlotSelect a)
                                (Frontend.handleTimeSlotSelect b))
                        || String.eqb a b)
                     workingHours)
                workingHours = true) by (vm_compute; reflexivity).
  rewrite forallb_forall in C. specialize (C s1 H1).
  rewrite forallb_forall in C. specialize (C s2 H2).
  rewrite Ho in C. simpl in C. now apply String.eqb_eq.
Qed.

(** X17: when every active appointment carries a time slot made by the
    booking page (a start of the working-hours template with the end
    [getEndTime] gives it), the uniqueness kept by the index is the interval
    invariant: two distinct active appointments of one doctor on one date
    do not overlap. *)
Theorem X17_page_made_slots_never_overlap :
  forall (db : Store),
    unique_active_slots db ->
    (forall a, In a (appointments db) -> Appointment.is_active a = true ->
          page_made (Appointment.timeSlot a)) ->
    no_overlap db.
Proof.
  intros db Huniq Hpage a b Ha Hb Hid Haa Hab Hd Ht.
  destruct (intervals_overlap (Appointment.timeSlot a) (Appointment.timeSlot b)) eqn:O;
    [| reflexivity].
  exfalso.
  destruct (Hpage a Ha Haa) as [Hsa Hea]. destruct (Hpage b Hb Hab) as [Hsb Heb].
  assert (Fa : Appointment.timeSlot a
               = Frontend.handleTimeSlotSelect (start (Appointment.timeSlot a))).
  { unfold Frontend.handleTimeSlotSelect. rewrite <- Hea.
    destruct (Appointment.timeSlot a); reflexivity. }
  assert (Fb : Appointment.timeSlot b
               = Frontend.handleTimeSlotSelect (start (Appointment.timeSlot b))).
  { unfold Frontend.handleTimeSlotSelect. rewrite <- Heb.
    destruct (Appointment.timeSlot b); reflexivity. }
  rewrite Fa, Fb in O.
  pose proof (page_made_meet _ _ Hsa Hsb O) as E.
  apply (Huniq a b Ha Hb Hid Haa Hab Hd Ht).
  rewrite Fa, Fb, E. reflexivity.
Qed.

Lemma X17_page_made_slots_never_overlap_witness : no_overlap Cases.booked.
Proof.
  apply (X17_page_made_slots_never_overlap Cases.booked).
  - apply (run_keeps_index Sample.now
             [(Sample.P, Sample.book "09:00" "09:30");
              (Sample.Q, Sample.book "14:00" "14:30")] Sample.clinic).
    apply empty_index_invariant.
  - intros a Ha _. vm_compute in Ha.
    destruct Ha as [<- | [<- | []]]; split; vm_compute; auto 12.
Defined.

(** ** The appointments page *)

(** X18: every button the appointments page shows for an appointment sends
    a status the server lets through: the appointment is pending or
    confirmed, the status is one of the five, the caller passes the access
    middleware and the status gate, and so the request is answered 200, or
    500 when the save fails, never 400, 403 or 404.  To a patient the page
    shows a button only while the appointment is pending. *)
Theorem X18_offered_actions_are_authorised :
  forall (now : Z) (user : User.t) (id : ObjectId) (notes : option string)
         (db : Store) (a : Appointment.t) (s : string),
    findById id db = Some a ->
    In s (Frontend.renderActionButtons user a) ->
    Appointment.is_active a = true /\
    (User.role user = Patient -> Appointment.status a = Pending /\ s = "cancelled") /\
    (exists st, status_of_string s = Some st /\ canUpdateStatus user a st = true) /\
    (status_code (fst (patch_status now user id (mkStatusBody (Some s) notes) db)) = 200 \/
     status_code (fst (patch_status now user id (mkStatusBody (Some s) notes) db)) = 500).
Proof.
  intros now user id notes db a s Hfind Hin.
  assert (Core : Appointment.is_active a = true /\
                 (User.role user = Patient ->
                  Appointment.status a = Pending /\ s = "cancelled") /\
                 exists st, status_of_string s = Some st /\
                            canUpdateStatus user a st = true).
  { unfold Frontend.renderActionButtons, Frontend.canUpdateStatus in Hin.
    unfold canUpdateStatus, Appointment.is_active.
    rewrite (Z.eqb_sym (User._id user) (Appointment.doctor a)).
    rewrite (Z.eqb_sym (User._id user) (Appointment.patient a)).
    destruct (User.role user); destruct (Appointment.status a);
      destruct (Appointment.doctor a =? User._id user);
      destruct (Appointment.patient a =? User._id user);
      simpl in Hin;
      repeat (destruct Hin as [<- | Hin]);
      try contradiction;
      (split; [reflexivity |];
       split; [first [intros _; split; reflexivity | discriminate] |];
       eexists; split; reflexivity). }
  destruct Core as (Hact & Hpat & (st & Hst & Hcan)).
  split; [exact Hact |]. split; [exact Hpat |]. split; [eauto |].
  unfold patch_status.
  rewrite (canUpdateStatus_access user id db a st Hfind Hcan).
  unfold requested_status. simpl. rewrite Hst, Hcan. simpl.
  destruct (save now false (apply_status user a st notes) db); simpl; auto.
Qed.

Lemma X18_offered_actions_are_authorised_witness :
  status_code
    (fst (patch_status Sample.now Sample.D 100 (mkStatusBody (Some "confirmed") None)
            Cases.booked)) = 200 \/
  status_code
    (fst (patch_status Sample.now Sample.D 100 (mkStatusBody (Some "confirmed") None)
            Cases.booked)) = 500.
Proof.
  apply (X18_offered_actions_are_authorised Sample.now Sample.D 100 None Cases.booked
           (new_appointment Sample.P (Sample.booking "09:00" "09:30") 10
              1749513600000 Sample.clinic) "confirmed").
  - reflexivity.
  - vm_compute. left. reflexivity.
Defined.

(** ** Reminders *)

(** X19: the notification [createAppointmentReminder] builds is scheduled
    strictly in the future and strictly before the appointment, by 2 hours
    or 30 minutes for those two reminder types and by 24 hours for any
    other; it goes to the appointment's patient, and its priority is high
    exactly for the 30-minute reminder.  When the reminder time has passed,
    nothing is scheduled. *)
Theorem X19_reminders_lie_ahead_of_the_appointment :
  forall (now : Z) (id : ObjectId) (reminderType : string) (db : Store)
         (a : Appointment.t),
    findById id db = Some a ->
    (forall delay,
        EmailNotification.reminderDelay reminderType = Some delay ->
        Appointment.appointmentDate a - delay <= now ->
        EmailNotification.createAppointmentReminder now id reminderType db
        = EmailNotification.NotScheduled) /\
    (forall r,
        EmailNotification.createAppointmentReminder now id reminderType db
        = EmailNotification.Scheduled r ->
        now < EmailNotification.scheduledFor r < Appointment.appointmentDate a /\
        (Appointment.appointmentDate a - EmailNotification.scheduledFor r
         = (if String.eqb reminderType "2_hours" then 7200000
            else if String.eqb reminderType "30_minutes" then 1800000
                 else 86400000)) /\
        EmailNotification.recipient r = Appointment.patient a /\
        EmailNotification.entityId r = id /\
        (EmailNotification.priority r = "high" <-> reminderType = "30_minutes")).
Proof.
  intros now id ty db a Hfind.
  unfold EmailNotification.createAppointmentReminder. rewrite Hfind.
  assert (Hdelay : forall delay,
             EmailNotification.reminderDelay ty = Some delay ->
             delay = (if String.eqb ty "2_hours" then 7200000
                      else if String.eqb ty "30_minutes" then 1800000 else 86400000)).
  { intros delay. unfold EmailNotification.reminderDelay.
    destruct (String.eqb ty "24_hours") eqn:E1.
    - apply String.eqb_eq in E1. subst ty. intro H. inversion H. reflexivity.
    - destruct (String.eqb ty "2_hours"); [intro H; inversion H; reflexivity |].
      destruct (String.eqb ty "30_minutes"); [intro H; inversion H; reflexivity |].
      destruct (existsb (String.eqb ty) EmailNotification.inherited);
        [discriminate | intro H; inversion H; reflexivity]. }
  split.
  - intros delay Hd Hle. rewrite Hd. simpl. apply Z.leb_le in Hle. rewrite Hle.
    reflexivity.
  - intros r.
    destruct (EmailNotification.reminderDelay ty) as [delay |] eqn:D; simpl.
    + destruct (Appointment.appointmentDate a - delay <=? now) eqn:L; [discriminate |].
      apply Z.leb_gt in L.
      destruct (findUser (Appointment.patient a) db) as [p |] eqn:Fp; [| discriminate].
      destruct (findUser (Appointment.doctor a) db); [| discriminate].
      intro H. inversion H. simpl.
      unfold findUser in Fp. apply find_some in Fp. destruct Fp as [_ Fp].
      apply Z.eqb_eq in Fp.
      pose proof (Hdelay delay eq_refl) as Hd.
      assert (Hpos : 0 < delay).
      { rewrite Hd. destruct (String.eqb ty "2_hours"); [lia |].
        destruct (String.eqb ty "30_minutes"); lia. }
      split; [lia |]. split; [rewrite <- Hd; lia |].
      split; [exact Fp |]. split; [reflexivity |].
      destruct (String.eqb ty "30_minutes") eqn:E.
      * apply String.eqb_eq in E. tauto.
      * split; [discriminate |]. intro Hty. subst ty. discriminate E.
    + destruct (findUser (Appointment.patient a) db); [| discriminate].
      destruct (findUser (Appointment.doctor a) db); discriminate.
Qed.

Lemma X19_reminders_lie_ahead_of_the_appointment_witness :
  Sample.now
  < EmailNotification.scheduledFor
      (EmailNotification.mkReminder 1 100 1749506400000 "normal")
  < 1749513600000.
Proof.
  destruct (X19_reminders_lie_ahead_of_the_appointment Sample.now 100 "2_hours"
              Cases.booked
              (new_appointment Sample.P (Sample.booking "09:00" "09:30") 10
                 1749513600000 Sample.clinic) eq_refl) as (_ & H).
  destruct (H (EmailNotification.mkReminder 1 100 1749506400000 "normal") eq_refl)
    as (Hb & _).
  exact Hb.
Defined.

(** ** Health records: who reads what *)

Lemma in_insert_by (A : Type) (leb : A -> A -> bool) (a x : A) (l : list A) :
  In x (insert_by A leb a l) <-> x = a \/ In x l.
Proof.
  induction l as [| b l IH]; simpl.
  - intuition.
  - destruct (leb a b); simpl; [intuition |].
    rewrite IH. intuition.
Qed.

Lemma in_sort_by (A : Type) (leb : A -> A -> bool) (x : A) (l : list A) :
  In x (sort_by A leb l) <-> In x l.
Proof.
  unfold sort_by. induction l as [| a l IH]; simpl.
  - tauto.
  - rewrite in_insert_by, IH. intuition.
Qed.

Lemma length_sort_by (A : Type) (leb : A -> A -> bool) (l : list A) :
  List.length (sort_by A leb l) = List.length l.
Proof.
  unfold sort_by. induction l as [| a l IH]; simpl; [reflexivity |].
  rewrite <- IH. generalize (fold_right (insert_by A leb) [] l). intro m.
  induction m as [| b m IHm]; simpl; [reflexivity |].
  destruct (leb a b); simpl; [reflexivity | now rewrite IHm].
Qed.

Lemma in_page (A : Type) (x : A) (n k : nat) (l : list A) :
  In x (firstn n (skipn k l)) -> In x l.
Proof.
  intro H. rewrite <- (firstn_skipn k l). apply in_or_app. right.
  rewrite <- (firstn_skipn n (skipn k l)). apply in_or_app. left. exact H.
Qed.

Lemma get_records_listed (Rest : Type) (user : User.t)
  (q : HealthRecord.ListQuery) (db : list (HealthRecord.t Rest)) :
  validatePagination (HealthRecord.page q) (HealthRecord.limit q) = [] ->
  HealthRecord.castable (HealthRecord.list_filter user q) = true ->
  HealthRecord.listed Rest (HealthRecord.get_records Rest user q db)
  = firstn (Z.to_nat (parseInt_or (HealthRecord.limit q) 10))
      (skipn
         (Z.to_nat ((parseInt_or (HealthRecord.page q) 1 - 1)
                    * parseInt_or (HealthRecord.limit q) 10))
         (sort_by (HealthRecord.t Rest) (HealthRecord.newest_first Rest)
            (filter (HealthRecord.satisfies Rest (HealthRecord.list_filter user q)) db))).
Proof.
  intros Hv Hc. unfold HealthRecord.get_records. rewrite Hv, Hc. reflexivity.
Qed.

(** X20: a listing of health records shows a patient only their own
    records, and a doctor or a nurse who names no patient only the records
    they provided; a doctor or a nurse who names a patient is shown that
    patient's records, whoever provided them.  Every listed record is a
    stored one and has the record type and priority asked for. *)
Theorem X20_record_listing_scope :
  forall (Rest : Type) (user : User.t) (q : HealthRecord.ListQuery)
         (db : list (HealthRecord.t Rest)) (r : HealthRecord.t Rest),
    In r (HealthRecord.listed Rest (HealthRecord.get_records Rest user q db)) ->
    In r db /\
    (User.role user = Patient -> HealthRecord.patient Rest r = User._id user) /\
    (User.role user = Doctor \/ User.role user = Nurse ->
     (HealthRecord.q_patient q = None -> HealthRecord.provider Rest r = User._id user) /\
     (forall p, HealthRecord.q_patient q = Some (GoodId p) ->
           HealthRecord.patient Rest r = p)) /\
    (forall s, HealthRecord.q_recordType q = Some s -> Js.truthy s = true ->
          HealthRecord.recordType Rest r = s) /\
    (forall s, HealthRecord.q_priority q = Some s -> Js.truthy s = true ->
          HealthRecord.priority Rest r = s).
Proof.
  intros Rest user q db r Hin.
  unfold HealthRecord.get_records in Hin.
  destruct (validatePagination (HealthRecord.page q) (HealthRecord.limit q));
    [| destruct Hin].
  destruct (HealthRecord.castable (HealthRecord.list_filter user q)); [| destruct Hin].
  simpl in Hin. apply in_page, in_sort_by, filter_In in Hin.
  destruct Hin as [Hdb Hsat]. split; [exact Hdb |].
  unfold HealthRecord.satisfies in Hsat.
  apply andb_true_iff in Hsat. destruct Hsat as [Hsat _].
  apply andb_true_iff in Hsat. destruct Hsat as [Hsat _].
  apply andb_true_iff in Hsat. destruct Hsat as [Hsat Hprio].
  apply andb_true_iff in Hsat. destruct Hsat as [Hsat Htype].
  apply andb_true_iff in Hsat. destruct Hsat as [Hpat Hprov].
  unfold HealthRecord.list_filter in *. simpl in *.
  split; [| split; [| split]].
  - intro Hr. rewrite Hr in Hpat. simpl in Hpat. now apply Z.eqb_eq in Hpat.
  - intro Hr. split.
    + intro Hq. rewrite Hq in *.
      destruct Hr as [Hr | Hr]; rewrite Hr in Hprov; simpl in Hprov;
        now apply Z.eqb_eq in Hprov.
    + intros p Hq. rewrite Hq in *.
      destruct Hr as [Hr | Hr]; rewrite Hr in Hpat; simpl in Hpat;
        now apply Z.eqb_eq in Hpat.
  - intros s Hs Ht. unfold HealthRecord.given in Htype. rewrite Hs, Ht in Htype.
    now apply String.eqb_eq in Htype.
  - intros s Hs Ht. unfold HealthRecord.given in Hprio. rewrite Hs, Ht in Hprio.
    now apply String.eqb_eq in Hprio.
Qed.

Lemma X20_record_listing_scope_witness :
  In (HealthRecord.mk unit 500 1 10 "diagnosis" 1747000000000 "normal" tt)
    [HealthRecord.mk unit 500 1 10 "diagnosis" 1747000000000 "normal" tt;
     HealthRecord.mk unit 501 2 10 "lab_result" 1747100000000 "high" tt] /\
  (User.role Sample.P = Patient ->
   HealthRecord.patient unit
     (HealthRecord.mk unit 500 1 10 "diagnosis" 1747000000000 "normal" tt)
   = User._id Sample.P).
Proof.
  destruct (X20_record_listing_scope unit Sample.P
              (HealthRecord.mkListQuery NoInt NoInt (Some (GoodId 2)) None None None None)
              [HealthRecord.mk unit 500 1 10 "diagnosis" 1747000000000 "normal" tt;
               HealthRecord.mk unit 501 2 10 "lab_result" 1747100000000 "high" tt]
              (HealthRecord.mk unit 500 1 10 "diagnosis" 1747000000000 "normal" tt))
    as (Hin & Hpat & _).
  - vm_compute. left. reflexivity.
  - split; assumption.
Defined.

(** X21: a single record is opened for an admin, for its provider and for
    its patient, and for nobody else: a doctor or a nurse who is neither is
    answered 403.  Yet the same doctor or nurse is shown that very record by
    the listing, on naming its patient in the query (here on the first page,
    the patient having at most the 100 records one page can hold). *)
Theorem X21_record_refused_singly_is_listed_by_patient :
  forall (Rest : Type) (user : User.t) (users : list User.t)
         (db : list (HealthRecord.t Rest)) (r : HealthRecord.t Rest),
    find (fun x => HealthRecord._id Rest x =? HealthRecord._id Rest r) db = Some r ->
    User.role user = Doctor \/ User.role user = Nurse ->
    User._id user <> HealthRecord.provider Rest r ->
    User._id user <> HealthRecord.patient Rest r ->
    (exists u, In u users /\ User._id u = HealthRecord.provider Rest r) ->
    (exists u, In u users /\ User._id u = HealthRecord.patient Rest r) ->
    (List.length
       (filter (fun x => (HealthRecord.patient Rest x =? HealthRecord.patient Rest r)%Z) db)
     <= 100)%nat ->
    HealthRecord.get_record Rest user (HealthRecord._id Rest r) users db
    = HealthRecord.Refused Rest 403 "Access denied" /\
    In r
      (HealthRecord.listed Rest
         (HealthRecord.get_records Rest user
            (HealthRecord.mkListQuery NoInt (AnInt 100)
               (Some (GoodId (HealthRecord.patient Rest r))) None None None None) db)).
Proof.
  intros Rest user users db r Hfind Hrole Hprov Hpat Hup Hupat Hlen.
  assert (Hadmin : role_eqb (User.role user) Admin = false)
    by (destruct Hrole as [-> | ->]; reflexivity).
  split.
  - unfold HealthRecord.get_record. rewrite Hfind, Hadmin.
    assert (K1 : existsb (fun u => User._id u =? HealthRecord.provider Rest r) users = true).
    { destruct Hup as (u & Hu & E). apply existsb_exists. exists u.
      split; [exact Hu | now apply Z.eqb_eq]. }
    assert (K2 : existsb (fun u => User._id u =? HealthRecord.patient Rest r) users = true).
    { destruct Hupat as (u & Hu & E). apply existsb_exists. exists u.
      split; [exact Hu | now apply Z.eqb_eq]. }
    rewrite K1, K2. simpl.
    apply Z.eqb_neq in Hprov, Hpat. rewrite Hprov, Hpat. reflexivity.
  - assert (F : HealthRecord.list_filter user
                  (HealthRecord.mkListQuery NoInt (AnInt 100)
                     (Some (GoodId (HealthRecord.patient Rest r))) None None None None)
                = HealthRecord.mkFilter (Some (GoodId (HealthRecord.patient Rest r)))
                    None None None None None)
      by (unfold HealthRecord.list_filter; destruct Hrole as [-> | ->]; reflexivity).
    rewrite get_records_listed; [| reflexivity | rewrite F; reflexivity].
    rewrite F.
    assert (S : forall x,
               HealthRecord.satisfies Rest
                 (HealthRecord.mkFilter (Some (GoodId (HealthRecord.patient Rest r)))
                    None None None None None) x
               = (HealthRecord.patient Rest x =? HealthRecord.patient Rest r)).
    { intro x. unfold HealthRecord.satisfies. simpl. now rewrite !andb_true_r. }
    rewrite (filter_ext _ _ S).
    cbn [HealthRecord.page HealthRecord.limit parseInt_or].
    change (Z.to_nat ((1 - 1) * (if 100 =? 0 then 10 else 100))) with 0%nat.
    cbn [skipn]. rewrite firstn_all2.
    + apply in_sort_by. apply filter_In. split.
      * apply find_some in Hfind. tauto.
      * apply Z.eqb_refl.
    + rewrite length_sort_by.
      change (if 100 =? 0 then 10 else 100) with 100.
      change (Z.to_nat 100) with 100%nat. exact Hlen.
Qed.

Lemma X21_record_refused_singly_is_listed_by_patient_witness :
  HealthRecord.get_record unit Cases.N 500 (users Sample.clinic)
    [HealthRecord.mk unit 500 1 10 "diagnosis" 1747000000000 "normal" tt]
  = HealthRecord.Refused unit 403 "Access denied" /\
  In (HealthRecord.mk unit 500 1 10 "diagnosis" 1747000000000 "normal" tt)
    (HealthRecord.listed unit
       (HealthRecord.get_records unit Cases.N
          (HealthRecord.mkListQuery NoInt (AnInt 100) (Some (GoodId 1)) None None None None)
          [HealthRecord.mk unit 500 1 10 "diagnosis" 1747000000000 "normal" tt])).
Proof.
  apply (X21_record_refused_singly_is_listed_by_patient unit Cases.N
           (users Sample.clinic)
           [HealthRecord.mk unit 500 1 10 "diagnosis" 1747000000000 "normal" tt]
           (HealthRecord.mk unit 500 1 10 "diagnosis" 1747000000000 "normal" tt)).
  - reflexivity.
  - right. reflexivity.
  - vm_compute. discriminate.
  - vm_compute. discriminate.
  - exists Sample.D. split; [vm_compute; auto | reflexivity].
  - exists Sample.P. split; [vm_compute; auto | reflexivity].
  - vm_compute. lia.
Defined.

(** ** From the availability answer to the booking *)

(** X22: a slot the availability answer lists as available can be booked:
    a bookable request for the queried doctor, at an instant of the queried
    day and for a time slot starting at that slot, is answered 201 when it
    is the next request served. *)
Theorem X22_available_slot_is_bookable :
  forall (now : Z) (user : User.t) (b : CreateBody) (date : Z) (db : Store)
         (q : AvailabilityQuery) (d : DateInput) (searchDate : Z),
    ids_fresh db ->
    q_date q = Some d -> Js.truthy (text d) = true ->
    asDate d = Js.Instant searchDate ->
    searchDate <= date < searchDate + Js.day_ms ->
    In (start (b_timeSlot b)) (available_in (get_availability q db)) ->
    bookable now user b (q_doctorId q) date db ->
    status_code (fst (post_appointment now user b db)) = 201.
Proof.
  intros now user b date db q d searchDate Hfresh Hq Ht Hd Hwin Hav Hbook.
  destruct (Js.next_day (Js.Instant searchDate)) as [nextDay |] eqn:Hn;
    [| rewrite (availability_failed q db d searchDate Hq Ht Hd Hn) in Hav;
       destruct Hav].
  destruct (next_day_instant _ _ Hn) as [-> _].
  rewrite (availability_answer q db d searchDate _ Hq Ht Hd Hn) in Hav.
  unfold available_in in Hav. simpl in Hav.
  apply in_availableSlots in Hav. destruct Hav as [_ Hav].
  rewrite (free_slot_books now user b (q_doctorId q) date db Hbook Hfresh);
    [reflexivity |].
  intros (x & Hx & Hact & Hdoc & Hdate & Hslot).
  apply (Hav x).
  - apply in_bookedAppointments. repeat split; try assumption; lia.
  - now rewrite Hslot.
Qed.

Lemma X22_available_slot_is_bookable_witness :
  status_code
    (fst (post_appointment Sample.now Sample.Q (Sample.booking "10:00" "10:30")
            Cases.booked)) = 201.
Proof.
  apply (X22_available_slot_is_bookable Sample.now Sample.Q
           (Sample.booking "10:00" "10:30") 1749513600000 Cases.booked
           Sample.availability Sample.june10 1749513600000).
  - intros a Ha. vm_compute in Ha.
    destruct Ha as [<- | [<- | []]]; vm_compute; reflexivity.
  - reflexivity.
  - reflexivity.
  - reflexivity.
  - unfold Js.day_ms. lia.
  - vm_compute. auto 12.
  - split; [| reflexivity].
    repeat split; try reflexivity.
    exists Sample.D. repeat split; reflexivity.
Defined.
